(** * Value-Investing-Agent: the valuation and scoring engine

    A shallow embedding of the analysis modules of the repository
    ([src/analysis/ratios.ts], [dcf.ts], [margin-of-safety.ts],
    [moat-scorer.ts] and the thresholds of [config/defaults.ts]) and the
    properties the specification states about them.

    Number model.  A TypeScript [number] is modelled by a real number and
    the arithmetic operators by the field operations of [R]: rounding,
    overflow, [NaN] and the infinities of IEEE doubles are outside the
    model.  A value of type [number | null], an optional field and the
    result of [a[i]?.f] are modelled by [option R].  Division in [R] is
    total, division in the source is not: statements are made on inputs
    on which the source divides by a non-zero number, or on paths where
    the source guards the division itself. *)

From Stdlib Require Import Reals Lra Lia List String Bool Arith ZArith.
From Stdlib Require Import DecimalString Permutation Sorted.
Import ListNotations.
Open Scope R_scope.

(** ** JavaScript operators on numbers *)

Module JS.

(** [x >= y], [x > y], [x <= y], [x < y] as booleans. *)
Definition ge (x y : R) : bool := if Rge_dec x y then true else false.
Definition gt (x y : R) : bool := if Rgt_dec x y then true else false.
Definition le (x y : R) : bool := if Rle_dec x y then true else false.
Definition lt (x y : R) : bool := if Rlt_dec x y then true else false.

(** [x === y] on numbers. *)
Definition eq (x y : R) : bool := if Req_dec_T x y then true else false.

(** Truthiness of a number: every number but zero. *)
Definition truthy (x : R) : bool := negb (eq x 0).

(** [x || d] where [x] is a number or absent and [d] a number. *)
Definition or_default (x : option R) (d : R) : R :=
  match x with
  | Some v => if truthy v then v else d
  | None => d
  end.

(** [Math.max(a, b)] and [Math.min(a, b)]. *)
Definition max (a b : R) : R := Rmax a b.
Definition min (a b : R) : R := Rmin a b.

(** [Math.min(...(v :: vs))] and [Math.max(...(v :: vs))] on a non-empty
    argument list. *)
Definition min_of (v : R) (vs : list R) : R := fold_left Rmin vs v.
Definition max_of (v : R) (vs : list R) : R := fold_left Rmax vs v.

(** [xs.reduce((a, b) => a + b, 0)]. *)
Definition sum (xs : list R) : R := fold_left Rplus xs 0.

(** [Math.pow(x, y)] on a positive base [x]. *)
Definition pow (x y : R) : R := Rpower x y.

(** [Math.pow(x, n)] where [n] is a loop counter or the literal 2. *)
Definition pow_nat (x : R) (n : nat) : R := x ^ n.

(** [Math.abs(x)] and [Math.sqrt(x)]. *)
Definition abs (x : R) : R := Rabs x.
Definition sqrt (x : R) : R := R_sqrt.sqrt x.

(** [xs.length] as a number. *)
Definition length (A : Type) (xs : list A) : R := INR (List.length xs).
Arguments length {A} xs.

End JS.

(** ** config/defaults.ts *)

Module Thresholds.

(** [VALUE_INVESTING_THRESHOLDS.marginOfSafety]. *)
Record MarginOfSafetyThresholds := {
  minimum : R;
  good : R;
  excellent : R
}.

Definition marginOfSafety : MarginOfSafetyThresholds :=
  {| minimum := 0.25; good := 0.35; excellent := 0.50 |}.

End Thresholds.

(** ** analysis/margin-of-safety.ts *)

Module MarginOfSafety.

Inductive Status := undervalued | fair | overvalued.
Inductive RiskLevel := low | medium | high.

Record MarginOfSafetyResult := {
  marginOfSafety : R;
  currentPrice : R;
  intrinsicValue : R;
  status : Status;
  recommendation : string;
  riskLevel : RiskLevel
}.

Definition calculateMarginOfSafety (currentPrice intrinsicValue : R)
  : MarginOfSafetyResult :=
  if JS.le intrinsicValue 0 || JS.le currentPrice 0 then
    {| marginOfSafety := 0;
       currentPrice := currentPrice;
       intrinsicValue := intrinsicValue;
       status := overvalued;
       recommendation := "Unable to calculate - invalid values";
       riskLevel := high |}
  else
    let marginOfSafety := (intrinsicValue - currentPrice) / intrinsicValue in
    let thresholds := Thresholds.marginOfSafety in
    let '(status, recommendation, riskLevel) :=
      if JS.ge marginOfSafety (Thresholds.excellent thresholds) then
        (undervalued,
         ("Significantly undervalued with excellent margin of safety. " ++
          "Verify there are no fundamental problems causing the low price.")%string,
         low)
      else if JS.ge marginOfSafety (Thresholds.good thresholds) then
        (undervalued,
         ("Undervalued with good margin of safety. " ++
          "Consider for purchase if fundamentals are strong.")%string,
         low)
      else if JS.ge marginOfSafety (Thresholds.minimum thresholds) then
        (undervalued,
         ("Moderately undervalued with acceptable margin of safety. " ++
          "May be suitable for patient investors.")%string,
         medium)
      else if JS.ge marginOfSafety 0 then
        (fair,
         ("Trading near fair value with minimal safety margin. " ++
          "Wait for a better entry point unless you have high conviction.")%string,
         medium)
      else if JS.ge marginOfSafety (-0.25) then
        (overvalued,
         ("Moderately overvalued. Not recommended for value investors. " ++
          "Consider waiting for a price correction.")%string,
         high)
      else
        (overvalued,
         ("Significantly overvalued. High risk of price decline. " ++
          "Avoid purchase and consider selling if held.")%string,
         high) in
    {| marginOfSafety := marginOfSafety;
       currentPrice := currentPrice;
       intrinsicValue := intrinsicValue;
       status := status;
       recommendation := recommendation;
       riskLevel := riskLevel |}.

(** The result of [calculateCombinedMarginOfSafety].  [individual] keeps
    one entry per method, in the order of [Object.entries(valuations)]. *)
Record CombinedResult := {
  individual : list (string * option R);
  averageIntrinsicValue : R;
  combinedMarginOfSafety : R;
  combinedStatus : Status;
  combinedRecommendation : string
}.

(** The loop over [Object.entries(valuations)]: the entry written to
    [individual] for one method. *)
Definition individualEntry (currentPrice : R) (e : string * option R)
  : string * option R :=
  match snd e with
  | Some value =>
      if JS.gt value 0 then (fst e, Some ((value - currentPrice) / value))
      else (fst e, None)
  | None => (fst e, None)
  end.

(** The same loop: what it pushes onto [validValues]. *)
Fixpoint validValuesOf (valuations : list (string * option R)) : list R :=
  match valuations with
  | [] => []
  | (_, Some value) :: rest =>
      if JS.gt value 0 then value :: validValuesOf rest
      else validValuesOf rest
  | (_, None) :: rest => validValuesOf rest
  end.

Definition calculateCombinedMarginOfSafety
  (currentPrice : R) (valuations : list (string * option R))
  : CombinedResult :=
  let individual := map (individualEntry currentPrice) valuations in
  let validValues := validValuesOf valuations in
  match validValues with
  | [] =>
      {| individual := individual;
         averageIntrinsicValue := 0;
         combinedMarginOfSafety := -1;
         combinedStatus := overvalued;
         combinedRecommendation :=
           "Unable to calculate - no valid valuation methods" |}
  | v :: vs =>
      let conservativeValue := JS.min_of v vs in
      let averageValue := JS.sum validValues / JS.length validValues in
      let intrinsicValue := JS.min conservativeValue averageValue in
      let combinedMarginOfSafety :=
        (intrinsicValue - currentPrice) / intrinsicValue in
      let result := calculateMarginOfSafety currentPrice intrinsicValue in
      {| individual := individual;
         averageIntrinsicValue := intrinsicValue;
         combinedMarginOfSafety := combinedMarginOfSafety;
         combinedStatus := status result;
         combinedRecommendation := recommendation result |}
  end.

End MarginOfSafety.

(** ** providers/types.ts

    The statement records, with the fields the analysis modules read.
    Arrays are most recent fiscal year first. *)

Module Types.

Record IncomeStatement := {
  revenue : R;
  grossProfit : R;
  operatingIncome : R;
  interestExpense : option R;
  netIncome : R;
  eps : R;
  ebitda : R;
  sharesOutstanding : R
}.

Record BalanceSheet := {
  totalAssets : R;
  currentAssets : R;
  cash : R;
  inventory : option R;
  currentLiabilities : R;
  totalDebt : R;
  totalEquity : R
}.

Record CashFlowStatement := {
  depreciation : R;
  capitalExpenditure : R;
  freeCashFlow : R
}.

Record Financials := {
  incomeStatements : list IncomeStatement;
  balanceSheets : list BalanceSheet;
  cashFlowStatements : list CashFlowStatement
}.

Record StockQuote := {
  ticker : string;
  name : string;
  price : R;
  marketCap : R;
  pe : option R;
  pb : option R;
  ps : option R
}.

Record CompanyProfile := {
  employees : option R
}.

(** A [Date], as milliseconds since the epoch. *)
Definition Date := Z.

End Types.

(** ** analysis/ratios.ts *)

Module Ratios.
Import Types.

Definition calculateCAGR (startValue endValue years : R) : option R :=
  if JS.le startValue 0 || JS.le endValue 0 || JS.le years 0 then None
  else Some (JS.pow (endValue / startValue) (1 / years) - 1).

Record FinancialRatios := {
  pe : option R;
  pb : option R;
  ps : option R;
  peg : option R;
  evToEbitda : option R;
  priceToFcf : option R;
  grossMargin : R;
  operatingMargin : R;
  netMargin : R;
  roe : R;
  roa : R;
  roic : option R;
  currentRatio : R;
  quickRatio : R;
  debtToEquity : R;
  debtToAssets : R;
  interestCoverage : option R;
  netDebtToEbitda : option R;
  fcfYield : option R;
  cashConversion : option R;
  capexToDepreciation : option R;
  revenueGrowth5Y : option R;
  epsGrowth5Y : option R;
  fcfGrowth5Y : option R;
  dividendGrowth5Y : option R
}.

Definition getDefaultRatios : FinancialRatios :=
  {| pe := None; pb := None; ps := None; peg := None;
     evToEbitda := None; priceToFcf := None;
     grossMargin := 0; operatingMargin := 0; netMargin := 0;
     roe := 0; roa := 0; roic := None;
     currentRatio := 0; quickRatio := 0;
     debtToEquity := 0; debtToAssets := 0;
     interestCoverage := None; netDebtToEbitda := None;
     fcfYield := None; cashConversion := None;
     capexToDepreciation := None;
     revenueGrowth5Y := None; epsGrowth5Y := None; fcfGrowth5Y := None;
     dividendGrowth5Y := None |}.

(** [quote?.f] for a field [f] of type [number | null]. *)
Definition quoteField (quote : option StockQuote)
  (f : StockQuote -> option R) : option R :=
  match quote with
  | Some q => f q
  | None => None
  end.

Definition calculateFinancialRatios (financials : Financials)
  (quote : option StockQuote) : FinancialRatios :=
  let incomeStatements := Types.incomeStatements financials in
  let balanceSheets := Types.balanceSheets financials in
  let cashFlowStatements := Types.cashFlowStatements financials in
  match nth_error incomeStatements 0,
        nth_error balanceSheets 0,
        nth_error cashFlowStatements 0 with
  | Some income, Some balance, Some cashFlow =>
      let grossMargin :=
        if JS.gt (revenue income) 0
        then grossProfit income / revenue income else 0 in
      let operatingMargin :=
        if JS.gt (revenue income) 0
        then operatingIncome income / revenue income else 0 in
      let netMargin :=
        if JS.gt (revenue income) 0
        then netIncome income / revenue income else 0 in
      let roe :=
        if JS.gt (totalEquity balance) 0
        then netIncome income / totalEquity balance else 0 in
      let roa :=
        if JS.gt (totalAssets balance) 0
        then netIncome income / totalAssets balance else 0 in
      let estimatedTaxRate :=
        if JS.gt (netIncome income) 0 && JS.gt (operatingIncome income) 0
        then 1 - netIncome income / operatingIncome income
        else 0.25 in
      let nopat :=
        operatingIncome income *
        (1 - JS.max 0 (JS.min estimatedTaxRate 0.5)) in
      let investedCapital :=
        totalEquity balance + totalDebt balance - cash balance in
      let roic :=
        if JS.gt investedCapital 0
        then Some (nopat / investedCapital) else None in
      let currentRatio :=
        if JS.gt (currentLiabilities balance) 0
        then currentAssets balance / currentLiabilities balance else 0 in
      let inventory := JS.or_default (inventory balance) 0 in
      let quickRatio :=
        if JS.gt (currentLiabilities balance) 0
        then (currentAssets balance - inventory) / currentLiabilities balance
        else 0 in
      let debtToEquity :=
        if JS.gt (totalEquity balance) 0
        then totalDebt balance / totalEquity balance else 0 in
      let debtToAssets :=
        if JS.gt (totalAssets balance) 0
        then totalDebt balance / totalAssets balance else 0 in
      let interestCoverage :=
        match interestExpense income with
        | Some ie =>
            if JS.truthy ie && JS.gt ie 0
            then Some (operatingIncome income / ie) else None
        | None => None
        end in
      let netDebt := totalDebt balance - cash balance in
      let netDebtToEbitda :=
        if JS.gt (ebitda income) 0
        then Some (netDebt / ebitda income) else None in
      let fcfYield :=
        match quote with
        | Some q =>
            if JS.truthy (marketCap q) && JS.gt (marketCap q) 0
            then Some (freeCashFlow cashFlow / marketCap q) else None
        | None => None
        end in
      let cashConversion :=
        if JS.gt (netIncome income) 0
        then Some (freeCashFlow cashFlow / netIncome income) else None in
      let capexToDepreciation :=
        if JS.gt (depreciation cashFlow) 0
        then Some (capitalExpenditure cashFlow / depreciation cashFlow)
        else None in
      let years := Nat.min (List.length incomeStatements - 1) 5 in
      let revenueGrowth5Y :=
        if JS.gt (INR years) 0 then
          calculateCAGR
            (JS.or_default
               (option_map revenue (nth_error incomeStatements years)) 0)
            (revenue income)
            (INR years)
        else None in
      let epsGrowth5Y :=
        if JS.gt (INR years) 0 then
          calculateCAGR
            (JS.max
               (JS.or_default
                  (option_map eps (nth_error incomeStatements years)) 0)
               0.01)
            (JS.max (eps income) 0.01)
            (INR years)
        else None in
      let fcfYears := Nat.min (List.length cashFlowStatements - 1) 5 in
      let fcfGrowth5Y :=
        if JS.gt (INR fcfYears) 0 then
          calculateCAGR
            (JS.max
               (JS.or_default
                  (option_map freeCashFlow
                     (nth_error cashFlowStatements fcfYears)) 0)
               1)
            (JS.max (freeCashFlow cashFlow) 1)
            (INR fcfYears)
        else None in
      let pe := quoteField quote Types.pe in
      let pb := quoteField quote Types.pb in
      let ps := quoteField quote Types.ps in
      let peg :=
        match pe, epsGrowth5Y with
        | Some pe', Some g =>
            if JS.truthy pe' && JS.truthy g && JS.gt g 0
            then Some (pe' / (g * 100)) else None
        | _, _ => None
        end in
      let evToEbitda :=
        match quote with
        | Some q =>
            if JS.truthy (marketCap q) && JS.gt (ebitda income) 0
            then Some ((marketCap q + netDebt) / ebitda income) else None
        | None => None
        end in
      let priceToFcf :=
        match quote with
        | Some q =>
            if JS.truthy (marketCap q) && JS.gt (freeCashFlow cashFlow) 0
            then Some (marketCap q / freeCashFlow cashFlow) else None
        | None => None
        end in
      {| pe := pe; pb := pb; ps := ps; peg := peg;
         evToEbitda := evToEbitda; priceToFcf := priceToFcf;
         grossMargin := grossMargin; operatingMargin := operatingMargin;
         netMargin := netMargin; roe := roe; roa := roa; roic := roic;
         currentRatio := currentRatio; quickRatio := quickRatio;
         debtToEquity := debtToEquity; debtToAssets := debtToAssets;
         interestCoverage := interestCoverage;
         netDebtToEbitda := netDebtToEbitda;
         fcfYield := fcfYield; cashConversion := cashConversion;
         capexToDepreciation := capexToDepreciation;
         revenueGrowth5Y := revenueGrowth5Y;
         epsGrowth5Y := epsGrowth5Y;
         fcfGrowth5Y := fcfGrowth5Y;
         dividendGrowth5Y := None |}
  | _, _, _ => getDefaultRatios
  end.

End Ratios.

(** ** analysis/dcf.ts *)

Module DCF.
Import Types.

(** [projectionYears] is an integer (the configuration schema asks for
    one between 5 and 20): a [nat]. *)
Record DCFParams := {
  discountRate : R;
  terminalGrowthRate : R;
  projectionYears : nat;
  customGrowthRate : option R
}.

Record Assumptions := {
  a_discountRate : R;
  a_terminalGrowthRate : R;
  a_projectionYears : nat;
  estimatedGrowthRate : R;
  startingFcf : R
}.

Record DCFResult := {
  intrinsicValue : R;
  projectedFcf : list R;
  terminalValue : R;
  pvOfFcf : R;
  pvOfTerminal : R;
  enterpriseValue : R;
  assumptions : Assumptions
}.

Definition createNegativeFcfResult (params : DCFParams) : DCFResult :=
  {| intrinsicValue := 0;
     projectedFcf := [];
     terminalValue := 0;
     pvOfFcf := 0;
     pvOfTerminal := 0;
     enterpriseValue := 0;
     assumptions :=
       {| a_discountRate := discountRate params;
          a_terminalGrowthRate := terminalGrowthRate params;
          a_projectionYears := projectionYears params;
          estimatedGrowthRate := 0;
          startingFcf := 0 |} |}.

(** [growthRates.sort((a, b) => a - b)]: ascending order. *)
Fixpoint insertSorted (x : R) (xs : list R) : list R :=
  match xs with
  | [] => [x]
  | y :: ys => if JS.le x y then x :: y :: ys else y :: insertSorted x ys
  end.

Definition sortAscending (xs : list R) : list R :=
  fold_right insertSorted [] xs.

(** One of the three blocks of [estimateGrowthRate]: the rates it pushes
    onto [growthRates] for a statement array [stmts] and a field [f]. *)
Definition growthCandidate (A : Type) (stmts : list A) (f : A -> R)
  : list R :=
  if (3 <=? List.length stmts)%nat then
    let years := Nat.min (List.length stmts - 1) 5 in
    let startValue := option_map f (nth_error stmts years) in
    let endValue := option_map f (nth_error stmts 0) in
    match startValue, endValue with
    | Some s, Some e =>
        if JS.truthy s && JS.gt s 0 && JS.truthy e && JS.gt e 0 then
          match Ratios.calculateCAGR s e (INR years) with
          | Some growth => [growth]
          | None => []
          end
        else []
    | _, _ => []
    end
  else [].
Arguments growthCandidate {A} stmts f.

Definition estimateGrowthRate (financials : Financials) : R :=
  let cashFlowStatements := Types.cashFlowStatements financials in
  let incomeStatements := Types.incomeStatements financials in
  let growthRates :=
    growthCandidate cashFlowStatements freeCashFlow ++
    growthCandidate incomeStatements revenue ++
    growthCandidate incomeStatements eps in
  if (List.length growthRates =? 0)%nat then 0.05
  else
    let sorted := sortAscending growthRates in
    let median := nth (Nat.div (List.length sorted) 2) sorted 0 in
    median * 0.8.

(** The projection loop [for (year = 1; year <= projectionYears; year++)]:
    [n] iterations are left, [year] is the loop counter and [fcf] the
    running cash flow; the result is what the loop pushes. *)
Fixpoint projectLoop (growthRate safeTerminalGrowth : R)
  (projectionYears n year : nat) (fcf : R) : list R :=
  match n with
  | O => []
  | S n' =>
      let yearGrowthRate :=
        growthRate -
        (growthRate - safeTerminalGrowth) * (INR year / INR projectionYears) in
      let fcf' := fcf * (1 + yearGrowthRate) in
      fcf' :: projectLoop growthRate safeTerminalGrowth projectionYears
                n' (S year) fcf'
  end.

(** The discounting loop: [projected] holds [projectedFcf[year - 1]]
    onwards, [pv] is the running sum. *)
Fixpoint pvLoop (discountRate : R) (projected : list R) (year : nat)
  (pv : R) : R :=
  match projected with
  | [] => pv
  | f :: rest =>
      let discountFactor := JS.pow_nat (1 + discountRate) year in
      pvLoop discountRate rest (S year) (pv + f / discountFactor)
  end.

(** [calculateDCF].  The [quote] argument of the source is never read.
    For [projectionYears = 0] the source reads [projectedFcf[-1]], which
    is undefined: the model is meant for [projectionYears >= 1]. *)
Definition calculateDCF (financials : Financials) (quote : StockQuote)
  (params : DCFParams) : DCFResult :=
  let discountRate := discountRate params in
  let terminalGrowthRate := terminalGrowthRate params in
  let projectionYears := projectionYears params in
  let customGrowthRate := customGrowthRate params in
  let cashFlowStatements := Types.cashFlowStatements financials in
  let incomeStatements := Types.incomeStatements financials in
  let currentFcf :=
    JS.or_default
      (option_map freeCashFlow (nth_error cashFlowStatements 0)) 0 in
  if JS.le currentFcf 0 then createNegativeFcfResult params
  else
    let growthRate :=
      match customGrowthRate with
      | Some g => g
      | None => estimateGrowthRate financials
      end in
    let growthRate := JS.max (-0.10) (JS.min growthRate 0.25) in
    let safeTerminalGrowth :=
      JS.min terminalGrowthRate (discountRate - 0.01) in
    let projectedFcf :=
      projectLoop growthRate safeTerminalGrowth projectionYears
        projectionYears 1 currentFcf in
    let pvOfFcf := pvLoop discountRate projectedFcf 1 0 in
    let terminalFcf :=
      nth (projectionYears - 1) projectedFcf 0 * (1 + safeTerminalGrowth) in
    let terminalValue :=
      terminalFcf / (discountRate - safeTerminalGrowth) in
    let pvOfTerminal :=
      terminalValue / JS.pow_nat (1 + discountRate) projectionYears in
    let enterpriseValue := pvOfFcf + pvOfTerminal in
    let sharesOutstanding :=
      JS.or_default
        (option_map sharesOutstanding (nth_error incomeStatements 0)) 1 in
    let netDebt :=
      JS.or_default
        (option_map totalDebt (nth_error (balanceSheets financials) 0)) 0 -
      JS.or_default
        (option_map cash (nth_error (balanceSheets financials) 0)) 0 in
    let equityValue := enterpriseValue - netDebt in
    let intrinsicValue := JS.max 0 (equityValue / sharesOutstanding) in
    {| intrinsicValue := intrinsicValue;
       projectedFcf := projectedFcf;
       terminalValue := terminalValue;
       pvOfFcf := pvOfFcf;
       pvOfTerminal := pvOfTerminal;
       enterpriseValue := enterpriseValue;
       assumptions :=
         {| a_discountRate := discountRate;
            a_terminalGrowthRate := safeTerminalGrowth;
            a_projectionYears := projectionYears;
            estimatedGrowthRate := growthRate;
            startingFcf := currentFcf |} |}.

(** [netDebt] of [calculateDCF], for statements about it. *)
Definition netDebtOf (financials : Financials) : R :=
  JS.or_default
    (option_map totalDebt (nth_error (balanceSheets financials) 0)) 0 -
  JS.or_default
    (option_map cash (nth_error (balanceSheets financials) 0)) 0.

(** [cashFlowStatements[0]?.freeCashFlow || 0]. *)
Definition currentFcfOf (financials : Financials) : R :=
  JS.or_default
    (option_map freeCashFlow (nth_error (cashFlowStatements financials) 0)) 0.

(** [incomeStatements[0]?.sharesOutstanding || 1]. *)
Definition sharesOf (financials : Financials) : R :=
  JS.or_default
    (option_map sharesOutstanding
       (nth_error (incomeStatements financials) 0)) 1.

(** The growth rate [calculateDCF] projects with, after the cap. *)
Definition growthRateOf (financials : Financials) (params : DCFParams) : R :=
  JS.max (-0.10)
    (JS.min
       (match customGrowthRate params with
        | Some g => g
        | None => estimateGrowthRate financials
        end) 0.25).

(** [safeTerminalGrowth] of [calculateDCF]. *)
Definition safeTerminalGrowthOf (params : DCFParams) : R :=
  JS.min (terminalGrowthRate params) (discountRate params - 0.01).

(** The enterprise value [calculateDCF] computes from the starting cash
    flow [fcf], the capped growth rate [g], the safe terminal growth [s],
    the discount rate [r] and [n] projection years. *)
Definition enterpriseValueOf (fcf g s r : R) (n : nat) : R :=
  let projected := projectLoop g s n n 1 fcf in
  pvLoop r projected 1 0 +
  nth (n - 1) projected 0 * (1 + s) / (r - s) / JS.pow_nat (1 + r) n.

(** The factor by which the cash flow grows in year [k] of [n], and that
    factor discounted by one year. *)
Definition yearFactor (g s : R) (n k : nat) : R :=
  1 + (g - (g - s) * (INR k / INR n)).

Definition discounted (g s r : R) (n k : nat) : R :=
  yearFactor g s n k / (1 + r).

(** The product of [q y], ..., [q (y + n - 1)]. *)
Fixpoint prodFrom (q : nat -> R) (n y : nat) : R :=
  match n with
  | O => 1
  | S n' => q y * prodFrom q n' (S y)
  end.

(** The sum of the running products [x * q y], [x * q y * q (y + 1)], ...
    over [n] years. *)
Fixpoint sumFrom (q : nat -> R) (n y : nat) (x : R) : R :=
  match n with
  | O => 0
  | S n' => x * q y + sumFrom q n' (S y) (x * q y)
  end.

(** The regime in which the discount rate caps the terminal growth, where
    [safeTerminalGrowth = discountRate - 0.01]: with [p = 1 + growthRate]
    and [t = year / projectionYears], the discounted factor of a year, and
    that of the last year. *)
Definition cappedFactor (p t r : R) : R :=
  (p * (1 - t) + (r + 0.99) * t) / (1 + r).

Definition cappedLastFactor (r : R) : R := (r + 0.99) / (1 + r).

(** The share count of the most recent income record, when there is one,
    is not negative. *)
Definition shareCountNotNegative (financials : Financials) : Prop :=
  match nth_error (incomeStatements financials) 0 with
  | Some income => 0 <= sharesOutstanding income
  | None => True
  end.

End DCF.

(** ** analysis/moat-scorer.ts *)

Module Moat.
Import Types.

Inductive MoatRating := none | narrow | wide.
Inductive Assessment := weak | moderate | strong.

Record BrandPowerMetrics := {
  m_grossMargin : R;
  grossMarginStability : R
}.

Record CostAdvantageMetrics := {
  m_operatingMargin : R;
  operatingMarginVsIndustry : option R
}.

Record NetworkEffectMetrics := {
  revenueGrowth : R;
  userGrowth : option R
}.

Record SwitchingCostsMetrics := {
  revenueStability : R;
  customerRetention : option R
}.

Record ScaleEconomiesMetrics := {
  m_marketCap : R;
  revenuePerEmployee : option R
}.

(** One moat dimension: its score, the evidence lines and its metrics. *)
Record Dimension (M : Type) := {
  score : R;
  evidence : list string;
  metrics : M
}.
Arguments score {M} d.
Arguments evidence {M} d.
Arguments metrics {M} d.

Record Dimensions := {
  brandPower : Dimension BrandPowerMetrics;
  costAdvantage : Dimension CostAdvantageMetrics;
  networkEffect : Dimension NetworkEffectMetrics;
  switchingCosts : Dimension SwitchingCostsMetrics;
  scaleEconomies : Dimension ScaleEconomiesMetrics
}.

Record Durability := {
  d_score : R;
  assessment : Assessment;
  factors : list string
}.

Record MoatAnalysis := {
  ma_ticker : string;
  companyName : string;
  overallScore : R;
  moatRating : MoatRating;
  dimensions : Dimensions;
  durability : Durability;
  analyzedAt : Date
}.

(** [calculateStability]. *)
Definition calculateStability (values : list R) : R :=
  if JS.lt (JS.length values) 2 then 1
  else
    let mean := JS.sum values / JS.length values in
    if JS.eq mean 0 then 0
    else
      let variance :=
        fold_left (fun sum val => sum + JS.pow_nat (val - mean) 2) values 0
        / JS.length values in
      let stdDev := JS.sqrt variance in
      let cv := stdDev / JS.abs mean in
      JS.max 0 (JS.min 1 (1 - cv)).

(** [revenues.slice(0, -1).every((rev, i) => rev >= revenues[i + 1])]. *)
Fixpoint everyAtLeastNext (revenues : list R) : bool :=
  match revenues with
  | rev :: (next :: _) as rest => JS.ge rev next && everyAtLeastNext rest
  | _ => true
  end.

(** The loop of [analyzeDurability] that fills [roeValues]; it runs
    while both arrays have an element at index [i]. *)
Fixpoint roeValuesOf (incomes : list IncomeStatement)
  (balances : list BalanceSheet) : list R :=
  match incomes, balances with
  | inc :: incomes', bal :: balances' =>
      let netIncome := JS.or_default (Some (netIncome inc)) 0 in
      let equity := JS.or_default (Some (totalEquity bal)) 1 in
      (netIncome / equity) :: roeValuesOf incomes' balances'
  | _, _ => []
  end.

(** [lines.push(line)]. *)
Definition push (lines : list string) (line : string) : list string :=
  lines ++ [line].

Section WithFormatting.

(** [x.toFixed(digits)], the decimal rendering of a number. *)
Variable toFixed : R -> nat -> string.

Local Open Scope string_scope.

Definition analyzeBrandPower (financials : Financials)
  (ratios : Ratios.FinancialRatios) : Dimension BrandPowerMetrics :=
  let grossMargin := Ratios.grossMargin ratios in
  let '(score, evidence) :=
    if JS.ge grossMargin 0.60 then
      (1 + 2,
       ["Exceptional gross margin (" ++ toFixed (grossMargin * 100) 1 ++
        "%) indicates strong pricing power"])
    else if JS.ge grossMargin 0.40 then
      (1 + 1.5,
       ["Strong gross margin (" ++ toFixed (grossMargin * 100) 1 ++
        "%) suggests brand value"])
    else if JS.ge grossMargin 0.25 then
      (1 + 0.5,
       ["Moderate gross margin (" ++ toFixed (grossMargin * 100) 1 ++ "%)"])
    else
      (1,
       ["Low gross margin (" ++ toFixed (grossMargin * 100) 1 ++
        "%) suggests commodity-like products"]) in
  let grossMargins :=
    map (fun stmt =>
           if JS.gt (revenue stmt) 0
           then grossProfit stmt / revenue stmt else 0)
        (incomeStatements financials) in
  let marginStability := calculateStability grossMargins in
  let '(score, evidence) :=
    if JS.ge marginStability 0.9 then
      (score + 1, push evidence ("Very stable gross margins over time"))
    else if JS.ge marginStability 0.7 then
      (score + 0.5, push evidence ("Reasonably stable gross margins"))
    else
      (score,
       push evidence ("Volatile gross margins suggest weak pricing power")) in
  {| score := JS.min 5 score;
     evidence := evidence;
     metrics := {| m_grossMargin := grossMargin;
                   grossMarginStability := marginStability |} |}.

Definition analyzeCostAdvantage (financials : Financials)
  (ratios : Ratios.FinancialRatios) : Dimension CostAdvantageMetrics :=
  let opMargin := Ratios.operatingMargin ratios in
  let '(score, evidence) :=
    if JS.ge opMargin 0.30 then
      (1 + 2,
       ["Exceptional operating margin (" ++ toFixed (opMargin * 100) 1 ++ "%)"])
    else if JS.ge opMargin 0.20 then
      (1 + 1.5,
       ["Strong operating margin (" ++ toFixed (opMargin * 100) 1 ++ "%)"])
    else if JS.ge opMargin 0.10 then
      (1 + 0.5,
       ["Adequate operating margin (" ++ toFixed (opMargin * 100) 1 ++ "%)"])
    else
      (1,
       ["Low operating margin (" ++ toFixed (opMargin * 100) 1 ++
        "%) indicates no cost advantage"]) in
  let opMargins :=
    map (fun stmt =>
           if JS.gt (revenue stmt) 0
           then operatingIncome stmt / revenue stmt else 0)
        (incomeStatements financials) in
  let '(score, evidence) :=
    if (3 <=? List.length opMargins)%nat then
      let oldest := nth (List.length opMargins - 1) opMargins 0 in
      let trend :=
        (nth 0 opMargins 0 - oldest) /
        JS.abs (JS.or_default (Some oldest) 1) in
      if JS.gt trend 0.1 then
        (score + 1,
         push evidence ("Operating margins improving over time"))
      else if JS.gt trend 0 then
        (score + 0.5,
         push evidence ("Operating margins stable to slightly improving"))
      else if JS.lt trend (-0.1) then
        (score - 0.5,
         push evidence ("Operating margins declining - cost advantage may be eroding"))
      else (score, evidence)
    else (score, evidence) in
  {| score := JS.min 5 (JS.max 1 score);
     evidence := evidence;
     metrics := {| m_operatingMargin := opMargin;
                   operatingMarginVsIndustry := None |} |}.

Definition analyzeNetworkEffect (financials : Financials)
  (ratios : Ratios.FinancialRatios) : Dimension NetworkEffectMetrics :=
  let revenueGrowth := Ratios.revenueGrowth5Y ratios in
  let '(score, evidence) :=
    match revenueGrowth with
    | Some rg =>
        if JS.ge rg 0.20 then
          (1 + 2,
           ["Strong revenue growth (" ++ toFixed (rg * 100) 1 ++
            "% CAGR) may indicate network effects"])
        else if JS.ge rg 0.10 then
          (1 + 1,
           ["Good revenue growth (" ++ toFixed (rg * 100) 1 ++ "% CAGR)"])
        else if JS.ge rg 0.05 then
          (1 + 0.5,
           ["Moderate revenue growth (" ++ toFixed (rg * 100) 1 ++
            "% CAGR)"])
        else
          (1,
           ["Slow revenue growth (" ++ toFixed (rg * 100) 1 ++
            "% CAGR) - limited network effects"])
    | None => (1, [])
    end in
  let revenues := map revenue (incomeStatements financials) in
  let netMargins :=
    map (fun stmt =>
           if JS.gt (revenue stmt) 0
           then netIncome stmt / revenue stmt else 0)
        (incomeStatements financials) in
  let '(score, evidence) :=
    if (3 <=? List.length revenues)%nat then
      let revenueGrew :=
        JS.gt (nth 0 revenues 0)
              (nth (List.length revenues - 1) revenues 0) in
      let marginsImproved :=
        JS.gt (nth 0 netMargins 0)
              (nth (List.length netMargins - 1) netMargins 0) in
      if revenueGrew && marginsImproved then
        (score + 1,
         push evidence ("Margins improving with scale - possible network effect"))
      else (score, evidence)
    else (score, evidence) in
  {| score := JS.min 5 score;
     evidence := evidence;
     metrics := {| revenueGrowth := JS.or_default revenueGrowth 0;
                   userGrowth := None |} |}.

Definition analyzeSwitchingCosts (financials : Financials)
  (ratios : Ratios.FinancialRatios) : Dimension SwitchingCostsMetrics :=
  let revenues := map revenue (incomeStatements financials) in
  let revenueStability := calculateStability revenues in
  let '(score, evidence) :=
    if JS.ge revenueStability 0.95 then
      (1 + 2,
       ["Very stable revenue base suggests high customer retention"])
    else if JS.ge revenueStability 0.85 then
      (1 + 1, ["Stable revenue indicates moderate switching costs"])
    else if JS.ge revenueStability 0.70 then
      (1 + 0.5, ["Moderately stable revenue"])
    else
      (1, ["Volatile revenue suggests low switching costs"]) in
  let allPositiveGrowth := everyAtLeastNext revenues in
  let '(score, evidence) :=
    if allPositiveGrowth && (3 <=? List.length revenues)%nat then
      (score + 1,
       push evidence ("Consistent revenue growth indicates customer stickiness"))
    else (score, evidence) in
  let '(score, evidence) :=
    if JS.ge (Ratios.grossMargin ratios) 0.50 then
      (score + 0.5,
       push evidence ("High margins may indicate customer lock-in"))
    else (score, evidence) in
  {| score := JS.min 5 score;
     evidence := evidence;
     metrics := {| revenueStability := revenueStability;
                   customerRetention := None |} |}.

Definition analyzeScaleEconomies (financials : Financials)
  (quote : StockQuote) (profile : CompanyProfile)
  (ratios : Ratios.FinancialRatios) : Dimension ScaleEconomiesMetrics :=
  let marketCap := marketCap quote in
  let '(score, evidence) :=
    if JS.ge marketCap 200e9 then
      (1 + 2, ["Mega-cap company with significant scale advantages"])
    else if JS.ge marketCap 50e9 then
      (1 + 1.5, ["Large-cap company with scale benefits"])
    else if JS.ge marketCap 10e9 then
      (1 + 0.5, ["Mid-cap company with some scale advantages"])
    else
      (1, ["Smaller company - limited scale advantages"]) in
  let latestRevenue :=
    JS.or_default
      (option_map revenue (nth_error (incomeStatements financials) 0)) 0 in
  let '(score, evidence, revenuePerEmployee) :=
    match employees profile with
    | Some employees =>
        if JS.truthy employees && JS.gt employees 0 then
          let rpe := latestRevenue / employees in
          if JS.ge rpe 1000000 then
            (score + 1.5,
             push evidence ("High revenue per employee ($" ++ toFixed (rpe / 1000) 0 ++
               "K) indicates efficiency"),
             Some rpe)
          else if JS.ge rpe 500000 then
            (score + 0.5,
             push evidence ("Good revenue per employee ($" ++ toFixed (rpe / 1000) 0 ++
               "K)"),
             Some rpe)
          else
            (score,
             push evidence ("Lower revenue per employee ($" ++ toFixed (rpe / 1000) 0 ++
               "K)"),
             Some rpe)
        else (score, evidence, None)
    | None => (score, evidence, None)
    end in
  {| score := JS.min 5 score;
     evidence := evidence;
     metrics := {| m_marketCap := marketCap;
                   revenuePerEmployee := revenuePerEmployee |} |}.

Definition analyzeDurability (financials : Financials)
  (ratios : Ratios.FinancialRatios) (overallScore : R) : Durability :=
  let durabilityScore := overallScore in
  let roeValues :=
    roeValuesOf (incomeStatements financials) (balanceSheets financials) in
  let roeStability := calculateStability roeValues in
  let avgRoe := JS.sum roeValues / JS.length roeValues in
  let '(durabilityScore, factors) :=
    if JS.ge avgRoe 0.15 && JS.ge roeStability 0.8 then
      (durabilityScore + 1,
       ["Consistently high ROE indicates durable advantage"])
    else if JS.ge avgRoe 0.10 && JS.ge roeStability 0.6 then
      (durabilityScore, ["Moderately consistent ROE"])
    else
      (durabilityScore - 0.5,
       ["Inconsistent ROE raises durability concerns"]) in
  let fcfValues := map freeCashFlow (cashFlowStatements financials) in
  let positiveFcfYears :=
    List.length (filter (fun fcf => JS.gt fcf 0) fcfValues) in
  let '(durabilityScore, factors) :=
    if (positiveFcfYears =? List.length fcfValues)%nat &&
       (3 <=? List.length fcfValues)%nat then
      (durabilityScore + 0.5,
       push factors ("Consistently positive free cash flow"))
    else if JS.ge (INR positiveFcfYears) (JS.length fcfValues * 0.8) then
      (durabilityScore,
       push factors ("Generally positive free cash flow"))
    else
      (durabilityScore - 0.5,
       push factors ("Inconsistent free cash flow")) in
  let '(assessment, factors) :=
    if JS.ge durabilityScore 4 then
      (strong, push factors ("Moat appears sustainable long-term"))
    else if JS.ge durabilityScore 2.5 then
      (moderate, push factors ("Moat durability is uncertain"))
    else
      (weak,
       push factors ("Competitive advantages may be temporary")) in
  {| d_score := JS.max 1 (JS.min 5 durabilityScore);
     assessment := assessment;
     factors := factors |}.

(** [analyzeMoat].  The source stamps the record with [new Date()]; the
    clock it reads is the argument [now]. *)
Definition analyzeMoat (now : Date) (financials : Financials)
  (quote : StockQuote) (profile : CompanyProfile) : MoatAnalysis :=
  let ratios := Ratios.calculateFinancialRatios financials (Some quote) in
  let brandPower := analyzeBrandPower financials ratios in
  let costAdvantage := analyzeCostAdvantage financials ratios in
  let networkEffect := analyzeNetworkEffect financials ratios in
  let switchingCosts := analyzeSwitchingCosts financials ratios in
  let scaleEconomies :=
    analyzeScaleEconomies financials quote profile ratios in
  let overallScore :=
    JS.max_of (score brandPower)
      [score costAdvantage; score networkEffect;
       score switchingCosts; score scaleEconomies] in
  let moatRating :=
    if JS.ge overallScore 4 then wide
    else if JS.ge overallScore 2.5 then narrow
    else none in
  let durability := analyzeDurability financials ratios overallScore in
  {| ma_ticker := ticker quote;
     companyName := name quote;
     overallScore := overallScore;
     moatRating := moatRating;
     dimensions :=
       {| brandPower := brandPower;
          costAdvantage := costAdvantage;
          networkEffect := networkEffect;
          switchingCosts := switchingCosts;
          scaleEconomies := scaleEconomies |};
     durability := durability;
     analyzedAt := now |}.

End WithFormatting.

(** The scores of the five dimensions of an analysis. *)
Definition dimensionScores (a : MoatAnalysis) : list R :=
  [score (brandPower (dimensions a));
   score (costAdvantage (dimensions a));
   score (networkEffect (dimensions a));
   score (switchingCosts (dimensions a));
   score (scaleEconomies (dimensions a))].

End Moat.

(** ** analysis/margin-of-safety.ts: target prices *)

Module MarginTargets.

(** The default of the parameters [desiredMargin] and [requiredMargin]. *)
Definition defaultMargin : R := 0.25.

(** [calculateTargetPrice]; [None] is an omitted [desiredMargin]. *)
Definition calculateTargetPrice (intrinsicValue : R)
  (desiredMargin : option R) : R :=
  let desiredMargin :=
    match desiredMargin with Some m => m | None => defaultMargin end in
  if JS.le intrinsicValue 0 then 0
  else intrinsicValue * (1 - desiredMargin).

Record RequiredDrop := {
  targetPrice : R;
  percentDrop : R;
  isAlreadyAdequate : bool
}.

(** [calculateRequiredDrop]; [None] is an omitted [requiredMargin]. *)
Definition calculateRequiredDrop (currentPrice intrinsicValue : R)
  (requiredMargin : option R) : RequiredDrop :=
  let requiredMargin :=
    match requiredMargin with Some m => m | None => defaultMargin end in
  let targetPrice := calculateTargetPrice intrinsicValue (Some requiredMargin) in
  let percentDrop := (currentPrice - targetPrice) / currentPrice in
  let isAlreadyAdequate := JS.le currentPrice targetPrice in
  {| targetPrice := targetPrice;
     percentDrop := percentDrop;
     isAlreadyAdequate := isAlreadyAdequate |}.

End MarginTargets.

(** ** analysis/dcf.ts: the sensitivity sweep *)

Module Sensitivity.
Import Types DCF.

Record SensitivityResult := {
  discountRates : list R;
  growthRates : list R;
  values : list (list R)
}.

Definition dcfSensitivity (financials : Financials) (quote : StockQuote)
  (baseParams : DCFParams) : SensitivityResult :=
  let discountRates :=
    [discountRate baseParams - 0.02;
     discountRate baseParams - 0.01;
     discountRate baseParams;
     discountRate baseParams + 0.01;
     discountRate baseParams + 0.02] in
  let growthRates :=
    [JS.or_default (customGrowthRate baseParams) 0.05 - 0.02;
     JS.or_default (customGrowthRate baseParams) 0.05 - 0.01;
     JS.or_default (customGrowthRate baseParams) 0.05;
     JS.or_default (customGrowthRate baseParams) 0.05 + 0.01;
     JS.or_default (customGrowthRate baseParams) 0.05 + 0.02] in
  let values :=
    map (fun dr =>
           map (fun gr =>
                  let result :=
                    calculateDCF financials quote
                      {| discountRate := dr;
                         terminalGrowthRate := terminalGrowthRate baseParams;
                         projectionYears := projectionYears baseParams;
                         customGrowthRate := Some gr |} in
                  intrinsicValue result)
               growthRates)
        discountRates in
  {| discountRates := discountRates;
     growthRates := growthRates;
     values := values |}.

(** [values[i][j]], 0 outside the grid. *)
Definition cell (result : SensitivityResult) (i j : nat) : R :=
  nth j (nth i (values result) []) 0.

End Sensitivity.

(** ** analysis/ratios.ts: the quality scores *)

Module RatioScores.
Import Ratios.

Record Evaluation := {
  score : R;
  assessment : string;
  details : list string
}.

Definition evaluateProfitability (ratios : FinancialRatios) : Evaluation :=
  let '(score, details) :=
    if JS.ge (roe ratios) 0.20 then (0 + 2, ["Excellent ROE (>20%)"%string])
    else if JS.ge (roe ratios) 0.15 then (0 + 1, ["Good ROE (15-20%)"%string])
    else if JS.ge (roe ratios) 0.10 then (0, ["Adequate ROE (10-15%)"%string])
    else (0 - 1, ["Low ROE (<10%)"%string]) in
  let '(score, details) :=
    if JS.ge (grossMargin ratios) 0.40 then
      (score + 2,
       Moat.push details "Strong gross margin (>40%) - indicates pricing power")
    else if JS.ge (grossMargin ratios) 0.25 then
      (score + 1, Moat.push details "Moderate gross margin (25-40%)")
    else
      (score,
       Moat.push details "Low gross margin (<25%) - commodity-like business") in
  let '(score, details) :=
    if JS.ge (operatingMargin ratios) 0.20 then
      (score + 1, Moat.push details "Excellent operating margin (>20%)")
    else if JS.ge (operatingMargin ratios) 0.10 then
      (score, Moat.push details "Good operating margin (10-20%)")
    else
      (score - 1, Moat.push details "Low operating margin (<10%)") in
  let '(score, details) :=
    match roic ratios with
    | Some roic =>
        if JS.ge roic 0.15 then
          (score + 1,
           Moat.push details "High ROIC (>15%) - efficient capital allocation")
        else if JS.ge roic 0.10 then
          (score, Moat.push details "Adequate ROIC (10-15%)")
        else
          (score,
           Moat.push details "Low ROIC (<10%) - poor capital efficiency")
    | None => (score, details)
    end in
  let assessment :=
    if JS.ge score 4 then
      "Excellent profitability - strong competitive advantage"%string
    else if JS.ge score 2 then "Good profitability"%string
    else if JS.ge score 0 then "Average profitability"%string
    else "Weak profitability - no clear competitive advantage"%string in
  {| score := score; assessment := assessment; details := details |}.

Definition evaluateSafety (ratios : FinancialRatios) : Evaluation :=
  let '(score, details) :=
    if JS.ge (currentRatio ratios) 2.0 then
      (0 + 2, ["Strong current ratio (>2.0) - excellent liquidity"%string])
    else if JS.ge (currentRatio ratios) 1.5 then
      (0 + 1, ["Good current ratio (1.5-2.0)"%string])
    else if JS.ge (currentRatio ratios) 1.0 then
      (0, ["Adequate current ratio (1.0-1.5)"%string])
    else
      (0 - 2, ["Weak current ratio (<1.0) - liquidity risk"%string]) in
  let '(score, details) :=
    if JS.lt (debtToEquity ratios) 0.5 then
      (score + 2,
       Moat.push details
         "Low debt to equity (<0.5) - conservative capital structure")
    else if JS.lt (debtToEquity ratios) 1.0 then
      (score + 1, Moat.push details "Moderate debt to equity (0.5-1.0)")
    else if JS.lt (debtToEquity ratios) 2.0 then
      (score, Moat.push details "High debt to equity (1.0-2.0)")
    else
      (score - 2,
       Moat.push details "Very high debt to equity (>2.0) - financial risk") in
  let '(score, details) :=
    match interestCoverage ratios with
    | Some coverage =>
        if JS.ge coverage 10 then
          (score + 1, Moat.push details "Excellent interest coverage (>10x)")
        else if JS.ge coverage 5 then
          (score, Moat.push details "Good interest coverage (5-10x)")
        else if JS.ge coverage 2 then
          (score - 1, Moat.push details "Low interest coverage (2-5x)")
        else
          (score - 2, Moat.push details "Critical interest coverage (<2x)")
    | None => (score, details)
    end in
  let '(score, details) :=
    if JS.lt (debtToAssets ratios) 0.30 then
      (score + 1, Moat.push details "Low debt to assets (<30%)")
    else if JS.gt (debtToAssets ratios) 0.50 then
      (score - 1, Moat.push details "High debt to assets (>50%)")
    else (score, details) in
  let assessment :=
    if JS.ge score 4 then
      "Excellent financial safety - fortress balance sheet"%string
    else if JS.ge score 2 then "Good financial safety"%string
    else if JS.ge score 0 then "Adequate financial safety"%string
    else "Concerning financial safety - high risk"%string in
  {| score := score; assessment := assessment; details := details |}.

End RatioScores.

(** ** analysis/graham.ts *)

Module Graham.
Import Types.

Definition calculateGrahamNumber (eps bookValuePerShare : R) : R :=
  if JS.le eps 0 || JS.le bookValuePerShare 0 then 0
  else JS.sqrt (22.5 * eps * bookValuePerShare).

Definition calculateGrahamGrowthValue (eps growthRate bondYield : R)
  : option R :=
  if JS.le eps 0 || JS.le bondYield 0 then None
  else
    let g := growthRate * 100 in
    let value := eps * (8.5 + 2 * g) * 4.4 / (bondYield * 100) in
    Some (JS.max 0 value).

Definition calculateOwnerEarnings (financials : Financials) : R :=
  match nth_error (incomeStatements financials) 0,
        nth_error (cashFlowStatements financials) 0 with
  | Some income, Some cashFlow =>
      let netIncome := netIncome income in
      let depreciation := depreciation cashFlow in
      let maintenanceCapEx := capitalExpenditure cashFlow * 0.7 in
      netIncome + depreciation - maintenanceCapEx
  | _, _ => 0
  end.

Record Criterion := {
  criterion : string;
  passed : bool;
  detail : string
}.

Record GrahamResult := {
  grahamNumber : R;
  grahamGrowthValue : option R;
  g_eps : R;
  g_bookValuePerShare : R;
  growthRate : option R;
  bondYield : R;
  passesDefensiveCriteria : bool;
  defensiveCriteria : list Criterion
}.

(** An integer in a template literal. *)
Definition showNat (n : nat) : string :=
  NilZero.string_of_uint (Nat.to_uint n).

Section WithOmittedFields.

(** The two fields of the source records that [Types] leaves out, as
    projections: [balance.bookValuePerShare] and [quote.dividendYield]. *)
Variable bookValuePerShare : BalanceSheet -> R.
Variable dividendYield : StockQuote -> option R.

(** [x.toFixed(digits)]. *)
Variable toFixed : R -> nat -> string.

Local Open Scope string_scope.

Definition evaluateDefensiveCriteria (financials : Financials)
  (quote : StockQuote) : list Criterion :=
  let minMarketCap := 500000000 in
  let c1 :=
    {| criterion := "Adequate Size";
       passed := JS.ge (marketCap quote) minMarketCap;
       detail := "Market cap: $" ++ toFixed (marketCap quote / 1e9) 2 ++
                 "B (minimum: $500M)" |} in
  let currentRatio :=
    match nth_error (balanceSheets financials) 0 with
    | Some balance =>
        currentAssets balance /
        JS.or_default (Some (currentLiabilities balance)) 1
    | None => 0
    end in
  let c2 :=
    {| criterion := "Strong Financial Condition";
       passed := JS.ge currentRatio 2.0;
       detail := "Current ratio: " ++ toFixed currentRatio 2 ++
                 " (minimum: 2.0)" |} in
  let positiveEarningsYears :=
    List.length
      (filter (fun stmt => JS.gt (netIncome stmt) 0)
              (incomeStatements financials)) in
  let c3 :=
    {| criterion := "Earnings Stability";
       passed :=
         (Nat.min (List.length (incomeStatements financials)) 5
          <=? positiveEarningsYears)%nat;
       detail := "Positive earnings: " ++ showNat positiveEarningsYears ++
                 " of " ++
                 showNat (List.length (incomeStatements financials)) ++
                 " years" |} in
  let paysDividend :=
    match dividendYield quote with
    | Some y => JS.gt y 0
    | None => false
    end in
  let c4 :=
    {| criterion := "Dividend Record";
       passed := paysDividend;
       detail :=
         match dividendYield quote with
         | Some y =>
             if JS.gt y 0
             then "Dividend yield: " ++ toFixed (y * 100) 2 ++ "%"
             else "No dividend"
         | None => "No dividend"
         end |} in
  let epsGrowth :=
    if (3 <=? List.length (incomeStatements financials))%nat then
      let years := Nat.min (List.length (incomeStatements financials) - 1) 5 in
      let oldestEps :=
        JS.or_default
          (option_map eps (nth_error (incomeStatements financials) years)) 0 in
      let newestEps :=
        JS.or_default
          (option_map eps (nth_error (incomeStatements financials) 0)) 0 in
      if JS.gt oldestEps 0 && JS.gt newestEps 0
      then (newestEps - oldestEps) / oldestEps
      else 0
    else 0 in
  let c5 :=
    {| criterion := "Earnings Growth";
       passed := JS.ge epsGrowth 0.33;
       detail := "EPS growth (" ++
                 showNat (List.length (incomeStatements financials)) ++
                 "yr): " ++ toFixed (epsGrowth * 100) 1 ++
                 "% (target: 33%)" |} in
  let pe := JS.or_default (Types.pe quote) 0 in
  let c6 :=
    {| criterion := "Moderate P/E Ratio";
       passed := JS.gt pe 0 && JS.le pe 15;
       detail := "P/E: " ++ toFixed pe 2 ++ " (maximum: 15)" |} in
  let pb := JS.or_default (Types.pb quote) 0 in
  let pePbProduct := pe * pb in
  let passesPB :=
    (JS.gt pb 0 && JS.le pb 1.5) ||
    (JS.gt pePbProduct 0 && JS.le pePbProduct 22.5) in
  let c7 :=
    {| criterion := "Moderate Price to Assets";
       passed := passesPB;
       detail := "P/B: " ++ toFixed pb 2 ++ ", P/E × P/B: " ++
                 toFixed pePbProduct 2 ++
                 " (max P/B: 1.5 or product: 22.5)" |} in
  [c1; c2; c3; c4; c5; c6; c7].

(** [calculateGrahamValuation]; [None] is an omitted [bondYield]. *)
Definition calculateGrahamValuation (financials : Financials)
  (quote : StockQuote) (bondYield : option R) : GrahamResult :=
  let bondYield := match bondYield with Some y => y | None => 0.04 end in
  let incomeStatements := incomeStatements financials in
  let latestIncome := nth_error incomeStatements 0 in
  let latestBalance := nth_error (balanceSheets financials) 0 in
  let eps := JS.or_default (option_map Types.eps latestIncome) 0 in
  let bookValue :=
    JS.or_default (option_map bookValuePerShare latestBalance) 0 in
  let grahamNumber := calculateGrahamNumber eps bookValue in
  let growthRate :=
    if (3 <=? List.length incomeStatements)%nat then
      let years := Nat.min (List.length incomeStatements - 1) 5 in
      let oldestEps := option_map Types.eps (nth_error incomeStatements years) in
      let newestEps := option_map Types.eps latestIncome in
      match oldestEps, newestEps with
      | Some o, Some n =>
          if JS.truthy o && JS.gt o 0 && JS.truthy n && JS.gt n 0
          then Ratios.calculateCAGR o n (INR years)
          else None
      | _, _ => None
      end
    else None in
  let grahamGrowthValue :=
    match growthRate with
    | Some g =>
        if JS.gt g 0 then calculateGrahamGrowthValue eps g bondYield
        else None
    | None => None
    end in
  let defensiveCriteria := evaluateDefensiveCriteria financials quote in
  let passesDefensiveCriteria := forallb passed defensiveCriteria in
  {| grahamNumber := grahamNumber;
     grahamGrowthValue := grahamGrowthValue;
     g_eps := eps;
     g_bookValuePerShare := bookValue;
     growthRate := growthRate;
     bondYield := bondYield;
     passesDefensiveCriteria := passesDefensiveCriteria;
     defensiveCriteria := defensiveCriteria |}.

End WithOmittedFields.

End Graham.

(** ** The engine in its runtime

    Besides arithmetic the engine takes two things from the JavaScript
    runtime: the clock behind [new Date()] in [analyzeMoat], and
    [Array.prototype.sort] in [estimateGrowthRate].  The modules above fix
    them, the clock as an argument and the sort as an insertion sort; here
    both are a runtime's, and every exported operation of the engine is
    invoked in a runtime. *)

Module Engine.
Import Types.

Record Runtime := {
  clock : Date;
  sort : list R -> list R
}.


(** [estimateGrowthRate], sorting with the runtime. *)
Definition estimateGrowthRate (rt : Runtime) (financials : Financials) : R :=
  let cashFlowStatements := Types.cashFlowStatements financials in
  let incomeStatements := Types.incomeStatements financials in
  let growthRates :=
    DCF.growthCandidate cashFlowStatements freeCashFlow ++
    DCF.growthCandidate incomeStatements revenue ++
    DCF.growthCandidate incomeStatements eps in
  if (List.length growthRates =? 0)%nat then 0.05
  else
    let sorted := sort rt growthRates in
    let median := nth (Nat.div (List.length sorted) 2) sorted 0 in
    median * 0.8.

(** [calculateDCF], estimating the growth rate in the runtime. *)
Definition calculateDCF (rt : Runtime) (financials : Financials)
  (quote : StockQuote) (params : DCF.DCFParams) : DCF.DCFResult :=
  let discountRate := DCF.discountRate params in
  let terminalGrowthRate := DCF.terminalGrowthRate params in
  let projectionYears := DCF.projectionYears params in
  let customGrowthRate := DCF.customGrowthRate params in
  let cashFlowStatements := Types.cashFlowStatements financials in
  let incomeStatements := Types.incomeStatements financials in
  let currentFcf :=
    JS.or_default
      (option_map freeCashFlow (nth_error cashFlowStatements 0)) 0 in
  if JS.le currentFcf 0 then DCF.createNegativeFcfResult params
  else
    let growthRate :=
      match customGrowthRate with
      | Some g => g
      | None => estimateGrowthRate rt financials
      end in
    let growthRate := JS.max (-0.10) (JS.min growthRate 0.25) in
    let safeTerminalGrowth :=
      JS.min terminalGrowthRate (discountRate - 0.01) in
    let projectedFcf :=
      DCF.projectLoop growthRate safeTerminalGrowth projectionYears
        projectionYears 1 currentFcf in
    let pvOfFcf := DCF.pvLoop discountRate projectedFcf 1 0 in
    let terminalFcf :=
      nth (projectionYears - 1) projectedFcf 0 * (1 + safeTerminalGrowth) in
    let terminalValue :=
      terminalFcf / (discountRate - safeTerminalGrowth) in
    let pvOfTerminal :=
      terminalValue / JS.pow_nat (1 + discountRate) projectionYears in
    let enterpriseValue := pvOfFcf + pvOfTerminal in
    let sharesOutstanding :=
      JS.or_default
        (option_map sharesOutstanding (nth_error incomeStatements 0)) 1 in
    let netDebt :=
      JS.or_default
        (option_map totalDebt (nth_error (balanceSheets financials) 0)) 0 -
      JS.or_default
        (option_map cash (nth_error (balanceSheets financials) 0)) 0 in
    let equityValue := enterpriseValue - netDebt in
    let intrinsicValue := JS.max 0 (equityValue / sharesOutstanding) in
    {| DCF.intrinsicValue := intrinsicValue;
       DCF.projectedFcf := projectedFcf;
       DCF.terminalValue := terminalValue;
       DCF.pvOfFcf := pvOfFcf;
       DCF.pvOfTerminal := pvOfTerminal;
       DCF.enterpriseValue := enterpriseValue;
       DCF.assumptions :=
         {| DCF.a_discountRate := discountRate;
            DCF.a_terminalGrowthRate := safeTerminalGrowth;
            DCF.a_projectionYears := projectionYears;
            DCF.estimatedGrowthRate := growthRate;
            DCF.startingFcf := currentFcf |} |}.

(** [dcfSensitivity], calling [calculateDCF] in the runtime. *)
Definition dcfSensitivity (rt : Runtime) (financials : Financials)
  (quote : StockQuote) (baseParams : DCF.DCFParams)
  : Sensitivity.SensitivityResult :=
  let discountRates :=
    [DCF.discountRate baseParams - 0.02;
     DCF.discountRate baseParams - 0.01;
     DCF.discountRate baseParams;
     DCF.discountRate baseParams + 0.01;
     DCF.discountRate baseParams + 0.02] in
  let growthRates :=
    [JS.or_default (DCF.customGrowthRate baseParams) 0.05 - 0.02;
     JS.or_default (DCF.customGrowthRate baseParams) 0.05 - 0.01;
     JS.or_default (DCF.customGrowthRate baseParams) 0.05;
     JS.or_default (DCF.customGrowthRate baseParams) 0.05 + 0.01;
     JS.or_default (DCF.customGrowthRate baseParams) 0.05 + 0.02] in
  let values :=
    map (fun dr =>
           map (fun gr =>
                  let result :=
                    calculateDCF rt financials quote
                      {| DCF.discountRate := dr;
                         DCF.terminalGrowthRate :=
                           DCF.terminalGrowthRate baseParams;
                         DCF.projectionYears := DCF.projectionYears baseParams;
                         DCF.customGrowthRate := Some gr |} in
                  DCF.intrinsicValue result)
               growthRates)
        discountRates in
  {| Sensitivity.discountRates := discountRates;
     Sensitivity.growthRates := growthRates;
     Sensitivity.values := values |}.




Section WithOmittedFields.

Variable bookValuePerShare : BalanceSheet -> R.
Variable dividendYield : StockQuote -> option R.
Variable toFixed : R -> nat -> string.


End WithOmittedFields.

End Engine.

(** ** The specification's statistics

    The median and the coefficient of variation as the specification
    words them, to compare the code with. *)

Module Spec.

(** The median of a list: the middle element of the sorted list, the mean
    of the two middle elements when the length is even. *)
Definition median (xs : list R) : R :=
  let sorted := DCF.sortAscending xs in
  let n := List.length sorted in
  if Nat.even n
  then (nth (n / 2 - 1) sorted 0 + nth (n / 2) sorted 0) / 2
  else nth (n / 2) sorted 0.

Definition mean (xs : list R) : R :=
  fold_right Rplus 0 xs / INR (List.length xs).

(** Population variance and standard deviation. *)
Definition variance (xs : list R) : R :=
  fold_right (fun x acc => (x - mean xs) * (x - mean xs) + acc) 0 xs
  / INR (List.length xs).

Definition standardDeviation (xs : list R) : R := sqrt (variance xs).

Definition coefficientOfVariation (xs : list R) : R :=
  standardDeviation xs / Rabs (mean xs).

(** Clamping to an interval. *)
Definition clamp (lo hi x : R) : R := Rmax lo (Rmin hi x).

(** Compound annual growth rate over a whole number of years. *)
Definition cagr (startValue endValue : R) (years : nat) : R :=
  Rpower (endValue / startValue) (1 / INR years) - 1.

End Spec.

(** ** Sample inputs

    Small statement series on which the statements below are exercised. *)

Module Samples.
Import Types.

Definition income (revenue eps sharesOutstanding : R) : IncomeStatement :=
  {| revenue := revenue;
     grossProfit := 0.6 * revenue;
     operatingIncome := 0.45 * revenue;
     interestExpense := Some 1;
     netIncome := 0.35 * revenue;
     eps := eps;
     ebitda := 0.5 * revenue;
     sharesOutstanding := sharesOutstanding |}.

Definition balance : BalanceSheet :=
  {| totalAssets := 200;
     currentAssets := 80;
     cash := 30;
     inventory := Some 15;
     currentLiabilities := 30;
     totalDebt := 50;
     totalEquity := 120 |}.

Definition cashFlow (freeCashFlow : R) : CashFlowStatement :=
  {| depreciation := 5;
     capitalExpenditure := 7;
     freeCashFlow := freeCashFlow |}.

Definition quote : StockQuote :=
  {| ticker := "TEST";
     name := "Test Company";
     price := 50;
     marketCap := 500;
     pe := Some 14.29;
     pb := Some 4.17;
     ps := Some 5 |}.

Definition profile : CompanyProfile := {| employees := None |}.

(** The default parameters of [config/defaults.ts]. *)
Definition params (customGrowthRate : option R) : DCF.DCFParams :=
  {| DCF.discountRate := 0.10;
     DCF.terminalGrowthRate := 0.03;
     DCF.projectionYears := 10;
     DCF.customGrowthRate := customGrowthRate |}.

(** A company whose most recent free cash flow is negative. *)
Definition negativeFcf : Financials :=
  {| incomeStatements := [income 100 3.5 10];
     balanceSheets := [balance];
     cashFlowStatements := [cashFlow (-5)] |}.

(** A company with positive free cash flow and no share count. *)
Definition noShareCount : Financials :=
  {| incomeStatements := [income 100 3.5 0];
     balanceSheets := [balance];
     cashFlowStatements := [cashFlow 35] |}.

(** A loss per share a year ago, a profit now. *)
Definition lossThenProfit : Financials :=
  {| incomeStatements := [income 100 4 10; income 100 (-1) 10];
     balanceSheets := [balance];
     cashFlowStatements := [cashFlow 35] |}.

(** Three years of income statements, one cash-flow statement: revenue
    grows from 100 to 121 and earnings per share stay at 1, so that
    [estimateGrowthRate] has two candidates, 0.1 and 0. *)
Definition twoCandidates : Financials :=
  {| incomeStatements := [income 121 1 10; income 110 1 10; income 100 1 10];
     balanceSheets := [balance];
     cashFlowStatements := [cashFlow 35] |}.

(** Three years of income statements in which the earnings per share
    double every year, from 1 to 4. *)
Definition growingEps : Financials :=
  {| incomeStatements := [income 121 4 10; income 110 2 10; income 100 1 10];
     balanceSheets := [balance];
     cashFlowStatements := [cashFlow 35] |}.

(** A company whose statements report a negative share count, with a
    free cash flow of 1 and a net debt of 20. *)
Definition negativeShareCount : Financials :=
  {| incomeStatements := [income 100 3.5 (-1)];
     balanceSheets := [balance];
     cashFlowStatements := [cashFlow 1] |}.

(** Two runtimes: one sorts by insertion, the other reverses the array
    first; their clocks differ. *)
Definition insertionRuntime : Engine.Runtime :=
  {| Engine.clock := 0%Z; Engine.sort := DCF.sortAscending |}.


(** A runtime whose sort leaves the array as it is. *)
Definition idleRuntime : Engine.Runtime :=
  {| Engine.clock := 0%Z; Engine.sort := fun xs => xs |}.

(** A rendering of numbers for the evidence lines of the samples. *)
Definition noDigits (x : R) (digits : nat) : string := "#".

End Samples.

(** * Properties *)

(** ** Facts about the JavaScript operators *)

Module JSFacts.

Lemma ge_true x y : JS.ge x y = true <-> x >= y.
Proof. unfold JS.ge; destruct (Rge_dec x y); split; intros; try easy; lra. Qed.

Lemma gt_true x y : JS.gt x y = true <-> x > y.
Proof. unfold JS.gt; destruct (Rgt_dec x y); split; intros; try easy; lra. Qed.

Lemma le_true x y : JS.le x y = true <-> x <= y.
Proof. unfold JS.le; destruct (Rle_dec x y); split; intros; try easy; lra. Qed.

Lemma lt_true x y : JS.lt x y = true <-> x < y.
Proof. unfold JS.lt; destruct (Rlt_dec x y); split; intros; try easy; lra. Qed.

Lemma ge_false x y : JS.ge x y = false <-> x < y.
Proof. unfold JS.ge; destruct (Rge_dec x y); split; intros; try easy; lra. Qed.

Lemma gt_false x y : JS.gt x y = false <-> x <= y.
Proof. unfold JS.gt; destruct (Rgt_dec x y); split; intros; try easy; lra. Qed.

Lemma le_false x y : JS.le x y = false <-> y < x.
Proof. unfold JS.le; destruct (Rle_dec x y); split; intros; try easy; lra. Qed.

Lemma lt_false x y : JS.lt x y = false <-> y <= x.
Proof. unfold JS.lt; destruct (Rlt_dec x y); split; intros; try easy; lra. Qed.

Lemma eq_true x y : JS.eq x y = true <-> x = y.
Proof. unfold JS.eq; destruct (Req_dec_T x y); split; intros; easy. Qed.

Lemma eq_false x y : JS.eq x y = false <-> x <> y.
Proof. unfold JS.eq; destruct (Req_dec_T x y); split; intros; easy. Qed.

Lemma truthy_true x : JS.truthy x = true <-> x <> 0.
Proof. unfold JS.truthy; rewrite negb_true_iff; apply eq_false. Qed.

Lemma truthy_false x : JS.truthy x = false <-> x = 0.
Proof. unfold JS.truthy; rewrite negb_false_iff; apply eq_true. Qed.

(** [x || d] keeps a number that is not zero. *)
Lemma or_default_nonzero x d : x <> 0 -> JS.or_default (Some x) d = x.
Proof.
  intros H; unfold JS.or_default.
  apply truthy_true in H; now rewrite H.
Qed.

(** [0 || d] is [d]. *)
Lemma or_default_zero d : JS.or_default (Some 0) d = d.
Proof.
  unfold JS.or_default.
  replace (JS.truthy 0) with false; [reflexivity|].
  symmetry; now apply truthy_false.
Qed.

(** [x || 0] is the identity on numbers. *)
Lemma or_zero x : JS.or_default (Some x) 0 = x.
Proof.
  unfold JS.or_default.
  destruct (JS.truthy x) eqn:E; [reflexivity|].
  apply truthy_false in E; congruence.
Qed.

(** The running sum of [reduce] from any start value. *)
Lemma sum_from xs a : fold_left Rplus xs a = a + JS.sum xs.
Proof.
  unfold JS.sum; revert a.
  induction xs as [|x xs IH]; intros a; simpl.
  - lra.
  - rewrite (IH (a + x)), (IH (0 + x)); lra.
Qed.

Lemma sum_cons x xs : JS.sum (x :: xs) = x + JS.sum xs.
Proof. unfold JS.sum at 1; simpl; rewrite sum_from; lra. Qed.

Lemma min_of_le_start v vs : JS.min_of v vs <= v.
Proof.
  unfold JS.min_of; revert v.
  induction vs as [|x vs IH]; intros v; simpl.
  - lra.
  - eapply Rle_trans; [apply IH | apply Rmin_l].
Qed.

Lemma min_of_le_each v vs x : In x vs -> JS.min_of v vs <= x.
Proof.
  unfold JS.min_of; revert v.
  induction vs as [|y vs IH]; intros v [].
  - subst y; simpl.
    eapply Rle_trans; [apply (min_of_le_start (Rmin v x) vs) | apply Rmin_r].
  - simpl; now apply IH.
Qed.

(** [Math.min(...xs)] is one of its arguments. *)
Lemma min_of_in v vs : In (JS.min_of v vs) (v :: vs).
Proof.
  unfold JS.min_of; revert v.
  induction vs as [|y vs IH]; intros v; simpl.
  - now left.
  - destruct (IH (Rmin v y)) as [H|H].
    + rewrite <- H.
      unfold Rmin; destruct (Rle_dec v y); [now left | right; now left].
    + right; now right.
Qed.

Lemma max_of_ge_start v vs : v <= JS.max_of v vs.
Proof.
  unfold JS.max_of; revert v.
  induction vs as [|x vs IH]; intros v; simpl.
  - lra.
  - eapply Rle_trans; [apply Rmax_l | apply IH].
Qed.

Lemma max_of_ge_each v vs x : In x vs -> x <= JS.max_of v vs.
Proof.
  unfold JS.max_of; revert v.
  induction vs as [|y vs IH]; intros v [].
  - subst y; simpl.
    eapply Rle_trans; [apply Rmax_r | apply (max_of_ge_start (Rmax v x) vs)].
  - simpl; now apply IH.
Qed.

Lemma max_of_in v vs : In (JS.max_of v vs) (v :: vs).
Proof.
  unfold JS.max_of; revert v.
  induction vs as [|y vs IH]; intros v; simpl.
  - now left.
  - destruct (IH (Rmax v y)) as [H|H].
    + rewrite <- H.
      unfold Rmax; destruct (Rle_dec v y); [right; now left | now left].
    + right; now right.
Qed.

(** A lower bound of every element bounds the sum. *)
Lemma sum_lower_bound m xs :
  (forall x, In x xs -> m <= x) -> JS.length xs * m <= JS.sum xs.
Proof.
  unfold JS.length.
  induction xs as [|x xs IH]; intros H.
  - unfold JS.sum; simpl; lra.
  - rewrite sum_cons.
    change (List.length (x :: xs)) with (S (List.length xs)).
    rewrite S_INR.
    assert (m <= x) by (apply H; now left).
    assert (INR (List.length xs) * m <= JS.sum xs)
      by (apply IH; intros; apply H; now right).
    lra.
Qed.

(** The arithmetic mean is at least any lower bound of the elements. *)
Lemma mean_lower_bound m x xs :
  (forall y, In y (x :: xs) -> m <= y) ->
  m <= JS.sum (x :: xs) / JS.length (x :: xs).
Proof.
  intros H.
  pose proof (sum_lower_bound m (x :: xs) H) as Hs.
  assert (Hn : 0 < JS.length (x :: xs)).
  { unfold JS.length; apply lt_0_INR; simpl; lia. }
  apply Rmult_le_reg_r with (r := JS.length (x :: xs)); [exact Hn|].
  unfold Rdiv; rewrite Rmult_assoc, Rinv_l by lra.
  lra.
Qed.

End JSFacts.

(** Decides every comparison of the goal, then leaves linear arithmetic. *)
Ltac js_decide :=
  unfold JS.ge, JS.gt, JS.le, JS.lt, JS.eq, JS.truthy, JS.max, JS.min in *;
  repeat match goal with
         | |- context [Rge_dec ?a ?b] => destruct (Rge_dec a b)
         | |- context [Rgt_dec ?a ?b] => destruct (Rgt_dec a b)
         | |- context [Rle_dec ?a ?b] => destruct (Rle_dec a b)
         | |- context [Rlt_dec ?a ?b] => destruct (Rlt_dec a b)
         | |- context [Req_dec_T ?a ?b] => destruct (Req_dec_T a b)
         end;
  simpl; try reflexivity; try lra; try (exfalso; lra).

(** ** Margin of safety *)

Section MarginOfSafetyFacts.
Import MarginOfSafety.

(** The band table of [calculateMarginOfSafety] on valid inputs. *)
Lemma margin_value price iv :
  0 < iv -> 0 < price ->
  marginOfSafety (calculateMarginOfSafety price iv) = (iv - price) / iv.
Proof.
  intros Hiv Hp; unfold calculateMarginOfSafety.
  replace (JS.le iv 0) with false by (symmetry; apply JSFacts.le_false; lra).
  replace (JS.le price 0) with false
    by (symmetry; apply JSFacts.le_false; lra).
  simpl.
  repeat match goal with
         | |- context [if ?c then _ else _] => destruct c
         end; reflexivity.
Qed.

Lemma margin_at_70_100 :
  let r := calculateMarginOfSafety 70 100 in
  marginOfSafety r = 0.30 /\ status r = undervalued /\ riskLevel r = medium.
Proof.
  unfold calculateMarginOfSafety; simpl.
  js_decide; repeat split; lra.
Qed.

End MarginOfSafetyFacts.

Section MarginOfSafetyClaims.
Import MarginOfSafety.

(** C6, as the specification states it, fails: at a current price of 70
    and an intrinsic value of 100 the margin 0.30 lies in the band
    [0.25, 0.35), whose risk level is [medium], not [low]. *)
Lemma C6_risk_level_is_not_low :
  ~ (let r := calculateMarginOfSafety 70 100 in
     marginOfSafety r = 0.30 /\ status r = undervalued /\ riskLevel r = low).
Proof.
  intros (_ & _ & H).
  destruct margin_at_70_100 as (_ & _ & Hm).
  rewrite Hm in H; discriminate.
Qed.

(** C6, amended: [calculateMarginOfSafety 70 100] returns the margin
    0.30 with status [undervalued] and risk level [medium];
    [calculateMarginOfSafety 130 100] returns the margin -0.30 with status
    [overvalued] (and risk level [high]). *)
Theorem C6_margin_examples :
  (let r := calculateMarginOfSafety 70 100 in
   marginOfSafety r = 0.30 /\ status r = undervalued /\ riskLevel r = medium) /\
  (let r := calculateMarginOfSafety 130 100 in
   marginOfSafety r = -0.30 /\ status r = overvalued /\ riskLevel r = high).
Proof.
  split; unfold calculateMarginOfSafety; simpl; js_decide; repeat split; lra.
Qed.

(** [validValues] holds exactly the positive numbers among the entries. *)
Lemma validValuesOf_spec valuations v :
  In v (validValuesOf valuations) <->
  exists method, In (method, Some v) valuations /\ v > 0.
Proof.
  induction valuations as [|[m [x|]] rest IH]; simpl.
  - split; [contradiction | intros (? & [] & _)].
  - destruct (JS.gt x 0) eqn:E.
    + apply JSFacts.gt_true in E. simpl. rewrite IH. split.
      * intros [->|(m' & Hin & Hv)]; [exists m | exists m']; auto.
      * intros (m' & [Heq|Hin] & Hv).
        -- inversion Heq; now left.
        -- right; now exists m'.
    + apply JSFacts.gt_false in E. rewrite IH. split.
      * intros (m' & Hin & Hv); exists m'; auto.
      * intros (m' & [Heq|Hin] & Hv).
        -- inversion Heq; subst; lra.
        -- now exists m'.
  - rewrite IH. split.
    + intros (m' & Hin & Hv); exists m'; auto.
    + intros (m' & [Heq|Hin] & Hv); [discriminate | now exists m'].
Qed.

(** The effective value: the lesser of minimum and mean is the minimum. *)
Lemma effective_value_is_minimum v vs :
  JS.min (JS.min_of v vs) (JS.sum (v :: vs) / JS.length (v :: vs)) =
  JS.min_of v vs.
Proof.
  unfold JS.min; apply Rmin_left.
  apply JSFacts.mean_lower_bound.
  intros y [<-|Hy].
  - apply JSFacts.min_of_le_start.
  - now apply JSFacts.min_of_le_each.
Qed.


End MarginOfSafetyClaims.

(** ** Discounted cash flow: the refusal and the share count *)

Section DCFBasics.
Import Types DCF.

Lemma projectLoop_length g s N n year fcf :
  List.length (projectLoop g s N n year fcf) = n.
Proof.
  revert year fcf; induction n as [|n IH]; intros year fcf; simpl.
  - reflexivity.
  - now rewrite IH.
Qed.

Lemma currentFcfOf_present financials cf :
  nth_error (cashFlowStatements financials) 0 = Some cf ->
  currentFcfOf financials = freeCashFlow cf.
Proof.
  intros H; unfold currentFcfOf; rewrite H; simpl.
  apply JSFacts.or_zero.
Qed.

Lemma currentFcfOf_absent financials :
  nth_error (cashFlowStatements financials) 0 = None ->
  currentFcfOf financials = 0.
Proof. intros H; unfold currentFcfOf; now rewrite H. Qed.

(** The early return of [calculateDCF]. *)
Lemma calculateDCF_refuses financials quote params :
  currentFcfOf financials <= 0 ->
  calculateDCF financials quote params = createNegativeFcfResult params.
Proof.
  intros H; unfold calculateDCF; fold (currentFcfOf financials).
  apply JSFacts.le_true in H; now rewrite H.
Qed.

(** C1: when the most recent cash-flow record is absent or its free cash
    flow is at most zero, [calculateDCF] returns intrinsic value 0, no
    projected cash flows, and terminal value, both present values and the
    enterprise value all 0. *)
Theorem C1_refuses_on_non_positive_fcf :
  forall (financials : Financials) (quote : StockQuote) (params : DCFParams),
    match nth_error (cashFlowStatements financials) 0 with
    | Some cf => freeCashFlow cf <= 0
    | None => True
    end ->
    let r := calculateDCF financials quote params in
    intrinsicValue r = 0 /\ projectedFcf r = [] /\ terminalValue r = 0 /\
    pvOfFcf r = 0 /\ pvOfTerminal r = 0 /\ enterpriseValue r = 0.
Proof.
  intros financials quote params H r; subst r.
  rewrite calculateDCF_refuses; [simpl; repeat split; reflexivity|].
  destruct (nth_error (cashFlowStatements financials) 0) as [cf|] eqn:E.
  - now rewrite (currentFcfOf_present _ _ E).
  - rewrite (currentFcfOf_absent _ E); lra.
Qed.

Lemma C1_witness :
  let r := calculateDCF Samples.negativeFcf Samples.quote (Samples.params None) in
  intrinsicValue r = 0 /\ projectedFcf r = [] /\ terminalValue r = 0 /\
  pvOfFcf r = 0 /\ pvOfTerminal r = 0 /\ enterpriseValue r = 0.
Proof.
  apply (C1_refuses_on_non_positive_fcf
           Samples.negativeFcf Samples.quote (Samples.params None)).
  simpl; lra.
Defined.

(** What [calculateDCF] computes past the early return. *)
Lemma calculateDCF_estimates financials quote params :
  0 < currentFcfOf financials ->
  let r := calculateDCF financials quote params in
  intrinsicValue r =
    Rmax 0 ((enterpriseValue r - netDebtOf financials) / sharesOf financials) /\
  List.length (projectedFcf r) = projectionYears params /\
  startingFcf (assumptions r) = currentFcfOf financials.
Proof.
  intros H r; subst r; unfold calculateDCF; fold (currentFcfOf financials).
  apply Rlt_not_le in H.
  replace (JS.le (currentFcfOf financials) 0) with false
    by (symmetry; apply JSFacts.le_false; lra).
  cbv zeta; simpl.
  rewrite projectLoop_length.
  repeat split; reflexivity.
Qed.

(** C10: with a positive starting free cash flow and the share count of
    the most recent income record zero (or the record absent),
    [calculateDCF] does not refuse: it projects [projectionYears] cash
    flows from the starting free cash flow, divides by 1, and reports
    [max(0, enterpriseValue - netDebt)] as the per-share value.  The
    parameters are those on which the arithmetic of the source is defined:
    at least one projection year and a discount rate other than -1. *)
Theorem C10_missing_share_count_defaults_to_one :
  forall (financials : Financials) (quote : StockQuote) (params : DCFParams)
         (cf : CashFlowStatement),
    nth_error (cashFlowStatements financials) 0 = Some cf ->
    0 < freeCashFlow cf ->
    match nth_error (incomeStatements financials) 0 with
    | Some inc => sharesOutstanding inc = 0
    | None => True
    end ->
    (1 <= projectionYears params)%nat ->
    1 + discountRate params <> 0 ->
    let r := calculateDCF financials quote params in
    intrinsicValue r = Rmax 0 (enterpriseValue r - netDebtOf financials) /\
    List.length (projectedFcf r) = projectionYears params /\
    startingFcf (assumptions r) = freeCashFlow cf.
Proof.
  intros financials quote params cf Hcf Hpos Hshares _ _ r.
  assert (Hcur : currentFcfOf financials = freeCashFlow cf)
    by now apply currentFcfOf_present.
  destruct (calculateDCF_estimates financials quote params) as (Hi & Hl & Hs);
    [lra|].
  fold r in Hi, Hl, Hs.
  assert (Hone : sharesOf financials = 1).
  { unfold sharesOf.
    destruct (nth_error (incomeStatements financials) 0) as [inc|]; simpl.
    - rewrite Hshares; apply JSFacts.or_default_zero.
    - reflexivity. }
  rewrite Hone in Hi.
  repeat split; [|exact Hl|congruence].
  rewrite Hi; f_equal; field.
Qed.

Lemma C10_witness :
  let r := calculateDCF Samples.noShareCount Samples.quote (Samples.params None) in
  intrinsicValue r = Rmax 0 (enterpriseValue r - netDebtOf Samples.noShareCount) /\
  List.length (projectedFcf r) = 10%nat /\
  startingFcf (assumptions r) = 35.
Proof.
  apply (C10_missing_share_count_defaults_to_one
           Samples.noShareCount Samples.quote (Samples.params None)
           (Samples.cashFlow 35)).
  - reflexivity.
  - simpl; lra.
  - reflexivity.
  - simpl; lia.
  - simpl; lra.
Defined.

End DCFBasics.

(** ** Stability *)

Section StabilityFacts.
Import Moat.

Lemma sum_is_fold_right xs : JS.sum xs = fold_right Rplus 0 xs.
Proof.
  induction xs as [|x xs IH]; [reflexivity|].
  rewrite JSFacts.sum_cons, IH; reflexivity.
Qed.

Lemma mean_agrees xs : JS.sum xs / JS.length xs = Spec.mean xs.
Proof. unfold Spec.mean, JS.length; now rewrite sum_is_fold_right. Qed.

Lemma squares_from (m : R) xs a :
  fold_left (fun sum val => sum + JS.pow_nat (val - m) 2) xs a =
  a + fold_right (fun x acc => (x - m) * (x - m) + acc) 0 xs.
Proof.
  revert a; induction xs as [|x xs IH]; intros a; simpl.
  - lra.
  - rewrite IH; unfold JS.pow_nat; simpl; lra.
Qed.

(** [calculateStability], branch by branch, in the specification's
    vocabulary. *)
Lemma calculateStability_cases values :
  calculateStability values =
    if (List.length values <? 2)%nat then 1
    else if Req_dec_T (Spec.mean values) 0 then 0
    else Spec.clamp 0 1 (1 - Spec.coefficientOfVariation values).
Proof.
  unfold calculateStability.
  destruct (List.length values <? 2)%nat eqn:E.
  - apply Nat.ltb_lt in E.
    replace (JS.lt (JS.length values) 2) with true; [reflexivity|].
    symmetry; apply JSFacts.lt_true; unfold JS.length.
    apply lt_INR in E; simpl in E; lra.
  - apply Nat.ltb_ge in E.
    replace (JS.lt (JS.length values) 2) with false.
    2:{ symmetry; apply JSFacts.lt_false; unfold JS.length.
        apply le_INR in E; simpl in E; lra. }
    rewrite mean_agrees.
    unfold JS.eq.
    destruct (Req_dec_T (Spec.mean values) 0); [reflexivity|].
    rewrite squares_from, Rplus_0_l.
    reflexivity.
Qed.

(** C8, as the specification states it, fails: two data points of mean
    zero have stability 0, not 1. *)
Lemma C8_zero_mean_is_not_stable :
  Spec.mean [1; -1] = 0 /\ calculateStability [1; -1] = 0 /\
  calculateStability [1; -1] <> 1.
Proof.
  assert (Hm : Spec.mean [1; -1] = 0) by (unfold Spec.mean; simpl; lra).
  assert (Hs : calculateStability [1; -1] = 0).
  { rewrite calculateStability_cases; simpl.
    destruct (Req_dec_T (Spec.mean [1; -1]) 0); [reflexivity | contradiction]. }
  repeat split; try assumption.
  rewrite Hs; lra.
Qed.

(** C8, amended: the stability of fewer than two values is 1; of two or
    more values whose mean is zero it is 0; otherwise it is 1 minus the
    coefficient of variation (population standard deviation over the
    absolute mean), clamped to [0, 1].  It always lies in [0, 1]. *)
Theorem C8_stability_is_clamped_one_minus_cv :
  forall values : list R,
    calculateStability values =
      (if (List.length values <? 2)%nat then 1
       else if Req_dec_T (Spec.mean values) 0 then 0
       else Spec.clamp 0 1 (1 - Spec.coefficientOfVariation values)) /\
    0 <= calculateStability values <= 1.
Proof.
  intros values; split; [apply calculateStability_cases|].
  rewrite calculateStability_cases.
  destruct (List.length values <? 2)%nat; [lra|].
  destruct (Req_dec_T (Spec.mean values) 0); [lra|].
  unfold Spec.clamp; split.
  - apply Rmax_l.
  - apply Rmax_lub; [lra | apply Rmin_l].
Qed.

End StabilityFacts.

(** ** Growth rates of the ratio calculator *)

Section GrowthFacts.
Import Types Ratios.

Lemma calculateCAGR_cases startValue endValue (years : nat) :
  calculateCAGR startValue endValue (INR years) =
    if JS.le startValue 0 || JS.le endValue 0 || (years =? 0)%nat then None
    else Some (Spec.cagr startValue endValue years).
Proof.
  unfold calculateCAGR, Spec.cagr, JS.pow.
  replace (JS.le (INR years) 0) with (years =? 0)%nat; [reflexivity|].
  destruct years as [|n]; simpl (_ =? _)%nat.
  - symmetry; apply JSFacts.le_true; simpl; lra.
  - symmetry; apply JSFacts.le_false; apply lt_0_INR; lia.
Qed.

Lemma years_positive (years : nat) :
  JS.gt (INR years) 0 = negb (years =? 0)%nat.
Proof.
  destruct years as [|n]; simpl (negb _).
  - apply JSFacts.gt_false; simpl; lra.
  - apply JSFacts.gt_true; apply Rlt_gt, lt_0_INR; lia.
Qed.

Lemma max_floor_positive x c : 0 < c -> JS.le (JS.max x c) 0 = false.
Proof.
  intros H; apply JSFacts.le_false.
  unfold JS.max; pose proof (Rmax_r x c); lra.
Qed.

(** [a[i]] of an index within the array. *)
Lemma nth_error_within (A : Type) (l : list A) (i : nat) (d : A) :
  (i < List.length l)%nat -> nth_error l i = Some (nth i l d).
Proof. intros H; now apply nth_error_nth'. Qed.

Lemma lookback_within (A : Type) (l : list A) (x : A) :
  nth_error l 0 = Some x ->
  (Nat.min (List.length l - 1) 5 < List.length l)%nat.
Proof. destruct l; simpl; [discriminate | lia]. Qed.

(** C7, as the specification states it, fails: with earnings per share of
    -1 a year ago and 4 now, [epsGrowth5Y] is not null but the growth rate
    from the floor 0.01 to 4. *)
Lemma C7_eps_growth_from_a_loss_is_not_null :
  (exists oldest,
      nth_error (incomeStatements Samples.lossThenProfit) 1 = Some oldest /\
      eps oldest <= 0) /\
  epsGrowth5Y (calculateFinancialRatios Samples.lossThenProfit None) = Some 399.
Proof.
  split.
  - eexists; split; [reflexivity | simpl; lra].
  - unfold calculateFinancialRatios; simpl.
    replace (JS.gt 1 0) with true by (symmetry; apply JSFacts.gt_true; lra).
    replace (JS.truthy (-1)) with true
      by (symmetry; apply JSFacts.truthy_true; lra).
    change 1 with (INR 1) at 1.
    rewrite (calculateCAGR_cases _ _ 1).
    rewrite !max_floor_positive by lra; simpl.
    unfold Spec.cagr, JS.max.
    rewrite (Rmax_right (-1) 0.01) by lra.
    rewrite (Rmax_left 4 0.01) by lra.
    simpl INR.
    replace (1 / 1) with 1 by field.
    rewrite Rpower_1 by lra.
    f_equal; lra.
Qed.

(** C7, amended: when the most recent income, balance-sheet and
    cash-flow records are all present, [revenueGrowth5Y] is the CAGR of
    revenue over [min(n - 1, 5)] years and is null when the year count is
    zero or the start or end revenue is not strictly positive;
    [epsGrowth5Y] is the CAGR of the earnings per share floored at 0.01,
    and [fcfGrowth5Y] the CAGR of the free cash flows floored at 1 (over
    the years of the cash-flow series): these two are null only when the
    year count is zero.  When one of the three most recent records is
    missing, all three growth fields are null. *)
Theorem C7_growth_fields :
  forall (financials : Financials) (quote : option StockQuote),
    let r := calculateFinancialRatios financials quote in
    let incomes := incomeStatements financials in
    let cashFlows := cashFlowStatements financials in
    let years := Nat.min (List.length incomes - 1) 5 in
    let fcfYears := Nat.min (List.length cashFlows - 1) 5 in
    match nth_error incomes 0,
          nth_error (balanceSheets financials) 0,
          nth_error cashFlows 0 with
    | Some income, Some _, Some cashFlow =>
        let oldest := nth years incomes income in
        let oldestCashFlow := nth fcfYears cashFlows cashFlow in
        revenueGrowth5Y r =
          (if (years =? 0)%nat || JS.le (revenue oldest) 0
              || JS.le (revenue income) 0
           then None
           else Some (Spec.cagr (revenue oldest) (revenue income) years)) /\
        epsGrowth5Y r =
          (if (years =? 0)%nat then None
           else Some (Spec.cagr (Rmax (eps oldest) 0.01)
                                (Rmax (eps income) 0.01) years)) /\
        fcfGrowth5Y r =
          (if (fcfYears =? 0)%nat then None
           else Some (Spec.cagr (Rmax (freeCashFlow oldestCashFlow) 1)
                                (Rmax (freeCashFlow cashFlow) 1) fcfYears))
    | _, _, _ =>
        revenueGrowth5Y r = None /\ epsGrowth5Y r = None /\
        fcfGrowth5Y r = None
    end.
Proof.
  intros financials quote r incomes cashFlows years fcfYears.
  subst r; unfold calculateFinancialRatios.
  fold incomes cashFlows.
  destruct (nth_error incomes 0) as [income|] eqn:Ei;
    [|repeat split; reflexivity].
  destruct (nth_error (balanceSheets financials) 0) as [balance|];
    [|repeat split; reflexivity].
  destruct (nth_error cashFlows 0) as [cashFlow|] eqn:Ec;
    [|repeat split; reflexivity].
  cbv zeta.
  fold years fcfYears.
  rewrite (nth_error_within _ incomes years income)
    by (apply lookback_within with income; exact Ei).
  rewrite (nth_error_within _ cashFlows fcfYears cashFlow)
    by (apply lookback_within with cashFlow; exact Ec).
  cbn [option_map revenueGrowth5Y epsGrowth5Y fcfGrowth5Y].
  rewrite !JSFacts.or_zero, !years_positive, !calculateCAGR_cases.
  rewrite !max_floor_positive by lra.
  unfold JS.max.
  repeat split.
  - destruct (years =? 0)%nat; simpl; [reflexivity|].
    destruct (JS.le _ 0 || JS.le _ 0); reflexivity.
  - destruct (years =? 0)%nat; reflexivity.
  - destruct (fcfYears =? 0)%nat; reflexivity.
Qed.

End GrowthFacts.

(** ** Moat scoring *)

Section MoatFacts.
Import Types Moat.

Variable toFixed : R -> nat -> string.

Lemma overallScore_is_max_of now financials quote profile :
  let a := analyzeMoat toFixed now financials quote profile in
  overallScore a =
    JS.max_of (score (brandPower (dimensions a)))
      [score (costAdvantage (dimensions a));
       score (networkEffect (dimensions a));
       score (switchingCosts (dimensions a));
       score (scaleEconomies (dimensions a))].
Proof. reflexivity. Qed.

Lemma moatRating_of_overallScore now financials quote profile :
  let a := analyzeMoat toFixed now financials quote profile in
  moatRating a =
    if JS.ge (overallScore a) 4 then wide
    else if JS.ge (overallScore a) 2.5 then narrow
    else none.
Proof. reflexivity. Qed.

(** C5: the overall score of [analyzeMoat] is the maximum of the five
    dimension scores (it is one of them and no dimension scores higher),
    and the rating is [wide] exactly when the overall score is at least 4,
    [narrow] exactly when it is at least 2.5 and below 4, and [none]
    exactly when it is below 2.5. *)
Theorem C5_overall_score_is_the_maximum :
  forall (now : Date) (financials : Financials) (quote : StockQuote)
         (profile : CompanyProfile),
    let a := analyzeMoat toFixed now financials quote profile in
    In (overallScore a) (dimensionScores a) /\
    (forall s, In s (dimensionScores a) -> s <= overallScore a) /\
    (moatRating a = wide <-> overallScore a >= 4) /\
    (moatRating a = narrow <-> 2.5 <= overallScore a < 4) /\
    (moatRating a = none <-> overallScore a < 2.5).
Proof.
  intros now financials quote profile a.
  pose proof (overallScore_is_max_of now financials quote profile) as Ho.
  pose proof (moatRating_of_overallScore now financials quote profile) as Hr.
  cbv zeta in Ho, Hr; fold a in Ho, Hr.
  unfold dimensionScores.
  split; [rewrite Ho; apply JSFacts.max_of_in|].
  split.
  { intros s [<-|Hs]; rewrite Ho.
    - apply JSFacts.max_of_ge_start.
    - now apply JSFacts.max_of_ge_each. }
  rewrite Hr; clear Ho Hr.
  generalize (overallScore a); intros x.
  unfold JS.ge.
  destruct (Rge_dec x 4); destruct (Rge_dec x 2.5);
    repeat split; intros; try discriminate; try reflexivity; lra.
Qed.


End MoatFacts.

(** ** Growth-rate estimation of the DCF engine *)

Section EstimateFacts.
Import Types DCF.

(** A candidate of [estimateGrowthRate] on three years of history. *)
Lemma growthCandidate_three_years (A : Type) (f : A -> R) (a b c : A) :
  0 < f c -> 0 < f a ->
  growthCandidate [a; b; c] f = [Spec.cagr (f c) (f a) 2].
Proof.
  intros Hc Ha; unfold growthCandidate; simpl.
  replace (JS.truthy (f c)) with true
    by (symmetry; apply JSFacts.truthy_true; lra).
  replace (JS.truthy (f a)) with true
    by (symmetry; apply JSFacts.truthy_true; lra).
  replace (JS.gt (f c) 0) with true by (symmetry; apply JSFacts.gt_true; lra).
  replace (JS.gt (f a) 0) with true by (symmetry; apply JSFacts.gt_true; lra).
  simpl.
  change (1 + 1) with (INR 2).
  rewrite calculateCAGR_cases.
  replace (JS.le (f c) 0) with false by (symmetry; apply JSFacts.le_false; lra).
  replace (JS.le (f a) 0) with false by (symmetry; apply JSFacts.le_false; lra).
  reflexivity.
Qed.

(** No candidate on fewer than three years of history. *)
Lemma growthCandidate_short (A : Type) (f : A -> R) (stmts : list A) :
  (List.length stmts < 3)%nat -> growthCandidate stmts f = [].
Proof.
  intros H; unfold growthCandidate.
  apply Nat.leb_gt in H; now rewrite H.
Qed.

Lemma cagr_two_years_of_square (x y : R) :
  0 < x -> 0 < y -> Spec.cagr x (x * (y * y)) 2 = y - 1.
Proof.
  intros Hx Hy; unfold Spec.cagr.
  replace (x * (y * y) / x) with (y * y) by (field; lra).
  replace (1 / INR 2) with (/ 2) by (simpl; field).
  rewrite Rpower_sqrt by nra.
  rewrite sqrt_square by lra.
  reflexivity.
Qed.

Lemma insertSorted_length x xs :
  List.length (insertSorted x xs) = S (List.length xs).
Proof.
  induction xs as [|y ys IH]; simpl; [reflexivity|].
  destruct (JS.le x y); simpl; [reflexivity | now rewrite IH].
Qed.

Lemma sortAscending_length xs :
  List.length (sortAscending xs) = List.length xs.
Proof.
  induction xs as [|x xs IH]; simpl; [reflexivity|].
  now rewrite insertSorted_length, IH.
Qed.

(** What [estimateGrowthRate] returns: the default without candidates,
    otherwise 0.8 times the element at index [floor(length / 2)] of the
    sorted candidates. *)
Lemma estimateGrowthRate_cases financials :
  let candidates :=
    growthCandidate (cashFlowStatements financials) freeCashFlow ++
    growthCandidate (incomeStatements financials) revenue ++
    growthCandidate (incomeStatements financials) eps in
  estimateGrowthRate financials =
    match candidates with
    | [] => 0.05
    | _ :: _ =>
        nth (List.length candidates / 2) (sortAscending candidates) 0 * 0.8
    end.
Proof.
  intros candidates; unfold estimateGrowthRate; fold candidates.
  rewrite sortAscending_length.
  destruct candidates; reflexivity.
Qed.

(** With an odd number of candidates the code takes their median. *)
Lemma middle_is_median_when_odd (xs : list R) :
  Nat.odd (List.length (sortAscending xs)) = true ->
  nth (List.length (sortAscending xs) / 2) (sortAscending xs) 0 =
  Spec.median xs.
Proof.
  intros H; unfold Spec.median.
  rewrite <- Nat.negb_odd, H; reflexivity.
Qed.

(** C3 on the series [Samples.twoCandidates], where the revenue candidate
    is 0.1 and the earnings candidate 0: [estimateGrowthRate] returns 0.8
    times the larger of the two, 0.08, and [calculateDCF] uses it; 0.8
    times the median of the two candidates is 0.04. *)
Theorem C3_two_candidates_take_the_larger :
  let financials := Samples.twoCandidates in
  let candidates :=
    growthCandidate (cashFlowStatements financials) freeCashFlow ++
    growthCandidate (incomeStatements financials) revenue ++
    growthCandidate (incomeStatements financials) eps in
  candidates = [0.1; 0] /\
  estimateGrowthRate financials = 0.08 /\
  estimatedGrowthRate
    (assumptions
       (calculateDCF financials Samples.quote (Samples.params None))) = 0.08 /\
  Spec.clamp (-0.10) 0.25 (Spec.median candidates * 0.8) = 0.04.
Proof.
  intros financials candidates.
  assert (Hc : candidates = [0.1; 0]).
  { subst candidates financials; unfold Samples.twoCandidates.
    cbn [cashFlowStatements incomeStatements].
    rewrite growthCandidate_short by (simpl; lia).
    rewrite !growthCandidate_three_years by (simpl; lra).
    simpl.
    replace (Spec.cagr 100 121 2) with (Spec.cagr 100 (100 * (1.1 * 1.1)) 2)
      by (f_equal; lra).
    replace (Spec.cagr 1 1 2) with (Spec.cagr 1 (1 * (1 * 1)) 2)
      by (f_equal; lra).
    rewrite !cagr_two_years_of_square by lra.
    f_equal; [lra | f_equal; lra]. }
  assert (Hs : sortAscending [0.1; 0] = [0; 0.1]).
  { unfold sortAscending; simpl.
    replace (JS.le 0.1 0) with false
      by (symmetry; apply JSFacts.le_false; lra).
    reflexivity. }
  assert (He : estimateGrowthRate financials = 0.08).
  { unfold estimateGrowthRate; fold financials; cbv zeta.
    fold candidates; rewrite Hc, Hs; simpl; lra. }
  split; [exact Hc|].
  split; [exact He|].
  split.
  - unfold calculateDCF.
    fold financials.
    replace (JS.le _ 0) with false.
    2:{ symmetry; apply JSFacts.le_false.
        subst financials; simpl.
        replace (JS.truthy 35) with true
          by (symmetry; apply JSFacts.truthy_true; lra).
        lra. }
    cbn [Samples.params customGrowthRate assumptions estimatedGrowthRate].
    rewrite He.
    unfold JS.max, JS.min.
    rewrite Rmin_left by lra.
    rewrite Rmax_right by lra.
    reflexivity.
  - rewrite Hc; unfold Spec.median, Spec.clamp; rewrite Hs; simpl.
    rewrite Rmin_right by lra.
    rewrite Rmax_right by lra.
    lra.
Qed.

End EstimateFacts.

(** ** Determinism of the engine's operations *)

Section SortingFacts.
Import Types DCF.











Lemma twoCandidates_growth_candidates :
  growthCandidate (cashFlowStatements Samples.twoCandidates) freeCashFlow ++
  growthCandidate (incomeStatements Samples.twoCandidates) revenue ++
  growthCandidate (incomeStatements Samples.twoCandidates) eps = [0.1; 0].
Proof.
  unfold Samples.twoCandidates.
  cbn [cashFlowStatements incomeStatements].
  rewrite growthCandidate_short by (simpl; lia).
  rewrite !growthCandidate_three_years by (simpl; lra).
  simpl.
  replace (Spec.cagr 100 121 2) with (Spec.cagr 100 (100 * (1.1 * 1.1)) 2)
    by (f_equal; lra).
  replace (Spec.cagr 1 1 2) with (Spec.cagr 1 (1 * (1 * 1)) 2)
    by (f_equal; lra).
  rewrite !cagr_two_years_of_square by lra.
  f_equal; [lra | f_equal; lra].
Qed.

(** The order of the sort matters to the estimate: in a runtime whose
    sort leaves the array as it is, the two candidates 0.1 and 0 of the
    sample give 0, not the 0.08 of a sorting runtime. *)
Lemma estimate_in_an_idle_runtime :
  Engine.estimateGrowthRate Samples.idleRuntime Samples.twoCandidates = 0 /\
  Engine.estimateGrowthRate Samples.insertionRuntime Samples.twoCandidates
    = 0.08.
Proof.
  unfold Engine.estimateGrowthRate; cbv zeta.
  rewrite twoCandidates_growth_candidates.
  cbn [Samples.idleRuntime Samples.insertionRuntime Engine.sort].
  assert (Hs : sortAscending [0.1; 0] = [0; 0.1]).
  { unfold sortAscending; simpl.
    replace (JS.le 0.1 0) with false
      by (symmetry; apply JSFacts.le_false; lra).
    reflexivity. }
  rewrite Hs; simpl; split; lra.
Qed.

End SortingFacts.

Section Determinism.
Import Types Moat Engine.

Variable bookValuePerShare : BalanceSheet -> R.
Variable dividendYield : StockQuote -> option R.
Variable toFixed : R -> nat -> string.


End Determinism.


(** ** Discounted cash flow: the enterprise value as sums of products *)

Section DCFClosedForm.
Import Types DCF.

Variables g s r : R.
Variable n : nat.
Hypothesis discount_defined : 1 + r <> 0.

Lemma pvLoop_projectLoop (m y : nat) (fcf pv : R) :
  pvLoop r (projectLoop g s n m (S y) fcf) (S y) pv =
  pv + sumFrom (discounted g s r n) m (S y) (fcf / (1 + r) ^ y).
Proof.
  revert y fcf pv; induction m as [|m IH]; intros y fcf pv.
  - simpl; lra.
  - cbn [projectLoop pvLoop sumFrom].
    rewrite IH.
    unfold discounted, yearFactor, JS.pow_nat.
    assert (Hp : (1 + r) ^ y <> 0) by now apply pow_nonzero.
    rewrite <- !tech_pow_Rmult.
    set (k := INR (S y) / INR n).
    replace (fcf * (1 + (g - (g - s) * k)) / ((1 + r) * (1 + r) ^ y))
      with (fcf / (1 + r) ^ y * ((1 + (g - (g - s) * k)) / (1 + r)))
      by (field; split; assumption).
    lra.
Qed.

Lemma projectLoop_step (m y : nat) (fcf : R) :
  projectLoop g s n (S m) y fcf =
  fcf * yearFactor g s n y ::
    projectLoop g s n m (S y) (fcf * yearFactor g s n y).
Proof. reflexivity. Qed.

Lemma last_of_projectLoop (m y : nat) (fcf : R) :
  nth m (projectLoop g s n (S m) y fcf) 0 =
  fcf * prodFrom (yearFactor g s n) (S m) y.
Proof.
  revert y fcf; induction m as [|m IH]; intros y fcf.
  - simpl; unfold yearFactor; lra.
  - rewrite projectLoop_step.
    cbn [nth].
    rewrite (IH (S y)).
    cbn [prodFrom]; lra.
Qed.

Lemma final_of_projectLoop (m y : nat) (fcf : R) :
  (1 <= m)%nat ->
  nth (m - 1) (projectLoop g s n m y fcf) 0 =
  fcf * prodFrom (yearFactor g s n) m y.
Proof.
  intros Hm; destruct m as [|m]; [lia|].
  replace (S m - 1)%nat with m by lia.
  apply last_of_projectLoop.
Qed.

Lemma prodFrom_discounted (m y : nat) :
  prodFrom (discounted g s r n) m y =
  prodFrom (yearFactor g s n) m y / (1 + r) ^ m.
Proof.
  revert y; induction m as [|m IH]; intros y.
  - simpl; field.
  - cbn [prodFrom]; rewrite IH; unfold discounted.
    rewrite <- tech_pow_Rmult.
    field; split; [now apply pow_nonzero | assumption].
Qed.

(** The enterprise value: the discounted projected cash flows, and the
    last of them times the perpetuity multiplier. *)
Lemma enterpriseValueOf_closed_form (fcf : R) :
  (1 <= n)%nat -> r - s <> 0 ->
  enterpriseValueOf fcf g s r n =
  sumFrom (discounted g s r n) n 1 fcf +
  fcf * prodFrom (discounted g s r n) n 1 * ((1 + s) / (r - s)).
Proof.
  intros Hn Hrs; unfold enterpriseValueOf; cbv zeta.
  rewrite pvLoop_projectLoop.
  rewrite final_of_projectLoop by exact Hn.
  rewrite prodFrom_discounted.
  unfold JS.pow_nat.
  simpl ((1 + r) ^ 0).
  assert (Hp : (1 + r) ^ n <> 0) by now apply pow_nonzero.
  replace (fcf / 1) with fcf by field.
  rewrite Rplus_0_l; f_equal.
  field; split; assumption.
Qed.

End DCFClosedForm.

(** ** Discounted cash flow: monotonicity *)

Section ProductsAndSums.
Import DCF.

Lemma prodFrom_snoc (q : nat -> R) (m y : nat) :
  prodFrom q (S m) y = prodFrom q m y * q (y + m)%nat.
Proof.
  revert y; induction m as [|m IH]; intros y.
  - simpl; rewrite Nat.add_0_r; lra.
  - change (prodFrom q (S (S m)) y) with (q y * prodFrom q (S m) (S y)).
    rewrite IH.
    replace (S y + m)%nat with (y + S m)%nat by lia.
    cbn [prodFrom]; lra.
Qed.

Lemma sumFrom_snoc (q : nat -> R) (m y : nat) (x : R) :
  sumFrom q (S m) y x = sumFrom q m y x + x * prodFrom q (S m) y.
Proof.
  revert y x; induction m as [|m IH]; intros y x.
  - simpl; lra.
  - change (sumFrom q (S (S m)) y x)
      with (x * q y + sumFrom q (S m) (S y) (x * q y)).
    rewrite IH.
    cbn [sumFrom prodFrom]; lra.
Qed.

(** Pointwise smaller, non-negative factors give a smaller product. *)
Lemma prodFrom_le (q q' : nat -> R) (m y : nat) :
  (forall k, (y <= k < y + m)%nat -> 0 <= q k <= q' k) ->
  0 <= prodFrom q m y <= prodFrom q' m y.
Proof.
  revert y; induction m as [|m IH]; intros y H; cbn [prodFrom].
  - lra.
  - assert (Hy : 0 <= q y <= q' y) by (apply H; lia).
    assert (Hm : 0 <= prodFrom q m (S y) <= prodFrom q' m (S y))
      by (apply IH; intros k Hk; apply H; lia).
    split.
    + apply Rmult_le_pos; lra.
    + apply Rmult_le_compat; lra.
Qed.

(** ... and a smaller sum of running products. *)
Lemma sumFrom_le (q q' : nat -> R) (m y : nat) (x x' : R) :
  (forall k, (y <= k < y + m)%nat -> 0 <= q k <= q' k) ->
  0 <= x <= x' ->
  0 <= sumFrom q m y x <= sumFrom q' m y x'.
Proof.
  revert y x x'; induction m as [|m IH]; intros y x x' H Hx; cbn [sumFrom].
  - lra.
  - assert (Hy : 0 <= q y <= q' y) by (apply H; lia).
    assert (Hxy : 0 <= x * q y <= x' * q' y).
    { split; [apply Rmult_le_pos; lra | apply Rmult_le_compat; lra]. }
    assert (Hm : 0 <= sumFrom q m (S y) (x * q y)
                   <= sumFrom q' m (S y) (x' * q' y))
      by (apply IH; [intros k Hk; apply H; lia | exact Hxy]).
    lra.
Qed.

Lemma div_le_cross (a b c d : R) :
  0 < b -> 0 < d -> a * d <= c * b -> a / b <= c / d.
Proof.
  intros Hb Hd H.
  apply Rmult_le_reg_r with (r := b * d); [nra|].
  replace (a / b * (b * d)) with (a * d) by (field; lra).
  replace (c / d * (b * d)) with (c * b) by (field; lra).
  exact H.
Qed.

(** The fraction [year / projectionYears]. *)
Lemma year_fraction_bounds (k n : nat) :
  (1 <= k <= n)%nat -> 0 < INR k / INR n <= 1.
Proof.
  intros [Hk Hn].
  assert (0 < INR k) by (apply lt_0_INR; lia).
  assert (0 < INR n) by (apply lt_0_INR; lia).
  assert (INR k <= INR n) by now apply le_INR.
  split.
  - now apply Rdiv_lt_0_compat.
  - apply Rmult_le_reg_r with (r := INR n); [assumption|].
    unfold Rdiv; rewrite Rmult_assoc, Rinv_l by lra; lra.
Qed.

Lemma year_fraction_before_last (k n : nat) :
  (1 <= k < n)%nat -> (n <= 20)%nat -> 0 < INR k / INR n <= 0.95.
Proof.
  intros [Hk Hn] H20.
  assert (0 < INR k) by (apply lt_0_INR; lia).
  assert (0 < INR n) by (apply lt_0_INR; lia).
  assert (INR k + 1 <= INR n) by (rewrite <- S_INR; apply le_INR; lia).
  assert (INR n <= 20).
  { replace 20 with (INR 20) by (simpl; lra). now apply le_INR. }
  split.
  - now apply Rdiv_lt_0_compat.
  - apply Rmult_le_reg_r with (r := INR n); [assumption|].
    unfold Rdiv; rewrite Rmult_assoc, Rinv_l by lra; lra.
Qed.

Lemma year_fraction_early (k n : nat) (c : R) :
  (1 <= k)%nat -> (5 <= n)%nat -> INR k <= 5 * c ->
  0 < INR k / INR n <= c.
Proof.
  intros Hk Hn Hc.
  assert (0 < INR k) by (apply lt_0_INR; lia).
  assert (5 <= INR n).
  { replace 5 with (INR 5) by (simpl; lra). now apply le_INR. }
  split.
  - apply Rdiv_lt_0_compat; lra.
  - apply Rmult_le_reg_r with (r := INR n); [lra|].
    unfold Rdiv; rewrite Rmult_assoc, Rinv_l by lra; nra.
Qed.

End ProductsAndSums.

Section CappedRegime.
Import DCF.

Lemma cappedFactor_nonneg p t r :
  0 <= p -> 0 <= t <= 1 -> 0.01 <= r -> 0 <= cappedFactor p t r.
Proof.
  intros Hp Ht Hr; unfold cappedFactor.
  apply Rmult_le_pos; [|apply Rlt_le, Rinv_0_lt_compat; lra].
  assert (0 <= p * (1 - t)) by (apply Rmult_le_pos; lra).
  assert (0 <= (r + 0.99) * t) by (apply Rmult_le_pos; lra).
  lra.
Qed.

(** Before the last year, a higher discount rate lowers the discounted
    factor although it raises the terminal growth. *)
Lemma cappedFactor_antitone p t r1 r2 :
  0.9 <= p -> 0 <= t <= 0.95 -> 0.01 <= r1 -> r1 <= r2 ->
  cappedFactor p t r2 <= cappedFactor p t r1.
Proof.
  intros Hp Ht Hr1 Hr; unfold cappedFactor.
  apply div_le_cross; try lra.
  assert (Ha : 0.045 <= p * (1 - t)) by nra.
  set (a := p * (1 - t)) in *.
  assert (H : (a + (r1 + 0.99) * t) * (1 + r2)
              - (a + (r2 + 0.99) * t) * (1 + r1)
              = (r2 - r1) * (a - 0.01 * t)) by lra.
  assert (0 <= (r2 - r1) * (a - 0.01 * t)) by (apply Rmult_le_pos; lra).
  lra.
Qed.

(** The factor of the last year rises with the discount rate; together
    with the factor of an earlier year it falls. *)
Lemma cappedFactor_with_last_antitone p t r1 r2 :
  0.9 <= p -> 0 <= t <= 0.95 -> 0.01 <= r1 -> r1 <= r2 -> r2 <= 0.11 ->
  cappedFactor p t r2 * cappedLastFactor r2 <=
  cappedFactor p t r1 * cappedLastFactor r1.
Proof.
  intros Hp Ht Hr1 Hr Hr2; unfold cappedFactor, cappedLastFactor.
  assert (Ha : 0.045 <= p * (1 - t)) by nra.
  set (a := p * (1 - t)) in *.
  set (u := r1 + 0.99). set (d := r2 - r1).
  replace (r2 + 0.99) with (u + d) by (unfold u, d; lra).
  replace (1 + r1) with (u + 0.01) by (unfold u; lra).
  replace (1 + r2) with (u + 0.01 + d) by (unfold u, d; lra).
  assert (Hu : 1 <= u <= 1.1) by (unfold u; lra).
  assert (Hd : 0 <= d <= 0.1) by (unfold d; lra).
  clearbody a u d. clear Hr1 Hr Hr2 r1 r2.
  replace ((a + (u + d) * t) / (u + 0.01 + d) * ((u + d) / (u + 0.01 + d)))
    with (((a + (u + d) * t) * (u + d)) / ((u + 0.01 + d) * (u + 0.01 + d)))
    by (field; lra).
  replace ((a + u * t) / (u + 0.01) * (u / (u + 0.01)))
    with (((a + u * t) * u) / ((u + 0.01) * (u + 0.01)))
    by (field; lra).
  apply div_le_cross; try nra.
  set (G := a + u * t).
  set (v := u + 0.01).
  assert (E : (G * u) * ((v + d) * (v + d)) - ((G + d * t) * (u + d)) * (v * v)
              = d * (v * (G * (u - 0.01) - t * u * v)
                     + d * (G * u - t * (v * v)))).
  { unfold v; lra. }
  replace (u + 0.01 + d) with (v + d) by (unfold v; lra).
  replace (a + (u + d) * t) with (G + d * t) by (unfold G; lra).
  assert (H1 : 0 <= G * (u - 0.01) - t * u * v).
  { unfold G, v.
    replace ((a + u * t) * (u - 0.01) - t * u * (u + 0.01))
      with (a * (u - 0.01) - 0.02 * (t * u)) by lra.
    assert (0.045 * 0.99 <= a * (u - 0.01)) by (apply Rmult_le_compat; lra).
    assert (t * u <= 0.95 * 1.1) by (apply Rmult_le_compat; lra).
    lra. }
  assert (H2 : 0 <= G * u - t * (v * v)).
  { unfold G, v.
    replace ((a + u * t) * u - t * ((u + 0.01) * (u + 0.01)))
      with (a * u - t * (0.02 * u + 0.0001)) by lra.
    assert (0.045 * 1 <= a * u) by (apply Rmult_le_compat; lra).
    assert (t * (0.02 * u + 0.0001) <= 0.95 * (0.02 * 1.1 + 0.0001))
      by (apply Rmult_le_compat; lra).
    lra. }
  assert (0 <= v) by (unfold v; lra).
  assert (0 <= d * (v * (G * (u - 0.01) - t * u * v)
                    + d * (G * u - t * (v * v)))).
  { apply Rmult_le_pos; [lra|].
    apply Rplus_le_le_0_compat; apply Rmult_le_pos; lra. }
  lra.
Qed.

Lemma growth_within_discount v d :
  1.01 <= v <= 1.11 -> 0 <= d <= 0.1 ->
  v * v * ((1 + d) * (1 + 2 / 9 * d) * (1 + 4 / 9 * d)) <= (v + d) * (v + d).
Proof.
  intros Hv Hd.
  assert (H : v * v * (5 / 3 + 62 / 81 * d + 8 / 81 * (d * d)) <= 2 * v + d).
  { assert (d * d <= 0.01) by nra.
    assert (Hb : 5 / 3 + 62 / 81 * d + 8 / 81 * (d * d) <= 1.75) by lra.
    assert (v * v <= 1.11 * v) by nra.
    assert (0 <= v * v) by nra.
    assert (v * v * (5 / 3 + 62 / 81 * d + 8 / 81 * (d * d)) <= v * v * 1.75)
      by (apply Rmult_le_compat_l; lra).
    nra. }
  assert (0 <= d * (2 * v + d
                    - v * v * (5 / 3 + 62 / 81 * d + 8 / 81 * (d * d))))
    by (apply Rmult_le_pos; lra).
  nra.
Qed.

(** The terminal factor [1 + safeTerminalGrowth] rises with the discount
    rate as well; the first two years of a projection of five years or
    more absorb it. *)
Lemma terminal_with_first_years_antitone p t1 t2 r1 r2 :
  0.9 <= p -> 0 <= t1 <= 0.2 -> 0 <= t2 <= 0.4 ->
  0.01 <= r1 -> r1 <= r2 -> r2 <= 0.11 ->
  (r2 + 0.99) * (cappedFactor p t1 r2 * cappedFactor p t2 r2) <=
  (r1 + 0.99) * (cappedFactor p t1 r1 * cappedFactor p t2 r1).
Proof.
  intros Hp Ht1 Ht2 Hr1 Hr Hr2; unfold cappedFactor.
  set (u := r1 + 0.99). set (d := r2 - r1). set (v := 1 + r1).
  replace (r2 + 0.99) with (u + d) by (unfold u, d; lra).
  replace (1 + r2) with (v + d) by (unfold v, d; lra).
  assert (Hu : 1 <= u <= 1.1) by (unfold u; lra).
  assert (Hd : 0 <= d <= 0.1) by (unfold d; lra).
  assert (Hv : 1.01 <= v <= 1.11) by (unfold v; lra).
  set (G1 := p * (1 - t1) + u * t1).
  set (G2 := p * (1 - t2) + u * t2).
  replace (p * (1 - t1) + (u + d) * t1) with (G1 + d * t1) by (unfold G1; lra).
  replace (p * (1 - t2) + (u + d) * t2) with (G2 + d * t2) by (unfold G2; lra).
  assert (HG1 : 0.9 <= G1) by (unfold G1; nra).
  assert (HG2 : 0.9 <= G2) by (unfold G2; nra).
  clearbody G1 G2 u d v. clear Hr1 Hr Hr2 r1 r2.
  replace ((u + d) * ((G1 + d * t1) / (v + d) * ((G2 + d * t2) / (v + d))))
    with (((u + d) * ((G1 + d * t1) * (G2 + d * t2))) / ((v + d) * (v + d)))
    by (field; lra).
  replace (u * (G1 / v * (G2 / v))) with ((u * (G1 * G2)) / (v * v))
    by (field; lra).
  apply div_le_cross; try nra.
  assert (Ha : u + d <= u * (1 + d)) by nra.
  assert (Hb1 : G1 + d * t1 <= G1 * (1 + 2 / 9 * d)) by nra.
  assert (Hb2 : G2 + d * t2 <= G2 * (1 + 4 / 9 * d)) by nra.
  assert (Hc := growth_within_discount v d Hv Hd).
  assert (H1 : (u + d) * ((G1 + d * t1) * (G2 + d * t2)) <=
               (u * (1 + d)) *
               ((G1 * (1 + 2 / 9 * d)) * (G2 * (1 + 4 / 9 * d)))).
  { apply Rmult_le_compat; try nra.
    - apply Rmult_le_pos; nra.
    - apply Rmult_le_compat; nra. }
  assert (Hpos : 0 <= u * (G1 * G2)).
  { apply Rmult_le_pos; [lra | apply Rmult_le_pos; lra]. }
  assert (H2 : u * (G1 * G2) *
               (v * v * ((1 + d) * (1 + 2 / 9 * d) * (1 + 4 / 9 * d)))
               <= u * (G1 * G2) * ((v + d) * (v + d)))
    by (apply Rmult_le_compat_l; assumption).
  assert (H3 : (u + d) * ((G1 + d * t1) * (G2 + d * t2)) * (v * v) <=
               (u * (1 + d)) *
               ((G1 * (1 + 2 / 9 * d)) * (G2 * (1 + 4 / 9 * d))) * (v * v)).
  { apply Rmult_le_compat_r; [nra | exact H1]. }
  lra.
Qed.

(** The discounted factors of the code in that regime. *)
Lemma discounted_capped g r (n k : nat) :
  discounted g (r - 0.01) r n k = cappedFactor (1 + g) (INR k / INR n) r.
Proof.
  unfold discounted, yearFactor, cappedFactor, Rdiv.
  f_equal; lra.
Qed.

Lemma discounted_capped_last g r (n : nat) :
  (1 <= n)%nat ->
  discounted g (r - 0.01) r n n = cappedLastFactor r.
Proof.
  intros Hn.
  assert (0 < INR n) by (apply lt_0_INR; lia).
  unfold discounted, yearFactor, cappedLastFactor.
  replace (INR n / INR n) with 1 by (field; lra).
  unfold Rdiv; f_equal; lra.
Qed.

End CappedRegime.

Section EnterpriseValueMonotone.
Import DCF.

Lemma yearFactor_weighted g s (n k : nat) :
  yearFactor g s n k =
  (1 + g) * (1 - INR k / INR n) + (1 + s) * (INR k / INR n).
Proof. unfold yearFactor; lra. Qed.

Lemma yearFactor_nonneg g s (n k : nat) :
  -1 <= g -> -1 <= s -> (1 <= k <= n)%nat -> 0 <= yearFactor g s n k.
Proof.
  intros Hg Hs Hk; rewrite yearFactor_weighted.
  pose proof (year_fraction_bounds k n Hk) as Ht.
  apply Rplus_le_le_0_compat; apply Rmult_le_pos; lra.
Qed.

Lemma yearFactor_growth_le g g' s (n k : nat) :
  g <= g' -> (1 <= k <= n)%nat -> yearFactor g s n k <= yearFactor g' s n k.
Proof.
  intros Hg Hk; rewrite !yearFactor_weighted.
  pose proof (year_fraction_bounds k n Hk) as Ht.
  apply Rplus_le_compat_r, Rmult_le_compat_r; lra.
Qed.

Lemma three_factors (q : nat -> R) (m y : nat) :
  prodFrom q (S (S (S m))) y =
  q y * q (S y) * q (S (S y)) * prodFrom q m (S (S (S y))).
Proof. cbn [prodFrom]; lra. Qed.

(** A higher growth rate raises the enterprise value. *)
Lemma enterpriseValueOf_growth_le fcf g g' s r (n : nat) :
  0 <= fcf -> -1 <= g -> g <= g' -> -1 <= s -> s < r -> -1 < r ->
  (1 <= n)%nat ->
  enterpriseValueOf fcf g s r n <= enterpriseValueOf fcf g' s r n.
Proof.
  intros Hf Hg Hgg Hs Hsr Hr Hn.
  rewrite !enterpriseValueOf_closed_form by (try lra; exact Hn).
  assert (Hq : forall k, (1 <= k < 1 + n)%nat ->
                 0 <= discounted g s r n k <= discounted g' s r n k).
  { intros k Hk; unfold discounted.
    assert (Hk' : (1 <= k <= n)%nat) by lia.
    pose proof (yearFactor_nonneg g s n k Hg Hs Hk').
    pose proof (yearFactor_growth_le g g' s n k Hgg Hk').
    assert (0 < / (1 + r)) by (apply Rinv_0_lt_compat; lra).
    split.
    - apply Rmult_le_pos; lra.
    - apply Rmult_le_compat_r; lra. }
  pose proof (sumFrom_le _ _ n 1 fcf fcf Hq) as Hsum.
  pose proof (prodFrom_le _ _ n 1 Hq) as Hprod.
  assert (Hm : 0 <= (1 + s) / (r - s)).
  { apply Rmult_le_pos; [lra | apply Rlt_le, Rinv_0_lt_compat; lra]. }
  assert (fcf * prodFrom (discounted g s r n) n 1 <=
          fcf * prodFrom (discounted g' s r n) n 1)
    by (apply Rmult_le_compat_l; lra).
  assert (fcf * prodFrom (discounted g s r n) n 1 * ((1 + s) / (r - s)) <=
          fcf * prodFrom (discounted g' s r n) n 1 * ((1 + s) / (r - s)))
    by (apply Rmult_le_compat_r; lra).
  lra.
Qed.

(** With the terminal growth fixed, a higher discount rate lowers the
    enterprise value. *)
Lemma enterpriseValueOf_discount_le fcf g s r r' (n : nat) :
  0 <= fcf -> -1 <= g -> -1 <= s -> s < r -> r <= r' -> -1 < r ->
  (1 <= n)%nat ->
  enterpriseValueOf fcf g s r' n <= enterpriseValueOf fcf g s r n.
Proof.
  intros Hf Hg Hs Hsr Hrr Hr Hn.
  rewrite !enterpriseValueOf_closed_form by (try lra; exact Hn).
  assert (Hq : forall k, (1 <= k < 1 + n)%nat ->
                 0 <= discounted g s r' n k <= discounted g s r n k).
  { intros k Hk; unfold discounted.
    assert (Hk' : (1 <= k <= n)%nat) by lia.
    pose proof (yearFactor_nonneg g s n k Hg Hs Hk').
    assert (0 < / (1 + r')) by (apply Rinv_0_lt_compat; lra).
    assert (/ (1 + r') <= / (1 + r)) by (apply Rinv_le_contravar; lra).
    split.
    - apply Rmult_le_pos; lra.
    - apply Rmult_le_compat_l; lra. }
  pose proof (sumFrom_le _ _ n 1 fcf fcf Hq) as Hsum.
  pose proof (prodFrom_le _ _ n 1 Hq) as Hprod.
  assert (Hm : 0 <= (1 + s) / (r' - s) <= (1 + s) / (r - s)).
  { assert (0 < / (r' - s)) by (apply Rinv_0_lt_compat; lra).
    assert (/ (r' - s) <= / (r - s)) by (apply Rinv_le_contravar; lra).
    split.
    - apply Rmult_le_pos; lra.
    - apply Rmult_le_compat_l; lra. }
  assert (0 <= fcf * prodFrom (discounted g s r' n) n 1 <=
          fcf * prodFrom (discounted g s r n) n 1).
  { split; [apply Rmult_le_pos; lra | apply Rmult_le_compat_l; lra]. }
  assert (fcf * prodFrom (discounted g s r' n) n 1 * ((1 + s) / (r' - s)) <=
          fcf * prodFrom (discounted g s r n) n 1 * ((1 + s) / (r - s)))
    by (apply Rmult_le_compat; lra).
  lra.
Qed.

(** Where the discount rate caps the terminal growth, a higher discount
    rate raises the terminal growth with it; over five to twenty years the
    enterprise value still falls. *)
Lemma enterpriseValueOf_capped_le fcf g r r' (n : nat) :
  0 <= fcf -> -0.10 <= g -> 0.01 <= r -> r <= r' -> r' <= 0.11 ->
  (5 <= n <= 20)%nat ->
  enterpriseValueOf fcf g (r' - 0.01) r' n <=
  enterpriseValueOf fcf g (r - 0.01) r n.
Proof.
  intros Hf Hg Hr Hrr Hr' Hn.
  rewrite !enterpriseValueOf_closed_form by (try lra; lia).
  set (q := discounted g (r - 0.01) r n).
  set (q' := discounted g (r' - 0.01) r' n).
  assert (Hq : forall k, (1 <= k < n)%nat -> 0 <= q' k <= q k).
  { intros k Hk; unfold q, q'; rewrite !discounted_capped.
    pose proof (year_fraction_before_last k n Hk (proj2 Hn)) as Ht.
    split.
    - apply cappedFactor_nonneg; lra.
    - apply cappedFactor_antitone; lra. }
  assert (Hlast : q n = cappedLastFactor r /\ q' n = cappedLastFactor r').
  { unfold q, q'; rewrite !discounted_capped_last by lia; now split. }
  destruct Hlast as [Hl Hl'].
  pose proof (discounted_capped g r n 1) as E1; fold q in E1.
  pose proof (discounted_capped g r n 2) as E2; fold q in E2.
  pose proof (discounted_capped g r n 3) as E3; fold q in E3.
  pose proof (discounted_capped g r' n 1) as E1'; fold q' in E1'.
  pose proof (discounted_capped g r' n 2) as E2'; fold q' in E2'.
  pose proof (discounted_capped g r' n 3) as E3'; fold q' in E3'.
  assert (Ht1 : 0 < INR 1 / INR n <= 0.2)
    by (apply year_fraction_early; [lia | lia | simpl; lra]).
  assert (Ht2 : 0 < INR 2 / INR n <= 0.4)
    by (apply year_fraction_early; [lia | lia | simpl; lra]).
  assert (Ht3 : 0 < INR 3 / INR n <= 0.95)
    by (apply year_fraction_before_last; lia).
  assert (Hterm : (r' + 0.99) * (q' 1%nat * q' 2%nat) <=
                  (r + 0.99) * (q 1%nat * q 2%nat)).
  { rewrite E1, E2, E1', E2'.
    apply terminal_with_first_years_antitone; lra. }
  assert (Hpair : q' 3%nat * q' n <= q 3%nat * q n).
  { rewrite E3, E3', Hl, Hl'.
    apply cappedFactor_with_last_antitone; lra. }
  assert (H1 : 0 <= q' 1%nat <= q 1%nat) by (apply Hq; lia).
  assert (H2 : 0 <= q' 2%nat <= q 2%nat) by (apply Hq; lia).
  assert (H3 : 0 <= q' 3%nat) by (apply Hq; lia).
  assert (Hln : 0 <= q' n).
  { rewrite Hl'; unfold cappedLastFactor.
    apply Rmult_le_pos; [lra | apply Rlt_le, Rinv_0_lt_compat; lra]. }
  clear E1 E2 E3 E1' E2' E3' Ht1 Ht2 Ht3 Hl Hl'.
  destruct n as [|[|[|[|[|m]]]]]; try lia.
  set (n := S (S (S (S (S m))))) in *.
  assert (Hsum : 0 <= sumFrom q' (S (S (S (S m)))) 1 fcf
                   <= sumFrom q (S (S (S (S m)))) 1 fcf).
  { apply sumFrom_le; [|lra]. intros k Hk; apply Hq; unfold n; lia. }
  assert (Hmid : 0 <= prodFrom q' (S m) 4 <= prodFrom q (S m) 4).
  { apply prodFrom_le. intros k Hk; apply Hq; unfold n; lia. }
  assert (Esplit : forall p : nat -> R,
             prodFrom p n 1 =
             p 1%nat * p 2%nat * (p 3%nat * p n) * prodFrom p (S m) 4).
  { intros p; unfold n.
    rewrite prodFrom_snoc, three_factors.
    replace (1 + S (S (S (S m))))%nat with (S (S (S (S (S m))))) by lia.
    lra. }
  assert (Esum : forall p : nat -> R,
             sumFrom p n 1 fcf =
             sumFrom p (S (S (S (S m)))) 1 fcf + fcf * prodFrom p n 1).
  { intros p; unfold n; apply sumFrom_snoc. }
  rewrite !Esum, !Esplit.
  replace ((1 + (r' - 0.01)) / (r' - (r' - 0.01))) with (100 * (r' + 0.99))
    by (unfold Rdiv; replace (r' - (r' - 0.01)) with (/ 100) by lra;
        rewrite Rinv_inv; lra).
  replace ((1 + (r - 0.01)) / (r - (r - 0.01))) with (100 * (r + 0.99))
    by (unfold Rdiv; replace (r - (r - 0.01)) with (/ 100) by lra;
        rewrite Rinv_inv; lra).
  set (M := prodFrom q (S m) 4) in *.
  set (M' := prodFrom q' (S m) 4) in *.
  set (Y := q 3%nat * q n) in *.
  set (Y' := q' 3%nat * q' n) in *.
  assert (HY : 0 <= Y') by (unfold Y'; apply Rmult_le_pos; lra).
  assert (HYM : 0 <= Y' * M' <= Y * M).
  { split; [apply Rmult_le_pos; lra | apply Rmult_le_compat; lra]. }
  assert (HX : 0 <= q' 1%nat * q' 2%nat <= q 1%nat * q 2%nat).
  { split; [apply Rmult_le_pos; lra | apply Rmult_le_compat; lra]. }
  assert (HP : q' 1%nat * q' 2%nat * (Y' * M') <= q 1%nat * q 2%nat * (Y * M))
    by (apply Rmult_le_compat; lra).
  assert (HZ : 0 <= (r' + 0.99) * (q' 1%nat * q' 2%nat))
    by (apply Rmult_le_pos; lra).
  assert (HT : (r' + 0.99) * (q' 1%nat * q' 2%nat) * (Y' * M') <=
               (r + 0.99) * (q 1%nat * q 2%nat) * (Y * M))
    by (apply Rmult_le_compat; lra).
  assert (HfP : fcf * (q' 1%nat * q' 2%nat * (Y' * M')) <=
                fcf * (q 1%nat * q 2%nat * (Y * M)))
    by (apply Rmult_le_compat_l; lra).
  assert (HfT : fcf * ((r' + 0.99) * (q' 1%nat * q' 2%nat) * (Y' * M')) <=
                fcf * ((r + 0.99) * (q 1%nat * q 2%nat) * (Y * M)))
    by (apply Rmult_le_compat_l; lra).
  lra.
Qed.

End EnterpriseValueMonotone.

Section IntrinsicValueMonotone.
Import Types DCF.

Lemma intrinsicValue_of_enterpriseValue financials quote params :
  0 < currentFcfOf financials ->
  intrinsicValue (calculateDCF financials quote params) =
  Rmax 0
    ((enterpriseValueOf (currentFcfOf financials)
        (growthRateOf financials params) (safeTerminalGrowthOf params)
        (discountRate params) (projectionYears params)
      - netDebtOf financials) / sharesOf financials).
Proof.
  intros H; unfold calculateDCF; fold (currentFcfOf financials).
  replace (JS.le (currentFcfOf financials) 0) with false
    by (symmetry; apply JSFacts.le_false; lra).
  reflexivity.
Qed.

Lemma sharesOf_positive financials :
  shareCountNotNegative financials -> 0 < sharesOf financials.
Proof.
  unfold shareCountNotNegative, sharesOf.
  destruct (nth_error (incomeStatements financials) 0) as [income|];
    simpl; [|lra].
  intros H.
  destruct (JS.truthy (sharesOutstanding income)) eqn:E; [|lra].
  apply JSFacts.truthy_true in E; lra.
Qed.

Lemma per_share_value_le (ev ev' netDebt shares : R) :
  0 < shares -> ev <= ev' ->
  Rmax 0 ((ev - netDebt) / shares) <= Rmax 0 ((ev' - netDebt) / shares).
Proof.
  intros Hs He.
  apply Rle_max_compat_l.
  apply Rmult_le_compat_r; [apply Rlt_le, Rinv_0_lt_compat; lra | lra].
Qed.

Lemma growthRateOf_bounds financials params :
  -0.10 <= growthRateOf financials params <= 0.25.
Proof.
  unfold growthRateOf, JS.max, JS.min; split.
  - apply Rmax_l.
  - apply Rmax_lub; [lra | apply Rmin_r].
Qed.

Lemma capped_growth_le (g g' : R) :
  g <= g' ->
  JS.max (-0.10) (JS.min g 0.25) <= JS.max (-0.10) (JS.min g' 0.25).
Proof.
  intros H; unfold JS.max, JS.min.
  apply Rle_max_compat_l, Rle_min_compat_r; exact H.
Qed.

(** The enterprise value falls with the discount rate, through both
    regimes of the terminal growth. *)
Lemma enterpriseValueOf_falls_with_discountRate fcf g tg r r' (n : nat) :
  0 <= fcf -> -0.10 <= g -> 0 <= tg <= 0.10 ->
  0.01 <= r -> r <= r' -> r' <= 0.30 -> (5 <= n <= 20)%nat ->
  enterpriseValueOf fcf g (Rmin tg (r' - 0.01)) r' n <=
  enterpriseValueOf fcf g (Rmin tg (r - 0.01)) r n.
Proof.
  intros Hf Hg Htg Hr Hrr Hr' Hn.
  destruct (Rle_dec (r' - 0.01) tg) as [Hcap'|Hfree'].
  - (* the discount rate caps the terminal growth at both rates *)
    rewrite (Rmin_right tg (r' - 0.01)) by lra.
    rewrite (Rmin_right tg (r - 0.01)) by lra.
    apply enterpriseValueOf_capped_le; try lra; exact Hn.
  - destruct (Rle_dec tg (r - 0.01)) as [Hfree|Hcap].
    + (* at neither *)
      rewrite (Rmin_left tg (r' - 0.01)) by lra.
      rewrite (Rmin_left tg (r - 0.01)) by lra.
      apply enterpriseValueOf_discount_le; try lra; lia.
    + (* at the lower rate only: through the rate where the cap starts *)
      rewrite (Rmin_left tg (r' - 0.01)) by lra.
      rewrite (Rmin_right tg (r - 0.01)) by lra.
      apply Rle_trans with (enterpriseValueOf fcf g tg (tg + 0.01) n).
      * apply enterpriseValueOf_discount_le; try lra; lia.
      * replace tg with (tg + 0.01 - 0.01) at 1 by lra.
        apply enterpriseValueOf_capped_le; try lra; exact Hn.
Qed.

(** C2, amended: for a company whose most recent income statement
    reports a share count that is not negative (or that has no income
    statement), with the terminal growth rate in [0, 0.10], five to twenty
    projection years and discount rates in [0.01, 0.30], all other inputs
    fixed, the intrinsic value of [calculateDCF] does not rise when the
    discount rate rises, and does not fall when the supplied growth rate
    rises. *)
Theorem C2_intrinsic_value_is_monotone :
  forall (financials : Financials) (quote : StockQuote)
         (tg : R) (n : nat) (r r' : R) (custom : option R) (g g' : R),
    0 <= tg <= 0.10 -> (5 <= n <= 20)%nat ->
    shareCountNotNegative financials ->
    0.01 <= r -> r <= r' -> r' <= 0.30 -> g <= g' ->
    intrinsicValue
      (calculateDCF financials quote
         {| discountRate := r'; terminalGrowthRate := tg;
            projectionYears := n; customGrowthRate := custom |}) <=
    intrinsicValue
      (calculateDCF financials quote
         {| discountRate := r; terminalGrowthRate := tg;
            projectionYears := n; customGrowthRate := custom |}) /\
    intrinsicValue
      (calculateDCF financials quote
         {| discountRate := r; terminalGrowthRate := tg;
            projectionYears := n; customGrowthRate := Some g |}) <=
    intrinsicValue
      (calculateDCF financials quote
         {| discountRate := r; terminalGrowthRate := tg;
            projectionYears := n; customGrowthRate := Some g' |}).
Proof.
  intros financials quote tg n r r' custom g g' Htg Hn Hshares Hr Hrr Hr' Hg.
  destruct (Rle_dec (currentFcfOf financials) 0) as [Hno|Hyes].
  - rewrite !calculateDCF_refuses by exact Hno; simpl; lra.
  - apply Rnot_le_lt in Hyes.
    pose proof (sharesOf_positive financials Hshares) as Hs.
    rewrite !intrinsicValue_of_enterpriseValue by exact Hyes.
    split; apply per_share_value_le; try exact Hs.
    + unfold safeTerminalGrowthOf, JS.min.
      cbn [discountRate terminalGrowthRate projectionYears].
      set (p := {| discountRate := r |}).
      set (p' := {| discountRate := r' |}).
      replace (growthRateOf financials p') with (growthRateOf financials p)
        by reflexivity.
      apply enterpriseValueOf_falls_with_discountRate; try lra;
        try exact Hn.
      apply growthRateOf_bounds.
    + unfold safeTerminalGrowthOf, growthRateOf.
      cbn [discountRate terminalGrowthRate projectionYears customGrowthRate].
      apply enterpriseValueOf_growth_le; try lra; try lia.
      * pose proof (Rmax_l (-0.10) (JS.min g 0.25)); unfold JS.max; lra.
      * now apply capped_growth_le.
      * unfold JS.min; pose proof (Rmin_l tg (r - 0.01));
          pose proof (Rmin_r tg (r - 0.01));
          pose proof (Rmin_glb tg (r - 0.01) 0); lra.
      * unfold JS.min; pose proof (Rmin_r tg (r - 0.01)); lra.
Qed.

Lemma C2_witness :
  intrinsicValue
    (calculateDCF Samples.twoCandidates Samples.quote
       {| discountRate := 0.12; terminalGrowthRate := 0.03;
          projectionYears := 10; customGrowthRate := None |}) <=
  intrinsicValue
    (calculateDCF Samples.twoCandidates Samples.quote
       {| discountRate := 0.08; terminalGrowthRate := 0.03;
          projectionYears := 10; customGrowthRate := None |}) /\
  intrinsicValue
    (calculateDCF Samples.twoCandidates Samples.quote
       {| discountRate := 0.08; terminalGrowthRate := 0.03;
          projectionYears := 10; customGrowthRate := Some 0.05 |}) <=
  intrinsicValue
    (calculateDCF Samples.twoCandidates Samples.quote
       {| discountRate := 0.08; terminalGrowthRate := 0.03;
          projectionYears := 10; customGrowthRate := Some 0.15 |}).
Proof.
  apply (C2_intrinsic_value_is_monotone
           Samples.twoCandidates Samples.quote 0.03 10 0.08 0.12 None
           0.05 0.15).
  - lra.
  - lia.
  - unfold shareCountNotNegative; simpl; lra.
  - lra.
  - lra.
  - lra.
  - lra.
Defined.

End IntrinsicValueMonotone.

(** ** A negative share count *)

Section NegativeShareCount.
Import Types DCF.

(** Without growth every projected cash flow is the starting one. *)
Lemma projectLoop_without_growth (N n year : nat) (fcf : R) :
  projectLoop 0 0 N n year fcf = repeat fcf n.
Proof.
  revert year; induction n as [|n IH]; intros year; [reflexivity|].
  cbn [projectLoop repeat]; cbv zeta.
  replace (fcf * (1 + (0 - (0 - 0) * (INR year / INR N)))) with fcf by lra.
  now rewrite IH.
Qed.

(** Without growth the model values a perpetuity: on the sample, whose
    share count is -1, the intrinsic value is the net debt of 20 less the
    enterprise value [1 / r]. *)
Lemma negativeShareCount_value (r : R) :
  0.10 <= r ->
  intrinsicValue
    (calculateDCF Samples.negativeShareCount Samples.quote
       {| discountRate := r; terminalGrowthRate := 0;
          projectionYears := 5; customGrowthRate := Some 0 |}) =
  20 - 1 / r.
Proof.
  intros Hr; unfold calculateDCF.
  cbn [discountRate terminalGrowthRate projectionYears customGrowthRate].
  unfold Samples.negativeShareCount, Samples.balance, Samples.cashFlow,
    Samples.income.
  cbn [cashFlowStatements incomeStatements balanceSheets nth_error option_map
       freeCashFlow sharesOutstanding totalDebt cash JS.or_default].
  replace (JS.truthy 1) with true
    by (symmetry; apply JSFacts.truthy_true; lra).
  replace (JS.truthy (-1)) with true
    by (symmetry; apply JSFacts.truthy_true; lra).
  replace (JS.truthy 50) with true
    by (symmetry; apply JSFacts.truthy_true; lra).
  replace (JS.truthy 30) with true
    by (symmetry; apply JSFacts.truthy_true; lra).
  replace (JS.le 1 0) with false by (symmetry; apply JSFacts.le_false; lra).
  cbn [intrinsicValue].
  unfold JS.max, JS.min.
  rewrite (Rmin_left 0 0.25) by lra.
  rewrite (Rmax_right (-0.10) 0) by lra.
  rewrite (Rmin_left 0 (r - 0.01)) by lra.
  rewrite projectLoop_without_growth.
  cbn [repeat pvLoop nth Nat.sub]; unfold JS.pow_nat.
  assert (Hinv : 0 < 1 / r <= 10).
  { split; [apply Rdiv_lt_0_compat; lra|].
    apply Rmult_le_reg_r with (r := r); [lra|].
    unfold Rdiv; rewrite Rmult_assoc, Rinv_l; lra. }
  replace ((0 + 1 / (1 + r) ^ 1 + 1 / (1 + r) ^ 2 + 1 / (1 + r) ^ 3 +
            1 / (1 + r) ^ 4 + 1 / (1 + r) ^ 5 +
            1 * (1 + 0) / (r - 0) / (1 + r) ^ 5 - (50 - 30)) / -1)
    with (20 - 1 / r) by (field; lra).
  apply Rmax_right; lra.
Qed.

(** C2, as the specification states it, fails: the code divides the
    equity value by the share count of the statements as it is, so that
    for a company reporting a share count of -1, a free cash flow of 1
    and a net debt of 20 the intrinsic value rises from 10 to 15 when the
    discount rate rises from 0.10 to 0.20, with terminal growth 0, five
    projection years and a custom growth rate of 0. *)
Lemma C2_value_rises_with_a_negative_share_count :
  intrinsicValue
    (calculateDCF Samples.negativeShareCount Samples.quote
       {| discountRate := 0.10; terminalGrowthRate := 0;
          projectionYears := 5; customGrowthRate := Some 0 |}) = 10 /\
  intrinsicValue
    (calculateDCF Samples.negativeShareCount Samples.quote
       {| discountRate := 0.20; terminalGrowthRate := 0;
          projectionYears := 5; customGrowthRate := Some 0 |}) = 15 /\
  ~ (intrinsicValue
       (calculateDCF Samples.negativeShareCount Samples.quote
          {| discountRate := 0.20; terminalGrowthRate := 0;
             projectionYears := 5; customGrowthRate := Some 0 |})
     <= intrinsicValue
          (calculateDCF Samples.negativeShareCount Samples.quote
             {| discountRate := 0.10; terminalGrowthRate := 0;
                projectionYears := 5; customGrowthRate := Some 0 |})).
Proof.
  rewrite !negativeShareCount_value by lra.
  repeat split; lra.
Qed.

End NegativeShareCount.

(** * Further properties of the engine *)

(** ** Margin of safety: bands, target prices, combination *)

Section MarginBands.
Import MarginOfSafety MarginTargets.

(** The bands of [calculateMarginOfSafety] read as prices: a positive
    price is [undervalued] up to 75% of the intrinsic value, [fair] up to
    the intrinsic value and [overvalued] above it; the risk is [low] up to
    65% of the intrinsic value, [high] above the intrinsic value and
    [medium] between. *)
Theorem margin_bands_as_prices :
  forall price iv : R,
    0 < iv -> 0 < price ->
    let r := calculateMarginOfSafety price iv in
    marginOfSafety r = (iv - price) / iv /\
    marginOfSafety r < 1 /\
    (status r = undervalued <-> price <= 0.75 * iv) /\
    (status r = fair <-> 0.75 * iv < price <= iv) /\
    (status r = overvalued <-> iv < price) /\
    (riskLevel r = low <-> price <= 0.65 * iv) /\
    (riskLevel r = medium <-> 0.65 * iv < price <= iv) /\
    (riskLevel r = high <-> iv < price).
Proof.
  intros price iv Hiv Hp r; subst r; unfold calculateMarginOfSafety.
  replace (JS.le iv 0) with false by (symmetry; apply JSFacts.le_false; lra).
  replace (JS.le price 0) with false
    by (symmetry; apply JSFacts.le_false; lra).
  cbn [orb]; cbv zeta.
  set (m := (iv - price) / iv).
  assert (Hm : m * iv = iv - price) by (unfold m; field; lra).
  assert (Hlt : m < 1) by nra.
  unfold Thresholds.marginOfSafety; cbn [Thresholds.excellent Thresholds.good
                                          Thresholds.minimum].
  unfold JS.ge.
  destruct (Rge_dec m 0.50); [|destruct (Rge_dec m 0.35);
    [|destruct (Rge_dec m 0.25); [|destruct (Rge_dec m 0);
      [|destruct (Rge_dec m (-0.25))]]]];
    cbn [marginOfSafety status riskLevel];
    (split; [reflexivity|]); (split; [exact Hlt|]);
    repeat split; intros; try discriminate; try reflexivity; nra.
Qed.

Lemma margin_bands_as_prices_witness :
  let r := calculateMarginOfSafety 60 100 in
  marginOfSafety r = (100 - 60) / 100 /\
  marginOfSafety r < 1 /\
  (status r = undervalued <-> 60 <= 0.75 * 100) /\
  (status r = fair <-> 0.75 * 100 < 60 <= 100) /\
  (status r = overvalued <-> 100 < 60) /\
  (riskLevel r = low <-> 60 <= 0.65 * 100) /\
  (riskLevel r = medium <-> 0.65 * 100 < 60 <= 100) /\
  (riskLevel r = high <-> 100 < 60).
Proof.
  apply (margin_bands_as_prices 60 100); lra.
Defined.

(** Buying at the target price gives exactly the desired margin. *)
Theorem target_price_gives_the_desired_margin :
  forall iv m : R,
    0 < iv -> m < 1 ->
    marginOfSafety
      (calculateMarginOfSafety (calculateTargetPrice iv (Some m)) iv) = m /\
    calculateTargetPrice iv None = 0.75 * iv.
Proof.
  intros iv m Hiv Hm.
  unfold calculateTargetPrice, defaultMargin.
  replace (JS.le iv 0) with false by (symmetry; apply JSFacts.le_false; lra).
  split; [|lra].
  rewrite margin_value by nra.
  field; lra.
Qed.

Lemma target_price_gives_the_desired_margin_witness :
  marginOfSafety
    (calculateMarginOfSafety (calculateTargetPrice 100 (Some 0.25)) 100)
  = 0.25 /\
  calculateTargetPrice 100 None = 0.75 * 100.
Proof.
  apply (target_price_gives_the_desired_margin 100 0.25); lra.
Defined.

(** [calculateRequiredDrop] calls a price adequate exactly when its margin
    of safety reaches the required margin, and then reports no drop. *)
Theorem required_drop_agrees_with_the_margin :
  forall price iv m : R,
    0 < iv -> 0 < price ->
    let d := calculateRequiredDrop price iv (Some m) in
    targetPrice d = iv * (1 - m) /\
    (isAlreadyAdequate d = true <->
     marginOfSafety (calculateMarginOfSafety price iv) >= m) /\
    (isAlreadyAdequate d = true <-> percentDrop d <= 0) /\
    price * (1 - percentDrop d) = targetPrice d.
Proof.
  intros price iv m Hiv Hp d; subst d.
  unfold calculateRequiredDrop, calculateTargetPrice.
  replace (JS.le iv 0) with false by (symmetry; apply JSFacts.le_false; lra).
  cbn [targetPrice isAlreadyAdequate percentDrop].
  rewrite margin_value by lra.
  rewrite JSFacts.le_true.
  set (q := (iv - price) / iv).
  assert (Hq : q * iv = iv - price) by (unfold q; field; lra).
  set (p := (price - iv * (1 - m)) / price).
  assert (Hpd : p * price = price - iv * (1 - m)) by (unfold p; field; lra).
  repeat split; intros; try nra.
Qed.

Lemma required_drop_agrees_with_the_margin_witness :
  let d := calculateRequiredDrop 90 100 (Some 0.25) in
  targetPrice d = 100 * (1 - 0.25) /\
  (isAlreadyAdequate d = true <->
   marginOfSafety (calculateMarginOfSafety 90 100) >= 0.25) /\
  (isAlreadyAdequate d = true <-> percentDrop d <= 0) /\
  90 * (1 - percentDrop d) = targetPrice d.
Proof.
  apply (required_drop_agrees_with_the_margin 90 100 0.25); lra.
Defined.

(** Without a positive intrinsic value the target price is 0: a positive
    price is never adequate and would have to drop by 100%. *)
Theorem required_drop_without_a_value :
  forall price iv : R, forall m : option R,
    iv <= 0 -> 0 < price ->
    let d := calculateRequiredDrop price iv m in
    targetPrice d = 0 /\ percentDrop d = 1 /\ isAlreadyAdequate d = false.
Proof.
  intros price iv m Hiv Hp d; subst d.
  unfold calculateRequiredDrop, calculateTargetPrice.
  replace (JS.le iv 0) with true by (symmetry; apply JSFacts.le_true; lra).
  cbn [targetPrice isAlreadyAdequate percentDrop].
  repeat split.
  - field; lra.
  - apply JSFacts.le_false; lra.
Qed.

Lemma required_drop_without_a_value_witness :
  let d := calculateRequiredDrop 50 0 None in
  targetPrice d = 0 /\ percentDrop d = 1 /\ isAlreadyAdequate d = false.
Proof.
  apply (required_drop_without_a_value 50 0 None); lra.
Defined.

End MarginBands.

Section CombinedMargin.
Import MarginOfSafety.

Lemma individual_entries price valuations method x :
  In (method, Some x) (map (individualEntry price) valuations) <->
  exists v, In (method, Some v) valuations /\ v > 0 /\ x = (v - price) / v.
Proof.
  rewrite in_map_iff; split.
  - intros ([m [v|]] & E & Hin); unfold individualEntry in E; simpl in E.
    + destruct (JS.gt v 0) eqn:Hv; inversion E; subst.
      exists v; apply JSFacts.gt_true in Hv; auto.
    + discriminate.
  - intros (v & Hin & Hv & ->).
    exists (method, Some v); split; [|exact Hin].
    unfold individualEntry; simpl.
    apply JSFacts.gt_true in Hv; now rewrite Hv.
Qed.

Lemma validValuesOf_positive valuations v :
  In v (validValuesOf valuations) -> 0 < v.
Proof.
  intros H; apply validValuesOf_spec in H.
  destruct H as (_ & _ & H); lra.
Qed.

(** The combined margin of safety is the smallest of the individual
    margins: at a positive price no method gives a lower margin, and some
    method gives exactly the combined one. *)
Theorem combined_margin_is_the_smallest_margin :
  forall (price : R) (valuations : list (string * option R)),
    0 < price ->
    let r := calculateCombinedMarginOfSafety price valuations in
    (forall method x,
        In (method, Some x) (individual r) -> combinedMarginOfSafety r <= x) /\
    (validValuesOf valuations <> [] ->
     exists method,
       In (method, Some (combinedMarginOfSafety r)) (individual r)) /\
    (validValuesOf valuations = [] ->
     forall method x, In (method, x) (individual r) -> x = None).
Proof.
  intros price valuations Hp r; subst r.
  unfold calculateCombinedMarginOfSafety.
  destruct (validValuesOf valuations) as [|v vs] eqn:E;
    cbn [individual combinedMarginOfSafety].
  - split; [|split; [congruence|]].
    + intros method x H; apply individual_entries in H.
      destruct H as (w & Hin & Hw & _).
      assert (In w (validValuesOf valuations))
        by (apply validValuesOf_spec; eauto).
      rewrite E in *; contradiction.
    + intros _ method [x|] H; [exfalso | reflexivity].
      apply individual_entries in H.
      destruct H as (w & Hin & Hw & _).
      assert (In w (validValuesOf valuations))
        by (apply validValuesOf_spec; eauto).
      rewrite E in *; contradiction.
  - rewrite effective_value_is_minimum.
    set (least := JS.min_of v vs).
    assert (Hin : In least (validValuesOf valuations))
      by (rewrite E; apply JSFacts.min_of_in).
    assert (Hpos : 0 < least) by exact (validValuesOf_positive _ _ Hin).
    split; [|split; [|congruence]].
    + intros method x H; apply individual_entries in H.
      destruct H as (w & Hw & Hw0 & ->).
      assert (Hle : least <= w).
      { assert (Hv : In w (v :: vs))
          by (rewrite <- E; apply validValuesOf_spec; eauto).
        destruct Hv as [<-|Hv];
          [apply JSFacts.min_of_le_start | now apply JSFacts.min_of_le_each]. }
      apply Rmult_le_reg_r with (r := least * w); [nra|].
      replace ((least - price) / least * (least * w))
        with ((least - price) * w) by (field; lra).
      replace ((w - price) / w * (least * w))
        with ((w - price) * least) by (field; lra).
      nra.
    + intros _.
      apply validValuesOf_spec in Hin; destruct Hin as (method & Hm & Hgt).
      exists method; apply individual_entries; eauto.
Qed.

Lemma combined_margin_is_the_smallest_margin_witness :
  let r :=
    calculateCombinedMarginOfSafety 70
      [("dcf"%string, Some 100); ("grahamNumber"%string, Some 80);
       ("grahamGrowth"%string, None)] in
  (forall method x,
      In (method, Some x) (individual r) -> combinedMarginOfSafety r <= x) /\
  (validValuesOf
     [("dcf"%string, Some 100); ("grahamNumber"%string, Some 80);
      ("grahamGrowth"%string, None)] <> [] ->
   exists method,
     In (method, Some (combinedMarginOfSafety r)) (individual r)) /\
  (validValuesOf
     [("dcf"%string, Some 100); ("grahamNumber"%string, Some 80);
      ("grahamGrowth"%string, None)] = [] ->
   forall method x, In (method, x) (individual r) -> x = None).
Proof.
  apply (combined_margin_is_the_smallest_margin 70
           [("dcf"%string, Some 100); ("grahamNumber"%string, Some 80);
            ("grahamGrowth"%string, None)]).
  lra.
Defined.

Lemma validValuesOf_permutation valuations valuations' :
  Permutation valuations valuations' ->
  Permutation (validValuesOf valuations) (validValuesOf valuations').
Proof.
  induction 1 as [|[m [x|]] l l' _ IH|[m [x|]] [m' [y|]] l|l l' l'' _ IH1 _ IH2];
    simpl.
  - constructor.
  - destruct (JS.gt x 0); [now constructor | exact IH].
  - exact IH.
  - destruct (JS.gt x 0), (JS.gt y 0);
      try apply Permutation_refl; apply perm_swap.
  - apply Permutation_refl.
  - apply Permutation_refl.
  - apply Permutation_refl.
  - now apply Permutation_trans with (validValuesOf l').
Qed.

Lemma min_of_permutation v vs w ws :
  Permutation (v :: vs) (w :: ws) -> JS.min_of v vs = JS.min_of w ws.
Proof.
  intros H.
  assert (Hlow : forall a as' x, In x (a :: as') -> JS.min_of a as' <= x).
  { intros a as' x [<-|Hx];
      [apply JSFacts.min_of_le_start | now apply JSFacts.min_of_le_each]. }
  apply Rle_antisym.
  - apply Hlow, (Permutation_in _ (Permutation_sym H)), JSFacts.min_of_in.
  - apply Hlow, (Permutation_in _ H), JSFacts.min_of_in.
Qed.

(** The order in which the valuation methods are listed does not matter
    to the combined value, margin, status and recommendation. *)
Theorem combined_margin_ignores_the_order :
  forall (price : R) (valuations valuations' : list (string * option R)),
    Permutation valuations valuations' ->
    let r := calculateCombinedMarginOfSafety price valuations in
    let r' := calculateCombinedMarginOfSafety price valuations' in
    averageIntrinsicValue r = averageIntrinsicValue r' /\
    combinedMarginOfSafety r = combinedMarginOfSafety r' /\
    combinedStatus r = combinedStatus r' /\
    combinedRecommendation r = combinedRecommendation r'.
Proof.
  intros price valuations valuations' H r r'; subst r r'.
  apply validValuesOf_permutation in H.
  unfold calculateCombinedMarginOfSafety.
  destruct (validValuesOf valuations) as [|v vs];
    destruct (validValuesOf valuations') as [|w ws].
  - now repeat split.
  - apply Permutation_nil in H; discriminate.
  - apply Permutation_sym, Permutation_nil in H; discriminate.
  - cbn [averageIntrinsicValue combinedMarginOfSafety combinedStatus
         combinedRecommendation].
    rewrite !effective_value_is_minimum.
    rewrite (min_of_permutation v vs w ws H).
    now repeat split.
Qed.

Lemma combined_margin_ignores_the_order_witness :
  let r :=
    calculateCombinedMarginOfSafety 70
      [("dcf"%string, Some 100); ("grahamNumber"%string, Some 80)] in
  let r' :=
    calculateCombinedMarginOfSafety 70
      [("grahamNumber"%string, Some 80); ("dcf"%string, Some 100)] in
  averageIntrinsicValue r = averageIntrinsicValue r' /\
  combinedMarginOfSafety r = combinedMarginOfSafety r' /\
  combinedStatus r = combinedStatus r' /\
  combinedRecommendation r = combinedRecommendation r'.
Proof.
  apply (combined_margin_ignores_the_order 70
           [("dcf"%string, Some 100); ("grahamNumber"%string, Some 80)]
           [("grahamNumber"%string, Some 80); ("dcf"%string, Some 100)]).
  apply perm_swap.
Defined.

End CombinedMargin.

(** ** Discounted cash flow: what every result satisfies *)

Section DCFResults.
Import Types DCF.

Lemma nth_projectLoop g s (N n i y : nat) (fcf : R) :
  (i < n)%nat ->
  nth i (projectLoop g s N n y fcf) 0 =
  fcf * prodFrom (yearFactor g s N) (S i) y.
Proof.
  revert i y fcf; induction n as [|n IH]; intros i y fcf Hi; [lia|].
  rewrite projectLoop_step.
  destruct i as [|i]; cbn [nth].
  - cbn [prodFrom]; lra.
  - rewrite IH by lia.
    change (prodFrom (yearFactor g s N) (S (S i)) y)
      with (yearFactor g s N y * prodFrom (yearFactor g s N) (S i) (S y)).
    lra.
Qed.

Lemma prodFrom_pos (q : nat -> R) (m y : nat) :
  (forall k, (y <= k < y + m)%nat -> 0 < q k) -> 0 < prodFrom q m y.
Proof.
  revert y; induction m as [|m IH]; intros y H; cbn [prodFrom]; [lra|].
  apply Rmult_lt_0_compat; [apply H; lia|].
  apply IH; intros k Hk; apply H; lia.
Qed.

Lemma yearFactor_pos g s (n k : nat) :
  -1 < g -> -1 < s -> (1 <= k <= n)%nat -> 0 < yearFactor g s n k.
Proof.
  intros Hg Hs Hk; rewrite yearFactor_weighted.
  pose proof (year_fraction_bounds k n Hk) as Ht.
  assert (0 <= (1 + g) * (1 - INR k / INR n)) by (apply Rmult_le_pos; lra).
  assert (0 < (1 + s) * (INR k / INR n)) by (apply Rmult_lt_0_compat; lra).
  lra.
Qed.

Lemma safeTerminalGrowthOf_bounds params :
  safeTerminalGrowthOf params <= terminalGrowthRate params /\
  safeTerminalGrowthOf params <= discountRate params - 0.01.
Proof.
  unfold safeTerminalGrowthOf, JS.min; split; [apply Rmin_l | apply Rmin_r].
Qed.

(** Whatever the inputs, the intrinsic value is never negative, the growth
    rate of the assumptions lies in [-0.10, 0.25] and the enterprise value
    is the sum of the two present values; a result that is not the refusal
    holds [projectionYears] projected cash flows and a terminal growth
    rate at least one point below the discount rate. *)
Theorem dcf_result_invariants :
  forall (financials : Financials) (quote : StockQuote) (params : DCFParams),
    let r := calculateDCF financials quote params in
    0 <= intrinsicValue r /\
    -0.10 <= estimatedGrowthRate (assumptions r) <= 0.25 /\
    enterpriseValue r = pvOfFcf r + pvOfTerminal r /\
    a_discountRate (assumptions r) = discountRate params /\
    (if JS.le (currentFcfOf financials) 0
     then projectedFcf r = [] /\ startingFcf (assumptions r) = 0
     else
       List.length (projectedFcf r) = projectionYears params /\
       startingFcf (assumptions r) = currentFcfOf financials /\
       a_terminalGrowthRate (assumptions r) <= terminalGrowthRate params /\
       a_terminalGrowthRate (assumptions r) <= discountRate params - 0.01).
Proof.
  intros financials quote params r; subst r.
  unfold calculateDCF; fold (currentFcfOf financials).
  destruct (JS.le (currentFcfOf financials) 0).
  - simpl; repeat split; lra.
  - cbv zeta.
    cbn [intrinsicValue assumptions estimatedGrowthRate enterpriseValue
         pvOfFcf pvOfTerminal a_discountRate projectedFcf startingFcf
         a_terminalGrowthRate].
    fold (growthRateOf financials params) (safeTerminalGrowthOf params).
    pose proof (growthRateOf_bounds financials params).
    pose proof (safeTerminalGrowthOf_bounds params).
    rewrite projectLoop_length.
    repeat split; try lra.
    unfold JS.max; apply Rmax_l.
Qed.

Lemma sumFrom_pos (q : nat -> R) (m y : nat) (x : R) :
  (1 <= m)%nat -> (forall k, (y <= k < y + m)%nat -> 0 < q k) -> 0 < x ->
  0 < sumFrom q m y x.
Proof.
  revert y x; induction m as [|m IH]; intros y x Hm Hq Hx; [lia|].
  cbn [sumFrom].
  assert (0 < x * q y) by (apply Rmult_lt_0_compat; [lra | apply Hq; lia]).
  destruct m as [|m]; [simpl; lra|].
  assert (0 < sumFrom q (S m) (S y) (x * q y)).
  { apply IH; [lia | intros k Hk; apply Hq; lia | assumption]. }
  lra.
Qed.

(** The fields of a result that is not the refusal. *)
Lemma calculateDCF_fields financials quote params :
  0 < currentFcfOf financials ->
  let r := calculateDCF financials quote params in
  let projected :=
    projectLoop (growthRateOf financials params)
      (safeTerminalGrowthOf params) (projectionYears params)
      (projectionYears params) 1 (currentFcfOf financials) in
  projectedFcf r = projected /\
  pvOfFcf r = pvLoop (discountRate params) projected 1 0 /\
  terminalValue r =
    nth (projectionYears params - 1) projected 0 *
    (1 + safeTerminalGrowthOf params) /
    (discountRate params - safeTerminalGrowthOf params) /\
  pvOfTerminal r =
    terminalValue r / (1 + discountRate params) ^ projectionYears params /\
  enterpriseValue r = pvOfFcf r + pvOfTerminal r /\
  intrinsicValue r =
    Rmax 0 ((enterpriseValue r - netDebtOf financials) / sharesOf financials).
Proof.
  intros H; unfold calculateDCF; fold (currentFcfOf financials).
  replace (JS.le (currentFcfOf financials) 0) with false
    by (symmetry; apply JSFacts.le_false; lra).
  cbv zeta; repeat split; reflexivity.
Qed.

(** With valid parameters and a positive starting free cash flow every
    projected cash flow, both present values, the terminal value and the
    enterprise value are positive; with a share count that is not negative
    the intrinsic value is positive exactly when the enterprise value
    exceeds the net debt. *)
Theorem dcf_estimate_is_positive :
  forall (financials : Financials) (quote : StockQuote) (params : DCFParams),
    0 < currentFcfOf financials ->
    0.01 <= discountRate params <= 0.30 ->
    0 <= terminalGrowthRate params <= 0.10 ->
    (1 <= projectionYears params)%nat ->
    let r := calculateDCF financials quote params in
    Forall (fun fcf => 0 < fcf) (projectedFcf r) /\
    0 < pvOfFcf r /\ 0 < terminalValue r /\ 0 < pvOfTerminal r /\
    0 < enterpriseValue r /\
    (shareCountNotNegative financials ->
     (0 < intrinsicValue r <-> netDebtOf financials < enterpriseValue r)).
Proof.
  intros financials quote params Hf Hr Htg Hn r.
  destruct (calculateDCF_fields financials quote params Hf)
    as (Ep & Epv & Etv & Ept & Eev & Eiv).
  fold r in Ep, Epv, Etv, Ept, Eev, Eiv.
  set (F := currentFcfOf financials) in *.
  set (g := growthRateOf financials params) in *.
  set (s := safeTerminalGrowthOf params) in *.
  set (rate := discountRate params) in *.
  set (N := projectionYears params) in *.
  assert (Hg : -0.10 <= g <= 0.25) by apply growthRateOf_bounds.
  assert (Hs : 0 <= s <= rate - 0.01).
  { unfold s, safeTerminalGrowthOf, JS.min; fold rate; split.
    - apply Rmin_glb; lra.
    - apply Rmin_r. }
  assert (Hq : forall k, (1 <= k < 1 + N)%nat -> 0 < yearFactor g s N k).
  { intros k Hk; apply yearFactor_pos; try lra; lia. }
  assert (Hprod : forall i, (i < N)%nat ->
                    0 < prodFrom (yearFactor g s N) (S i) 1).
  { intros i Hi; apply prodFrom_pos; intros k Hk; apply Hq; lia. }
  assert (Hproj : Forall (fun fcf => 0 < fcf) (projectedFcf r)).
  { rewrite Ep; apply Forall_forall; intros x Hx.
    apply (In_nth _ _ 0) in Hx; destruct Hx as (i & Hi & <-).
    rewrite projectLoop_length in Hi.
    rewrite nth_projectLoop by exact Hi.
    apply Rmult_lt_0_compat; [lra | now apply Hprod]. }
  assert (Hpv : 0 < pvOfFcf r).
  { rewrite Epv, pvLoop_projectLoop, Rplus_0_l by lra.
    apply sumFrom_pos; [exact Hn | | simpl; lra].
    intros k Hk; unfold discounted.
    apply Rmult_lt_0_compat; [apply Hq; lia | apply Rinv_0_lt_compat; lra]. }
  assert (Htv : 0 < terminalValue r).
  { rewrite Etv, nth_projectLoop by lia.
    apply Rmult_lt_0_compat; [|apply Rinv_0_lt_compat; lra].
    apply Rmult_lt_0_compat; [|lra].
    apply Rmult_lt_0_compat; [lra | apply Hprod; lia]. }
  assert (Hpt : 0 < pvOfTerminal r).
  { rewrite Ept; apply Rmult_lt_0_compat; [exact Htv|].
    apply Rinv_0_lt_compat, pow_lt; lra. }
  repeat split; try assumption; try lra.
  - intros Hpos.
    pose proof (sharesOf_positive financials H) as Hsh.
    rewrite Eiv in Hpos.
    destruct (Rle_dec (enterpriseValue r) (netDebtOf financials))
      as [Hle|]; [|lra].
    exfalso.
    rewrite Rmax_left in Hpos; [lra|].
    apply Rmult_le_reg_r with (r := sharesOf financials); [exact Hsh|].
    unfold Rdiv; rewrite Rmult_assoc, Rinv_l by lra; lra.
  - intros Hgt.
    pose proof (sharesOf_positive financials H) as Hsh.
    rewrite Eiv.
    eapply Rlt_le_trans; [|apply Rmax_r].
    apply Rmult_lt_0_compat; [lra | apply Rinv_0_lt_compat; lra].
Qed.

End DCFResults.

Section DCFCaps.
Import Types DCF.

Lemma dcf_estimate_is_positive_witness :
  let r :=
    calculateDCF Samples.twoCandidates Samples.quote (Samples.params None) in
  Forall (fun fcf => 0 < fcf) (projectedFcf r) /\
  0 < pvOfFcf r /\ 0 < terminalValue r /\ 0 < pvOfTerminal r /\
  0 < enterpriseValue r /\
  (shareCountNotNegative Samples.twoCandidates ->
   (0 < intrinsicValue r <->
    netDebtOf Samples.twoCandidates < enterpriseValue r)).
Proof.
  apply (dcf_estimate_is_positive
           Samples.twoCandidates Samples.quote (Samples.params None)).
  - rewrite (currentFcfOf_present _ (Samples.cashFlow 35)) by reflexivity.
    simpl; lra.
  - simpl; lra.
  - simpl; lra.
  - simpl; lia.
Defined.

Lemma cap_is_idempotent (g : R) :
  JS.max (-0.10) (JS.min (JS.max (-0.10) (JS.min g 0.25)) 0.25) =
  JS.max (-0.10) (JS.min g 0.25).
Proof.
  unfold JS.max, JS.min.
  rewrite (Rmin_left (Rmax (-0.10) (Rmin g 0.25)) 0.25).
  - apply Rmax_right, Rmax_l.
  - apply Rmax_lub; [lra | apply Rmin_r].
Qed.

(** A supplied growth rate counts only through its cap: the result for a
    growth rate is the result for that rate clamped to [-0.10, 0.25], so
    that every rate of 0.25 or more gives the result of 0.25. *)
Theorem dcf_growth_rate_counts_capped :
  forall (financials : Financials) (quote : StockQuote)
         (r tg : R) (n : nat) (g : R),
    let result g :=
      calculateDCF financials quote
        {| discountRate := r; terminalGrowthRate := tg;
           projectionYears := n; customGrowthRate := Some g |} in
    result g = result (Rmax (-0.10) (Rmin g 0.25)) /\
    (0.25 <= g -> result g = result 0.25) /\
    (g <= -0.10 -> result g = result (-0.10)).
Proof.
  intros financials quote r tg n g result.
  assert (H : forall a b,
             JS.max (-0.10) (JS.min a 0.25) = JS.max (-0.10) (JS.min b 0.25) ->
             result a = result b).
  { intros a b E; subst result; unfold calculateDCF.
    cbn [customGrowthRate discountRate terminalGrowthRate projectionYears].
    destruct (JS.le _ 0); [reflexivity|].
    cbv zeta; rewrite E; reflexivity. }
  split; [|split].
  - apply H; symmetry; apply cap_is_idempotent.
  - intros Hg; apply H; unfold JS.max, JS.min.
    rewrite (Rmin_right g 0.25), (Rmin_left 0.25 0.25) by lra; reflexivity.
  - intros Hg; apply H; unfold JS.max, JS.min.
    rewrite (Rmin_left g 0.25), (Rmin_left (-0.10) 0.25) by lra.
    rewrite (Rmax_left (-0.10) g), (Rmax_left (-0.10) (-0.10)) by lra.
    reflexivity.
Qed.

(** A terminal growth rate counts only through its cap
    [discountRate - 0.01]: the values of the result for a terminal growth
    rate are those for [min(terminalGrowthRate, discountRate - 0.01)]. *)
Theorem dcf_terminal_growth_counts_capped :
  forall (financials : Financials) (quote : StockQuote)
         (r tg : R) (n : nat) (custom : option R),
    let result tg :=
      calculateDCF financials quote
        {| discountRate := r; terminalGrowthRate := tg;
           projectionYears := n; customGrowthRate := custom |} in
    let capped := Rmin tg (r - 0.01) in
    intrinsicValue (result tg) = intrinsicValue (result capped) /\
    projectedFcf (result tg) = projectedFcf (result capped) /\
    terminalValue (result tg) = terminalValue (result capped) /\
    pvOfFcf (result tg) = pvOfFcf (result capped) /\
    pvOfTerminal (result tg) = pvOfTerminal (result capped) /\
    enterpriseValue (result tg) = enterpriseValue (result capped).
Proof.
  intros financials quote r tg n custom result capped.
  subst result; unfold calculateDCF.
  cbn [customGrowthRate discountRate terminalGrowthRate projectionYears].
  destruct (JS.le _ 0); [now repeat split|].
  cbv zeta.
  replace (JS.min capped (r - 0.01)) with (JS.min tg (r - 0.01)).
  - now repeat split.
  - subst capped; unfold JS.min.
    symmetry; apply Rmin_left, Rmin_r.
Qed.

(** The projection interpolates the growth rate year by year: each
    projected cash flow is the one before (the starting cash flow for the
    first year) grown by [g - (g - s) * year / projectionYears], which in
    the last year is exactly the safe terminal growth [s]. *)
Theorem projection_follows_the_interpolated_rates :
  forall (financials : Financials) (quote : StockQuote) (params : DCFParams),
    0 < currentFcfOf financials ->
    let r := calculateDCF financials quote params in
    let g := estimatedGrowthRate (assumptions r) in
    let s := a_terminalGrowthRate (assumptions r) in
    let n := projectionYears params in
    forall i : nat,
      (i < n)%nat ->
      nth i (projectedFcf r) 0 =
        (match i with
         | O => currentFcfOf financials
         | S j => nth j (projectedFcf r) 0
         end) * (1 + (g - (g - s) * (INR (S i) / INR n))) /\
      (S i = n -> 1 + (g - (g - s) * (INR (S i) / INR n)) = 1 + s).
Proof.
  intros financials quote params Hf r g s n i Hi.
  destruct (calculateDCF_fields financials quote params Hf) as (Ep & _).
  fold r in Ep.
  assert (Eg : g = growthRateOf financials params).
  { subst g r; unfold calculateDCF; fold (currentFcfOf financials).
    replace (JS.le (currentFcfOf financials) 0) with false
      by (symmetry; apply JSFacts.le_false; lra).
    reflexivity. }
  assert (Es : s = safeTerminalGrowthOf params).
  { subst s r; unfold calculateDCF; fold (currentFcfOf financials).
    replace (JS.le (currentFcfOf financials) 0) with false
      by (symmetry; apply JSFacts.le_false; lra).
    reflexivity. }
  rewrite Ep, Eg, Es; fold n.
  split.
  - rewrite nth_projectLoop by exact Hi.
    rewrite prodFrom_snoc.
    replace (1 + i)%nat with (S i) by lia.
    unfold yearFactor at 2.
    destruct i as [|j].
    + simpl; lra.
    + rewrite nth_projectLoop by lia; lra.
  - intros E; rewrite E.
    assert (0 < INR n) by (apply lt_0_INR; lia).
    replace (INR n / INR n) with 1 by (field; lra).
    lra.
Qed.

Lemma projection_follows_the_interpolated_rates_witness :
  let r :=
    calculateDCF Samples.twoCandidates Samples.quote (Samples.params None) in
  let g := estimatedGrowthRate (assumptions r) in
  let s := a_terminalGrowthRate (assumptions r) in
  nth 9 (projectedFcf r) 0 =
    nth 8 (projectedFcf r) 0 * (1 + (g - (g - s) * (INR 10 / INR 10))) /\
  (10%nat = 10%nat -> 1 + (g - (g - s) * (INR 10 / INR 10)) = 1 + s).
Proof.
  apply (projection_follows_the_interpolated_rates
           Samples.twoCandidates Samples.quote (Samples.params None)).
  - rewrite (currentFcfOf_present _ (Samples.cashFlow 35)) by reflexivity.
    simpl; lra.
  - simpl; lia.
Defined.

(** With fewer than three cash-flow statements and fewer than three income
    statements there is no growth candidate: the estimate is the default
    5%.  When no growth rate is supplied, that is the rate [calculateDCF]
    projects with and reports if the starting free cash flow is positive;
    if it is not, the refusal reports a growth rate of 0. *)
Theorem short_history_uses_the_default_growth :
  forall (financials : Financials) (quote : StockQuote)
         (r tg : R) (n : nat),
    (List.length (cashFlowStatements financials) < 3)%nat ->
    (List.length (incomeStatements financials) < 3)%nat ->
    let reported :=
      estimatedGrowthRate
        (assumptions
           (calculateDCF financials quote
              {| discountRate := r; terminalGrowthRate := tg;
                 projectionYears := n; customGrowthRate := None |})) in
    estimateGrowthRate financials = 0.05 /\
    (0 < currentFcfOf financials -> reported = 0.05) /\
    (currentFcfOf financials <= 0 -> reported = 0).
Proof.
  intros financials quote r tg n Hc Hi reported; subst reported.
  assert (He : estimateGrowthRate financials = 0.05).
  { unfold estimateGrowthRate.
    rewrite !growthCandidate_short by assumption.
    reflexivity. }
  split; [exact He|]; split.
  - intros Hf; unfold calculateDCF; fold (currentFcfOf financials).
    replace (JS.le (currentFcfOf financials) 0) with false
      by (symmetry; apply JSFacts.le_false; lra).
    cbn [customGrowthRate assumptions estimatedGrowthRate].
    rewrite He; unfold JS.max, JS.min.
    rewrite Rmin_left, Rmax_right by lra; reflexivity.
  - intros Hf; rewrite calculateDCF_refuses by exact Hf; reflexivity.
Qed.

Lemma short_history_uses_the_default_growth_witness :
  let reported :=
    estimatedGrowthRate
      (assumptions
         (calculateDCF Samples.noShareCount Samples.quote
            {| discountRate := 0.10; terminalGrowthRate := 0.03;
               projectionYears := 10; customGrowthRate := None |})) in
  estimateGrowthRate Samples.noShareCount = 0.05 /\
  (0 < currentFcfOf Samples.noShareCount -> reported = 0.05) /\
  (currentFcfOf Samples.noShareCount <= 0 -> reported = 0).
Proof.
  apply (short_history_uses_the_default_growth
           Samples.noShareCount Samples.quote 0.10 0.03 10);
    simpl; lia.
Defined.

End DCFCaps.

(** ** Discounted cash flow: the sensitivity sweep *)

Section SensitivitySweep.
Import Types DCF Sensitivity.

Lemma intrinsicValue_falls_with_discountRate
  financials quote (tg : R) (n : nat) (r r' : R) (custom : option R) :
  0 <= tg <= 0.10 -> (5 <= n <= 20)%nat ->
  shareCountNotNegative financials ->
  0.01 <= r -> r <= r' -> r' <= 0.30 ->
  intrinsicValue
    (calculateDCF financials quote
       {| discountRate := r'; terminalGrowthRate := tg;
          projectionYears := n; customGrowthRate := custom |}) <=
  intrinsicValue
    (calculateDCF financials quote
       {| discountRate := r; terminalGrowthRate := tg;
          projectionYears := n; customGrowthRate := custom |}).
Proof.
  intros Htg Hn Hshares Hr Hrr Hr'.
  destruct (Rle_dec (currentFcfOf financials) 0) as [Hno|Hyes].
  - rewrite !calculateDCF_refuses by exact Hno; simpl; lra.
  - apply Rnot_le_lt in Hyes.
    pose proof (sharesOf_positive financials Hshares) as Hs.
    rewrite !intrinsicValue_of_enterpriseValue by exact Hyes.
    apply per_share_value_le; [exact Hs|].
    unfold safeTerminalGrowthOf, JS.min.
    cbn [discountRate terminalGrowthRate projectionYears].
    set (p := {| discountRate := r |}).
    set (p' := {| discountRate := r' |}).
    replace (growthRateOf financials p') with (growthRateOf financials p)
      by reflexivity.
    apply enterpriseValueOf_falls_with_discountRate; try lra; try exact Hn.
    apply growthRateOf_bounds.
Qed.

Lemma intrinsicValue_rises_with_growthRate
  financials quote (tg : R) (n : nat) (r g g' : R) :
  0 <= tg <= 0.10 -> (1 <= n)%nat ->
  shareCountNotNegative financials ->
  0.01 <= r -> g <= g' ->
  intrinsicValue
    (calculateDCF financials quote
       {| discountRate := r; terminalGrowthRate := tg;
          projectionYears := n; customGrowthRate := Some g |}) <=
  intrinsicValue
    (calculateDCF financials quote
       {| discountRate := r; terminalGrowthRate := tg;
          projectionYears := n; customGrowthRate := Some g' |}).
Proof.
  intros Htg Hn Hshares Hr Hg.
  destruct (Rle_dec (currentFcfOf financials) 0) as [Hno|Hyes].
  - rewrite !calculateDCF_refuses by exact Hno; simpl; lra.
  - apply Rnot_le_lt in Hyes.
    pose proof (sharesOf_positive financials Hshares) as Hs.
    rewrite !intrinsicValue_of_enterpriseValue by exact Hyes.
    apply per_share_value_le; [exact Hs|].
    unfold safeTerminalGrowthOf, growthRateOf.
    cbn [discountRate terminalGrowthRate projectionYears customGrowthRate].
    apply enterpriseValueOf_growth_le; try lra; try lia.
    + pose proof (Rmax_l (-0.10) (JS.min g 0.25)); unfold JS.max; lra.
    + now apply capped_growth_le.
    + unfold JS.min; pose proof (Rmin_glb tg (r - 0.01) 0); lra.
    + unfold JS.min; pose proof (Rmin_r tg (r - 0.01)); lra.
Qed.

(** The sweep is a grid of five discount rates by five growth rates; with
    the base discount rate in [0.03, 0.28] (so that every swept rate is a
    valid one) the values do not rise down a column, where the discount
    rate rises, and do not fall along a row, where the growth rate
    rises. *)
Theorem sensitivity_grid_is_sorted :
  forall (financials : Financials) (quote : StockQuote) (base : DCFParams),
    0.03 <= discountRate base <= 0.28 ->
    0 <= terminalGrowthRate base <= 0.10 ->
    (5 <= projectionYears base <= 20)%nat ->
    shareCountNotNegative financials ->
    let sweep := dcfSensitivity financials quote base in
    List.length (values sweep) = 5%nat /\
    Forall (fun row => List.length row = 5%nat) (values sweep) /\
    forall i j : nat,
      (i < 5)%nat -> (j < 5)%nat ->
      ((i < 4)%nat -> cell sweep (S i) j <= cell sweep i j) /\
      ((j < 4)%nat -> cell sweep i j <= cell sweep i (S j)).
Proof.
  intros financials quote base Hr Htg Hn Hshares sweep.
  split; [reflexivity|].
  split; [subst sweep; unfold dcfSensitivity; cbn [values map];
          repeat constructor|].
  intros i j Hi Hj.
  subst sweep; unfold dcfSensitivity, cell; cbn [values].
  set (g := JS.or_default (customGrowthRate base) 0.05).
  destruct i as [|[|[|[|[|i]]]]]; try lia;
    destruct j as [|[|[|[|[|j]]]]]; try lia;
    cbn [map nth];
    (split;
     [intros H; try lia; apply intrinsicValue_falls_with_discountRate
     |intros H; try lia; apply intrinsicValue_rises_with_growthRate];
     try assumption; try lra; try lia).
Qed.

Lemma sensitivity_grid_is_sorted_witness :
  let sweep :=
    dcfSensitivity Samples.twoCandidates Samples.quote (Samples.params None) in
  List.length (values sweep) = 5%nat /\
  Forall (fun row => List.length row = 5%nat) (values sweep) /\
  forall i j : nat,
    (i < 5)%nat -> (j < 5)%nat ->
    ((i < 4)%nat -> cell sweep (S i) j <= cell sweep i j) /\
    ((j < 4)%nat -> cell sweep i j <= cell sweep i (S j)).
Proof.
  apply (sensitivity_grid_is_sorted
           Samples.twoCandidates Samples.quote (Samples.params None)).
  - simpl; lra.
  - simpl; lra.
  - simpl; lia.
  - unfold shareCountNotNegative; simpl; lra.
Defined.

(** The centre of the sweep is the valuation at the base discount rate and
    the supplied growth rate; when no growth rate is supplied, or the
    supplied one is 0, the sweep is centred on a growth rate of 5%, not on
    the rate estimated from the history. *)
Theorem sensitivity_centre :
  forall (financials : Financials) (quote : StockQuote) (base : DCFParams),
    let sweep := dcfSensitivity financials quote base in
    nth 2 (discountRates sweep) 0 = discountRate base /\
    (forall g, customGrowthRate base = Some g -> g <> 0 ->
       nth 2 (growthRates sweep) 0 = g /\
       cell sweep 2 2 =
         intrinsicValue (calculateDCF financials quote base)) /\
    (customGrowthRate base = None \/ customGrowthRate base = Some 0 ->
       nth 2 (growthRates sweep) 0 = 0.05 /\
       cell sweep 2 2 =
         intrinsicValue
           (calculateDCF financials quote
              {| discountRate := discountRate base;
                 terminalGrowthRate := terminalGrowthRate base;
                 projectionYears := projectionYears base;
                 customGrowthRate := Some 0.05 |})).
Proof.
  intros financials quote base sweep.
  subst sweep; unfold dcfSensitivity, cell;
    cbn [values discountRates growthRates map nth].
  split; [reflexivity|].
  split.
  - intros g Hg Hnz; rewrite Hg.
    rewrite JSFacts.or_default_nonzero by exact Hnz.
    split; [reflexivity|].
    destruct base as [r tg n custom]; simpl in Hg; subst custom.
    reflexivity.
  - intros [H|H]; rewrite H.
    + now split.
    + rewrite JSFacts.or_default_zero; now split.
Qed.

End SensitivitySweep.

(** ** Ratio calculator: growth rates, ratios and quality scores *)

Section RatioFacts.
Import Types Ratios RatioScores.

Lemma pow_below_one (x : R) (n : nat) :
  0 < x < 1 -> (1 <= n)%nat -> x ^ n < 1.
Proof.
  intros Hx Hn; induction n as [|n IH]; [lia|].
  destruct n as [|n]; [simpl; lra|].
  assert (x ^ S n < 1) by (apply IH; lia).
  assert (0 < x ^ S n) by (apply pow_lt; lra).
  change (x ^ S (S n)) with (x * x ^ S n); nra.
Qed.

(** A growth rate that [calculateCAGR] returns compounds the start value
    to the end value over the years; it is above -100%, and it is not
    negative exactly when the end value is at least the start value.  The
    result is null exactly when a value is not positive or there are no
    years. *)
Theorem cagr_compounds_back :
  forall (startValue endValue : R) (years : nat),
    (calculateCAGR startValue endValue (INR years) = None <->
     startValue <= 0 \/ endValue <= 0 \/ years = 0%nat) /\
    (forall g, calculateCAGR startValue endValue (INR years) = Some g ->
       startValue * (1 + g) ^ years = endValue /\
       -1 < g /\
       (0 <= g <-> startValue <= endValue)).
Proof.
  intros s e n; rewrite calculateCAGR_cases; split.
  - transitivity (JS.le s 0 || JS.le e 0 || (n =? 0)%nat = true).
    + destruct (JS.le s 0 || JS.le e 0 || (n =? 0)%nat);
        split; intros H; try reflexivity; discriminate.
    + rewrite !orb_true_iff, !JSFacts.le_true, Nat.eqb_eq; tauto.
  - intros g.
    destruct (JS.le s 0) eqn:Es; [discriminate|].
    destruct (JS.le e 0) eqn:Ee; [discriminate|].
    destruct (n =? 0)%nat eqn:En; [discriminate|].
    apply JSFacts.le_false in Es; apply JSFacts.le_false in Ee.
    apply Nat.eqb_neq in En.
    cbn [orb]; intros E; inversion E as [Eg]; clear E.
    unfold Spec.cagr.
    set (x := Rpower (e / s) (1 / INR n)).
    assert (Hq : 0 < e / s) by (apply Rdiv_lt_0_compat; lra).
    assert (Hn : 0 < INR n) by (apply lt_0_INR; lia).
    assert (Hx : 0 < x) by (unfold x, Rpower; apply exp_pos).
    assert (Hpow : x ^ n = e / s).
    { rewrite <- Rpower_pow by exact Hx.
      unfold x; rewrite Rpower_mult.
      replace (1 / INR n * INR n) with 1 by (field; lra).
      now apply Rpower_1. }
    replace (1 + (x - 1)) with x by lra.
    split; [rewrite Hpow; field; lra|].
    split; [lra|].
    split; intros H.
    + assert (1 <= x ^ n) by (apply pow_R1_Rle; lra).
      rewrite Hpow in *.
      apply Rmult_le_compat_r with (r := s) in H0; [|lra].
      unfold Rdiv in H0; rewrite Rmult_assoc, Rinv_l in H0; lra.
    + destruct (Rle_dec 1 x) as [|Hlt]; [lra|].
      exfalso.
      assert (x ^ n < 1) by (apply pow_below_one; [lra | lia]).
      rewrite Hpow in *.
      apply Rmult_lt_compat_r with (r := s) in H0; [|lra].
      unfold Rdiv in H0; rewrite Rmult_assoc, Rinv_l in H0; lra.
Qed.

(** Without a quote every market-based ratio is null, whatever the
    statements hold. *)
Theorem ratios_without_a_quote :
  forall financials : Financials,
    let r := calculateFinancialRatios financials None in
    pe r = None /\ pb r = None /\ ps r = None /\ peg r = None /\
    evToEbitda r = None /\ priceToFcf r = None /\ fcfYield r = None.
Proof.
  intros financials r; subst r; unfold calculateFinancialRatios.
  destruct (nth_error (incomeStatements financials) 0);
    [|now repeat split].
  destruct (nth_error (balanceSheets financials) 0); [|now repeat split].
  destruct (nth_error (cashFlowStatements financials) 0);
    now repeat split.
Qed.

(** The tax rate the calculator estimates is clamped to [0, 0.5]: return
    on invested capital is null exactly when the invested capital is not
    positive, and for an operating income that is not negative it lies
    between half the operating income and all of it, over the invested
    capital.  The quick ratio never exceeds the current ratio when the
    inventory is not negative. *)
Theorem roic_and_quick_ratio_bounds :
  forall (financials : Financials) (quote : option StockQuote)
         (income : IncomeStatement) (balance : BalanceSheet)
         (cashFlow : CashFlowStatement),
    nth_error (incomeStatements financials) 0 = Some income ->
    nth_error (balanceSheets financials) 0 = Some balance ->
    nth_error (cashFlowStatements financials) 0 = Some cashFlow ->
    let r := calculateFinancialRatios financials quote in
    let capital := totalEquity balance + totalDebt balance - cash balance in
    (roic r = None <-> capital <= 0) /\
    (0 < capital -> 0 <= operatingIncome income ->
     exists x, roic r = Some x /\
               0.5 * operatingIncome income / capital <= x
               <= operatingIncome income / capital) /\
    (match inventory balance with Some i => 0 <= i | None => True end ->
     quickRatio r <= currentRatio r).
Proof.
  intros financials quote income balance cashFlow Hi Hb Hc r capital.
  subst r; unfold calculateFinancialRatios.
  rewrite Hi, Hb, Hc; cbv zeta.
  cbn [roic quickRatio currentRatio].
  fold capital.
  set (tax := if JS.gt (netIncome income) 0 && JS.gt (operatingIncome income) 0
              then 1 - netIncome income / operatingIncome income else 0.25).
  set (kept := 1 - JS.max 0 (JS.min tax 0.5)).
  assert (Hk : 0.5 <= kept <= 1).
  { unfold kept, JS.max, JS.min.
    pose proof (Rmax_l 0 (Rmin tax 0.5)).
    pose proof (Rmax_lub 0 (Rmin tax 0.5) 0.5).
    pose proof (Rmin_r tax 0.5); lra. }
  split; [|split].
  - destruct (JS.gt capital 0) eqn:E.
    + apply JSFacts.gt_true in E; split; [discriminate | lra].
    + apply JSFacts.gt_false in E; split; auto.
  - intros Hcap Hop.
    replace (JS.gt capital 0) with true
      by (symmetry; apply JSFacts.gt_true; lra).
    eexists; split; [reflexivity|].
    assert (0 < / capital) by (apply Rinv_0_lt_compat; lra).
    assert (0 <= operatingIncome income * / capital)
      by (apply Rmult_le_pos; lra).
    unfold Rdiv; split.
    + replace (0.5 * operatingIncome income * / capital)
        with (operatingIncome income * / capital * 0.5) by lra.
      replace (operatingIncome income * kept * / capital)
        with (operatingIncome income * / capital * kept) by lra.
      apply Rmult_le_compat_l; lra.
    + replace (operatingIncome income * kept * / capital)
        with (operatingIncome income * / capital * kept) by lra.
      rewrite <- (Rmult_1_r (operatingIncome income * / capital)) at 2.
      apply Rmult_le_compat_l; lra.
  - intros Hinv.
    destruct (JS.gt (currentLiabilities balance) 0) eqn:E; [|lra].
    apply JSFacts.gt_true in E.
    assert (0 <= JS.or_default (inventory balance) 0).
    { destruct (inventory balance) as [i|]; simpl; [|lra].
      destruct (JS.truthy i); lra. }
    apply Rmult_le_compat_r; [apply Rlt_le, Rinv_0_lt_compat; lra | lra].
Qed.

Lemma roic_and_quick_ratio_bounds_witness :
  let r := calculateFinancialRatios Samples.noShareCount None in
  let capital :=
    totalEquity Samples.balance + totalDebt Samples.balance
    - cash Samples.balance in
  (roic r = None <-> capital <= 0) /\
  (0 < capital -> 0 <= operatingIncome (Samples.income 100 3.5 0) ->
   exists x, roic r = Some x /\
             0.5 * operatingIncome (Samples.income 100 3.5 0) / capital <= x
             <= operatingIncome (Samples.income 100 3.5 0) / capital) /\
  (match inventory Samples.balance with Some i => 0 <= i | None => True end ->
   quickRatio r <= currentRatio r).
Proof.
  apply (roic_and_quick_ratio_bounds Samples.noShareCount None
           (Samples.income 100 3.5 0) Samples.balance (Samples.cashFlow 35));
    reflexivity.
Defined.

End RatioFacts.

Section QualityScores.
Import Types Ratios RatioScores.

(** Decides the comparisons in the hypothesis [H], innermost first. *)
Ltac undecided a :=
  lazymatch a with
  | context [Rge_dec _ _] => fail
  | context [Rlt_dec _ _] => fail
  | context [Rgt_dec _ _] => fail
  | _ => idtac
  end.

Ltac decide_in H :=
  unfold JS.ge, JS.lt, JS.gt in H;
  repeat (match type of H with
          | context [Rge_dec ?a ?b] => undecided a; destruct (Rge_dec a b)
          | context [Rlt_dec ?a ?b] => undecided a; destruct (Rlt_dec a b)
          | context [Rgt_dec ?a ?b] => undecided a; destruct (Rgt_dec a b)
          end; cbv beta iota zeta in H).

Ltac close_case :=
  repeat split; intros;
  first [reflexivity | lra | discriminate | (exfalso; lra) | lia].

(** The profitability score lies between -2 and 6, with one detail line
    per ratio assessed (three, and a fourth when ROIC is known); it is
    rated excellent exactly from 4 up and weak exactly below 0, and no
    company with a return on equity under 10% is rated excellent. *)
Theorem profitability_score_range :
  forall ratios : FinancialRatios,
    let e := evaluateProfitability ratios in
    -2 <= score e <= 6 /\
    List.length (details e) =
      match roic ratios with Some _ => 4%nat | None => 3%nat end /\
    (assessment e =
       "Excellent profitability - strong competitive advantage"%string
     <-> 4 <= score e) /\
    (assessment e = "Good profitability"%string <-> 2 <= score e < 4) /\
    (assessment e = "Average profitability"%string <-> 0 <= score e < 2) /\
    (assessment e =
       "Weak profitability - no clear competitive advantage"%string
     <-> score e < 0) /\
    (4 <= score e -> roe ratios >= 0.10).
Proof.
  intros ratios e.
  assert (H : e = evaluateProfitability ratios) by reflexivity.
  clearbody e; unfold evaluateProfitability in H.
  destruct (roic ratios) as [x|];
    decide_in H;
    subst e; cbn [score assessment details Moat.push List.length app];
    close_case.
Qed.

(** The safety score lies between -7 and 6, with two to four detail
    lines; it is rated excellent exactly from 4 up and concerning exactly
    below 0, and no company with a current ratio under 1 or a debt to
    equity of 2 or more is rated excellent. *)
Theorem safety_score_range :
  forall ratios : FinancialRatios,
    let e := evaluateSafety ratios in
    -7 <= score e <= 6 /\
    (2 <= List.length (details e) <= 4)%nat /\
    (assessment e =
       "Excellent financial safety - fortress balance sheet"%string
     <-> 4 <= score e) /\
    (assessment e = "Good financial safety"%string <-> 2 <= score e < 4) /\
    (assessment e = "Adequate financial safety"%string
     <-> 0 <= score e < 2) /\
    (assessment e = "Concerning financial safety - high risk"%string
     <-> score e < 0) /\
    (4 <= score e -> currentRatio ratios >= 1.0 /\ debtToEquity ratios < 2.0).
Proof.
  intros ratios e.
  assert (H : e = evaluateSafety ratios) by reflexivity.
  clearbody e; unfold evaluateSafety in H.
  destruct (interestCoverage ratios) as [x|];
    decide_in H;
    subst e; cbn [score assessment details Moat.push List.length app];
    close_case.
Qed.

(** When the most recent income, balance-sheet or cash-flow record is
    missing, the ratios are the defaults, and the scores built on them
    read: weak profitability (score -2) but adequate financial safety
    (score 1), the absent debt counting as low debt. *)
Theorem missing_statements_score_as_safe :
  forall (financials : Financials) (quote : option StockQuote),
    nth_error (incomeStatements financials) 0 = None \/
    nth_error (balanceSheets financials) 0 = None \/
    nth_error (cashFlowStatements financials) 0 = None ->
    let ratios := calculateFinancialRatios financials quote in
    ratios = getDefaultRatios /\
    score (evaluateProfitability ratios) = -2 /\
    assessment (evaluateProfitability ratios) =
      "Weak profitability - no clear competitive advantage"%string /\
    score (evaluateSafety ratios) = 1 /\
    assessment (evaluateSafety ratios) = "Adequate financial safety"%string.
Proof.
  intros financials quote H ratios.
  assert (E : ratios = getDefaultRatios).
  { subst ratios; unfold calculateFinancialRatios.
    destruct (nth_error (incomeStatements financials) 0); [|reflexivity].
    destruct (nth_error (balanceSheets financials) 0); [|reflexivity].
    destruct (nth_error (cashFlowStatements financials) 0); [|reflexivity].
    destruct H as [H|[H|H]]; discriminate. }
  rewrite E; split; [reflexivity|].
  pose (p := evaluateProfitability getDefaultRatios).
  pose (q := evaluateSafety getDefaultRatios).
  assert (Hp : p = evaluateProfitability getDefaultRatios) by reflexivity.
  assert (Hq : q = evaluateSafety getDefaultRatios) by reflexivity.
  fold p q; clearbody p q.
  unfold evaluateProfitability, getDefaultRatios in Hp.
  unfold evaluateSafety, getDefaultRatios in Hq.
  cbn [roe grossMargin operatingMargin roic currentRatio debtToEquity
       interestCoverage debtToAssets] in Hp, Hq.
  decide_in Hp; try (exfalso; lra);
  decide_in Hq; try (exfalso; lra);
  subst p q; cbn [score assessment]; close_case.
Qed.

Lemma missing_statements_score_as_safe_witness :
  let ratios :=
    calculateFinancialRatios
      {| incomeStatements := []; balanceSheets := [];
         cashFlowStatements := [] |} None in
  ratios = getDefaultRatios /\
  score (evaluateProfitability ratios) = -2 /\
  assessment (evaluateProfitability ratios) =
    "Weak profitability - no clear competitive advantage"%string /\
  score (evaluateSafety ratios) = 1 /\
  assessment (evaluateSafety ratios) = "Adequate financial safety"%string.
Proof.
  apply (missing_statements_score_as_safe
           {| incomeStatements := []; balanceSheets := [];
              cashFlowStatements := [] |} None).
  left; reflexivity.
Defined.

End QualityScores.

(** ** Moat scorer: stability, score ranges, durability *)

Section StabilityProperties.
Import Moat.

Lemma spec_variance_nonneg xs : 0 <= Spec.variance xs.
Proof.
  unfold Spec.variance.
  assert (H : 0 <= fold_right
                     (fun x acc => (x - Spec.mean xs) * (x - Spec.mean xs) + acc)
                     0 xs).
  { generalize (Spec.mean xs); intros m.
    induction xs as [|x xs IH]; simpl; [lra|].
    pose proof (Rle_0_sqr (x - m)) as Hs; unfold Rsqr in Hs; lra. }
  destruct xs as [|x xs].
  - simpl; unfold Rdiv; rewrite Rinv_0; lra.
  - apply Rmult_le_pos; [exact H|].
    apply Rlt_le, Rinv_0_lt_compat, lt_0_INR; simpl; lia.
Qed.

Lemma sum_of_scaled k xs :
  fold_right Rplus 0 (map (Rmult k) xs) = k * fold_right Rplus 0 xs.
Proof. induction xs as [|x xs IH]; simpl; [lra | rewrite IH; lra]. Qed.

Lemma mean_of_scaled k xs : Spec.mean (map (Rmult k) xs) = k * Spec.mean xs.
Proof.
  unfold Spec.mean; rewrite sum_of_scaled, length_map.
  unfold Rdiv; lra.
Qed.

Lemma squares_of_scaled k m xs :
  fold_right (fun x acc => (x - k * m) * (x - k * m) + acc) 0
    (map (Rmult k) xs) =
  k * k * fold_right (fun x acc => (x - m) * (x - m) + acc) 0 xs.
Proof. induction xs as [|x xs IH]; simpl; [lra | rewrite IH; lra]. Qed.

Lemma variance_of_scaled k xs :
  Spec.variance (map (Rmult k) xs) = k * k * Spec.variance xs.
Proof.
  unfold Spec.variance.
  rewrite mean_of_scaled, squares_of_scaled, length_map.
  unfold Rdiv; lra.
Qed.

(** Stability does not depend on the unit of the values: scaling a series
    by a factor other than zero leaves its stability unchanged. *)
Theorem stability_ignores_the_unit :
  forall (k : R) (values : list R),
    k <> 0 ->
    calculateStability (map (Rmult k) values) = calculateStability values.
Proof.
  intros k values Hk.
  rewrite !calculateStability_cases, length_map, mean_of_scaled.
  destruct (List.length values <? 2)%nat; [reflexivity|].
  destruct (Req_dec_T (Spec.mean values) 0) as [E|E].
  - destruct (Req_dec_T (k * Spec.mean values) 0) as [|N]; [reflexivity|].
    rewrite E in N; lra.
  - destruct (Req_dec_T (k * Spec.mean values) 0) as [Z|_].
    + apply Rmult_integral in Z; destruct Z; contradiction.
    + f_equal; f_equal.
      unfold Spec.coefficientOfVariation, Spec.standardDeviation.
      rewrite variance_of_scaled, mean_of_scaled.
      rewrite sqrt_mult by
        (try apply spec_variance_nonneg;
         pose proof (Rle_0_sqr k) as Hs; unfold Rsqr in Hs; lra).
      fold (Rsqr k); rewrite sqrt_Rsqr_abs, Rabs_mult.
      assert (Rabs k <> 0) by now apply Rabs_no_R0.
      assert (Rabs (Spec.mean values) <> 0) by now apply Rabs_no_R0.
      field; split; assumption.
Qed.

Lemma stability_ignores_the_unit_witness :
  calculateStability (map (Rmult 1000) [1; 2; 3]) =
  calculateStability [1; 2; 3].
Proof.
  apply (stability_ignores_the_unit 1000 [1; 2; 3]); lra.
Defined.

Lemma sum_of_constant c (xs : list R) :
  (forall x, In x xs -> x = c) ->
  fold_right Rplus 0 xs = INR (List.length xs) * c.
Proof.
  induction xs as [|x xs IH]; intros H.
  - simpl; lra.
  - change (List.length (x :: xs)) with (S (List.length xs)).
    rewrite S_INR; simpl.
    rewrite IH by (intros; apply H; now right).
    rewrite (H x) by now left.
    lra.
Qed.

Lemma squares_of_constant c (xs : list R) :
  (forall x, In x xs -> x = c) ->
  fold_right (fun x acc => (x - c) * (x - c) + acc) 0 xs = 0.
Proof.
  induction xs as [|x xs IH]; intros H; simpl; [reflexivity|].
  rewrite IH by (intros; apply H; now right).
  rewrite (H x) by now left.
  lra.
Qed.

(** A series that repeats one value other than zero is perfectly
    stable. *)
Theorem constant_series_is_stable :
  forall (c : R) (values : list R),
    c <> 0 ->
    (forall x, In x values -> x = c) ->
    calculateStability values = 1.
Proof.
  intros c values Hc Hall.
  rewrite calculateStability_cases.
  destruct (List.length values <? 2)%nat eqn:E; [reflexivity|].
  apply Nat.ltb_ge in E.
  assert (Hn : 0 < INR (List.length values)) by (apply lt_0_INR; lia).
  assert (Hm : Spec.mean values = c).
  { unfold Spec.mean; rewrite (sum_of_constant c) by exact Hall.
    field; lra. }
  destruct (Req_dec_T (Spec.mean values) 0) as [Z|_]; [congruence|].
  unfold Spec.coefficientOfVariation, Spec.standardDeviation, Spec.variance.
  rewrite Hm, squares_of_constant by exact Hall.
  unfold Rdiv at 2; rewrite Rmult_0_l, sqrt_0.
  unfold Rdiv; rewrite Rmult_0_l, Rminus_0_r.
  unfold Spec.clamp.
  rewrite Rmin_left, Rmax_right by lra; reflexivity.
Qed.

Lemma constant_series_is_stable_witness :
  calculateStability [0.4; 0.4; 0.4] = 1.
Proof.
  apply (constant_series_is_stable 0.4 [0.4; 0.4; 0.4]).
  - lra.
  - intros x [<-|[<-|[<-|[]]]]; reflexivity.
Defined.

End StabilityProperties.

Section MoatScores.
Import Types Moat.

Variable toFixed : R -> nat -> string.

Ltac undecided a :=
  lazymatch a with
  | context [Rge_dec _ _] => fail
  | context [Rlt_dec _ _] => fail
  | context [Rgt_dec _ _] => fail
  | _ => idtac
  end.

Ltac decide_in H :=
  unfold JS.ge, JS.lt, JS.gt in H;
  repeat (match type of H with
          | context [Rge_dec ?a ?b] => undecided a; destruct (Rge_dec a b)
          | context [Rlt_dec ?a ?b] => undecided a; destruct (Rlt_dec a b)
          | context [Rgt_dec ?a ?b] => undecided a; destruct (Rgt_dec a b)
          end; cbv beta iota zeta in H).

(** Closes a bound on a score that is clamped by [Math.min] and
    [Math.max]. *)
Ltac clamp_bounds :=
  unfold JS.min, JS.max, Rmin, Rmax;
  repeat match goal with
         | |- context [Rle_dec ?a ?b] =>
             lazymatch b with
             | context [Rle_dec _ _] => fail
             | _ => destruct (Rle_dec a b)
             end
         end;
  lra.

Lemma brandPower_score_range financials ratios :
  1 <= score (analyzeBrandPower toFixed financials ratios) <= 4.
Proof.
  set (d := analyzeBrandPower toFixed financials ratios).
  assert (H : d = analyzeBrandPower toFixed financials ratios) by reflexivity.
  clearbody d; unfold analyzeBrandPower in H.
  cbv zeta in H.
  revert H; generalize (calculateStability
    (map (fun stmt => if JS.gt (revenue stmt) 0
                      then grossProfit stmt / revenue stmt else 0)
         (incomeStatements financials))).
  intros st H.
  decide_in H; subst d; cbn [score]; clamp_bounds.
Qed.

Lemma costAdvantage_score_range financials ratios :
  1 <= score (analyzeCostAdvantage toFixed financials ratios) <= 4.
Proof.
  set (d := analyzeCostAdvantage toFixed financials ratios).
  assert (H : d = analyzeCostAdvantage toFixed financials ratios)
    by reflexivity.
  clearbody d; unfold analyzeCostAdvantage in H.
  cbv zeta in H.
  revert H.
  generalize (map (fun stmt => if JS.gt (revenue stmt) 0
                               then operatingIncome stmt / revenue stmt
                               else 0)
                  (incomeStatements financials)).
  intros margins.
  generalize ((nth 0 margins 0 - nth (List.length margins - 1) margins 0) /
              JS.abs (JS.or_default
                        (Some (nth (List.length margins - 1) margins 0)) 1)).
  intros trend H.
  destruct (3 <=? List.length margins)%nat;
    decide_in H; subst d; cbn [score]; clamp_bounds.
Qed.

Lemma networkEffect_score_range financials ratios :
  1 <= score (analyzeNetworkEffect toFixed financials ratios) <= 4.
Proof.
  set (d := analyzeNetworkEffect toFixed financials ratios).
  assert (H : d = analyzeNetworkEffect toFixed financials ratios)
    by reflexivity.
  clearbody d; unfold analyzeNetworkEffect in H.
  cbv zeta in H.
  revert H.
  generalize (map (fun stmt => if JS.gt (revenue stmt) 0
                               then netIncome stmt / revenue stmt else 0)
                  (incomeStatements financials)).
  intros margins.
  generalize (map revenue (incomeStatements financials)).
  intros revenues H.
  destruct (Ratios.revenueGrowth5Y ratios) as [rg|];
    destruct (3 <=? List.length revenues)%nat;
    try destruct (JS.gt (nth 0 revenues 0) _ && JS.gt (nth 0 margins 0) _);
    decide_in H; subst d; cbn [score]; clamp_bounds.
Qed.

Lemma switchingCosts_score_range financials ratios :
  1 <= score (analyzeSwitchingCosts financials ratios) <= 4.5.
Proof.
  set (d := analyzeSwitchingCosts financials ratios).
  assert (H : d = analyzeSwitchingCosts financials ratios)
    by reflexivity.
  clearbody d; unfold analyzeSwitchingCosts in H.
  cbv zeta in H.
  revert H.
  generalize (map revenue (incomeStatements financials)).
  intros revenues.
  generalize (calculateStability revenues).
  intros st H.
  destruct (everyAtLeastNext revenues && (3 <=? List.length revenues)%nat);
    decide_in H; subst d; cbn [score]; clamp_bounds.
Qed.

Lemma scaleEconomies_score_range financials quote profile ratios :
  1 <= score (analyzeScaleEconomies toFixed financials quote profile ratios)
    <= 4.5.
Proof.
  set (d := analyzeScaleEconomies toFixed financials quote profile ratios).
  assert (H : d = analyzeScaleEconomies toFixed financials quote profile ratios)
    by reflexivity.
  clearbody d; unfold analyzeScaleEconomies in H.
  cbv zeta in H.
  revert H.
  generalize (JS.or_default
                (option_map revenue
                   (nth_error (incomeStatements financials) 0)) 0).
  intros latest H.
  destruct (employees profile) as [emp|].
  - destruct (JS.truthy emp && JS.gt emp 0);
      revert H; generalize (latest / emp); intros rpe H;
      decide_in H; subst d; cbn [score]; clamp_bounds.
  - decide_in H; subst d; cbn [score]; clamp_bounds.
Qed.

(** Every dimension scores within the documented range [1, 5]: brand
    power, cost advantage and network effect at most 4, switching costs
    and scale economies at most 4.5; so the overall score lies in
    [1, 4.5]. *)
Theorem moat_scores_stay_in_range :
  forall (now : Date) (financials : Financials) (quote : StockQuote)
         (profile : CompanyProfile),
    let a := analyzeMoat toFixed now financials quote profile in
    1 <= score (brandPower (dimensions a)) <= 4 /\
    1 <= score (costAdvantage (dimensions a)) <= 4 /\
    1 <= score (networkEffect (dimensions a)) <= 4 /\
    1 <= score (switchingCosts (dimensions a)) <= 4.5 /\
    1 <= score (scaleEconomies (dimensions a)) <= 4.5 /\
    1 <= overallScore a <= 4.5.
Proof.
  intros now financials quote profile a.
  set (ratios := Ratios.calculateFinancialRatios financials (Some quote)).
  pose proof (brandPower_score_range financials ratios) as Hb.
  pose proof (costAdvantage_score_range financials ratios) as Hc.
  pose proof (networkEffect_score_range financials ratios) as Hn.
  pose proof (switchingCosts_score_range financials ratios) as Hs.
  pose proof (scaleEconomies_score_range financials quote profile ratios)
    as He.
  assert (Ho : overallScore a =
               JS.max_of (score (analyzeBrandPower toFixed financials ratios))
                 [score (analyzeCostAdvantage toFixed financials ratios);
                  score (analyzeNetworkEffect toFixed financials ratios);
                  score (analyzeSwitchingCosts financials ratios);
                  score (analyzeScaleEconomies toFixed financials quote
                           profile ratios)]) by reflexivity.
  change (score (brandPower (dimensions a)))
    with (score (analyzeBrandPower toFixed financials ratios)).
  change (score (costAdvantage (dimensions a)))
    with (score (analyzeCostAdvantage toFixed financials ratios)).
  change (score (networkEffect (dimensions a)))
    with (score (analyzeNetworkEffect toFixed financials ratios)).
  change (score (switchingCosts (dimensions a)))
    with (score (analyzeSwitchingCosts financials ratios)).
  change (score (scaleEconomies (dimensions a)))
    with (score (analyzeScaleEconomies toFixed financials quote profile
                   ratios)).
  repeat (split; [lra|]).
  rewrite Ho; split.
  - eapply Rle_trans; [|apply JSFacts.max_of_ge_start]; lra.
  - destruct (JSFacts.max_of_in
                (score (analyzeBrandPower toFixed financials ratios))
                [score (analyzeCostAdvantage toFixed financials ratios);
                 score (analyzeNetworkEffect toFixed financials ratios);
                 score (analyzeSwitchingCosts financials ratios);
                 score (analyzeScaleEconomies toFixed financials quote
                          profile ratios)])
      as [E|[E|[E|[E|[E|[]]]]]]; rewrite <- E; lra.
Qed.

End MoatScores.

Section MoatDurability.
Import Types Moat.

Variable toFixed : R -> nat -> string.

Ltac undecided a :=
  lazymatch a with
  | context [Rge_dec _ _] => fail
  | context [Rlt_dec _ _] => fail
  | context [Rgt_dec _ _] => fail
  | _ => idtac
  end.

Ltac decide_in H :=
  unfold JS.ge, JS.lt, JS.gt in H;
  repeat (match type of H with
          | context [Rge_dec ?a ?b] => undecided a; destruct (Rge_dec a b)
          | context [Rlt_dec ?a ?b] => undecided a; destruct (Rlt_dec a b)
          | context [Rgt_dec ?a ?b] => undecided a; destruct (Rgt_dec a b)
          end; cbv beta iota zeta in H).

Ltac clamp_cases :=
  unfold JS.min, JS.max, Rmin, Rmax;
  repeat match goal with
         | |- context [Rle_dec ?a ?b] =>
             lazymatch b with
             | context [Rle_dec _ _] => fail
             | _ => destruct (Rle_dec a b)
             end
         end;
  repeat split; intros;
  first [reflexivity | lra | discriminate | (exfalso; lra)].

(** The durability record in terms of the score before the clamp. *)
Lemma durability_from_raw_score financials ratios overall :
  let d := analyzeDurability financials ratios overall in
  exists raw : R,
    overall - 1 <= raw <= overall + 1.5 /\
    d_score d = Rmax 1 (Rmin 5 raw) /\
    assessment d =
      if Rge_dec raw 4 then strong
      else if Rge_dec raw 2.5 then moderate else weak.
Proof.
  intros d.
  assert (H : d = analyzeDurability financials ratios overall) by reflexivity.
  clearbody d; unfold analyzeDurability in H; cbv zeta in H.
  revert H.
  generalize (roeValuesOf (incomeStatements financials)
                (balanceSheets financials)).
  intros roe.
  generalize (map freeCashFlow (cashFlowStatements financials)).
  intros fcf.
  generalize (JS.ge (JS.sum roe / JS.length roe) 0.15 &&
              JS.ge (calculateStability roe) 0.8).
  generalize (JS.ge (JS.sum roe / JS.length roe) 0.10 &&
              JS.ge (calculateStability roe) 0.6).
  generalize ((List.length (filter (fun fcf0 => JS.gt fcf0 0) fcf)
               =? List.length fcf)%nat && (3 <=? List.length fcf)%nat).
  generalize (JS.ge (INR (List.length (filter (fun fcf0 => JS.gt fcf0 0) fcf)))
                (JS.length fcf * 0.8)).
  intros b1 b2 b3 b4 H.
  destruct b1, b2, b3, b4; cbv beta iota zeta in H;
    match type of H with
    | context [JS.ge ?raw 4] =>
        exists raw; split; [lra|];
        subst d; unfold JS.ge, JS.max, JS.min;
        destruct (Rge_dec raw 4); [|destruct (Rge_dec raw 2.5)];
        split; reflexivity
    end.
Qed.

(** The durability score lies in [1, 5] and stays within one point below
    and one and a half points above the moat score it starts from; the
    assessment is [strong] exactly from a durability score of 4,
    [moderate] from 2.5 and [weak] below. *)
Theorem durability_follows_the_moat_score :
  forall (financials : Financials) (ratios : Ratios.FinancialRatios)
         (overall : R),
    let d := analyzeDurability financials ratios overall in
    1 <= d_score d <= 5 /\
    Rmax 1 (Rmin 5 (overall - 1)) <= d_score d /\
    d_score d <= Rmax 1 (Rmin 5 (overall + 1.5)) /\
    (assessment d = strong <-> 4 <= d_score d) /\
    (assessment d = moderate <-> 2.5 <= d_score d < 4) /\
    (assessment d = weak <-> d_score d < 2.5).
Proof.
  intros financials ratios overall d.
  destruct (durability_from_raw_score financials ratios overall)
    as (raw & Hraw & Hs & Ha).
  fold d in Hs, Ha; rewrite Hs, Ha; clear Hs Ha d.
  destruct (Rge_dec raw 4); [|destruct (Rge_dec raw 2.5)]; clamp_cases.
Qed.

End MoatDurability.

Section SparseHistory.
Import Types Moat.

Variable toFixed : R -> nat -> string.

Lemma stability_of_short_series values :
  (List.length values < 2)%nat -> calculateStability values = 1.
Proof.
  intros H; rewrite calculateStability_cases.
  apply Nat.ltb_lt in H; now rewrite H.
Qed.

Lemma switchingCosts_of_short_history financials ratios :
  (List.length (incomeStatements financials) < 2)%nat ->
  score (analyzeSwitchingCosts financials ratios) =
    if JS.ge (Ratios.grossMargin ratios) 0.50 then 3.5 else 3.
Proof.
  intros H; unfold analyzeSwitchingCosts; cbv zeta.
  rewrite stability_of_short_series by (rewrite length_map; exact H).
  replace (JS.ge 1 0.95) with true by (symmetry; apply JSFacts.ge_true; lra).
  replace (3 <=? List.length (map revenue (incomeStatements financials)))%nat
    with false by (symmetry; apply Nat.leb_gt; rewrite length_map; lia).
  rewrite andb_false_r.
  destruct (JS.ge (Ratios.grossMargin ratios) 0.50); cbn [score];
    unfold JS.min; rewrite Rmin_right by lra; lra.
Qed.

(** With fewer than two income statements the revenue counts as perfectly
    stable: switching costs score at least 3, and the moat is never rated
    [none], whatever the figures are.  With no income statement at all the
    overall score is exactly 3 and the rating [narrow]. *)
Theorem sparse_history_still_rates_a_moat :
  forall (now : Date) (financials : Financials) (quote : StockQuote)
         (profile : CompanyProfile),
    (List.length (incomeStatements financials) < 2)%nat ->
    let a := analyzeMoat toFixed now financials quote profile in
    3 <= score (switchingCosts (dimensions a)) /\
    3 <= overallScore a /\
    moatRating a <> none /\
    (incomeStatements financials = [] ->
     overallScore a = 3 /\ moatRating a = narrow).
Proof.
  intros now financials quote profile Hshort a.
  set (ratios := Ratios.calculateFinancialRatios financials (Some quote)).
  pose proof (switchingCosts_of_short_history financials ratios Hshort) as Hs.
  assert (Hs3 : 3 <= score (analyzeSwitchingCosts financials ratios)).
  { rewrite Hs; destruct (JS.ge _ 0.50); lra. }
  assert (Ho : overallScore a =
               JS.max_of (score (analyzeBrandPower toFixed financials ratios))
                 [score (analyzeCostAdvantage toFixed financials ratios);
                  score (analyzeNetworkEffect toFixed financials ratios);
                  score (analyzeSwitchingCosts financials ratios);
                  score (analyzeScaleEconomies toFixed financials quote
                           profile ratios)]) by reflexivity.
  assert (Hr : moatRating a =
               if JS.ge (overallScore a) 4 then wide
               else if JS.ge (overallScore a) 2.5 then narrow else none)
    by reflexivity.
  assert (Ho3 : 3 <= overallScore a).
  { rewrite Ho; eapply Rle_trans; [exact Hs3|].
    apply JSFacts.max_of_ge_each; simpl; tauto. }
  split; [exact Hs3|].
  split; [exact Ho3|].
  split.
  { rewrite Hr; unfold JS.ge.
    destruct (Rge_dec (overallScore a) 4); [discriminate|].
    destruct (Rge_dec (overallScore a) 2.5); [discriminate | lra]. }
  intros Hempty.
  assert (Hd : ratios = Ratios.getDefaultRatios).
  { unfold ratios, Ratios.calculateFinancialRatios; now rewrite Hempty. }
  assert (Hb : score (analyzeBrandPower toFixed financials ratios) <= 3).
  { rewrite Hd; unfold analyzeBrandPower; cbv zeta.
    rewrite Hempty; cbn [map Ratios.grossMargin Ratios.getDefaultRatios].
    rewrite stability_of_short_series by (simpl; lia).
    unfold JS.ge.
    repeat match goal with
           | |- context [Rge_dec ?x ?y] => destruct (Rge_dec x y)
           end; try (exfalso; lra);
      cbn [score]; unfold JS.min; rewrite Rmin_right by lra; lra. }
  assert (Hc : score (analyzeCostAdvantage toFixed financials ratios) <= 3).
  { rewrite Hd; unfold analyzeCostAdvantage; cbv zeta.
    rewrite Hempty; cbn [map Ratios.operatingMargin Ratios.getDefaultRatios
                         List.length Nat.leb].
    unfold JS.ge.
    repeat match goal with
           | |- context [Rge_dec ?x ?y] => destruct (Rge_dec x y)
           end; try (exfalso; lra);
      cbn [score]; unfold JS.min, JS.max;
      rewrite Rmax_left, Rmin_right by lra; lra. }
  assert (Hn : score (analyzeNetworkEffect toFixed financials ratios) <= 3).
  { rewrite Hd; unfold analyzeNetworkEffect; cbv zeta.
    rewrite Hempty; cbn [map Ratios.revenueGrowth5Y Ratios.getDefaultRatios
                         List.length Nat.leb score].
    unfold JS.min; rewrite Rmin_right by lra; lra. }
  assert (He : score (analyzeScaleEconomies toFixed financials quote profile
                        ratios) <= 3).
  { unfold analyzeScaleEconomies; cbv zeta.
    rewrite Hempty; cbn [nth_error option_map JS.or_default].
    destruct (employees profile) as [emp|].
    - destruct (JS.truthy emp && JS.gt emp 0) eqn:E.
      + apply andb_true_iff in E; destruct E as [_ E].
        apply JSFacts.gt_true in E.
        replace (0 / emp) with 0 by (field; lra).
        unfold JS.ge.
        repeat match goal with
               | |- context [Rge_dec ?x ?y] => destruct (Rge_dec x y)
               end; try (exfalso; lra);
          cbn [score]; unfold JS.min; rewrite Rmin_right by lra; lra.
      + unfold JS.ge.
        repeat match goal with
               | |- context [Rge_dec ?x ?y] => destruct (Rge_dec x y)
               end; cbn [score]; unfold JS.min;
          rewrite Rmin_right by lra; lra.
    - unfold JS.ge.
      repeat match goal with
             | |- context [Rge_dec ?x ?y] => destruct (Rge_dec x y)
             end; cbn [score]; unfold JS.min;
        rewrite Rmin_right by lra; lra. }
  assert (Hs' : score (analyzeSwitchingCosts financials ratios) = 3).
  { rewrite Hs, Hd; cbn [Ratios.grossMargin Ratios.getDefaultRatios].
    replace (JS.ge 0 0.50) with false
      by (symmetry; apply JSFacts.ge_false; lra).
    reflexivity. }
  assert (Ho' : overallScore a = 3).
  { apply Rle_antisym; [|exact Ho3].
    rewrite Ho.
    destruct (JSFacts.max_of_in
                (score (analyzeBrandPower toFixed financials ratios))
                [score (analyzeCostAdvantage toFixed financials ratios);
                 score (analyzeNetworkEffect toFixed financials ratios);
                 score (analyzeSwitchingCosts financials ratios);
                 score (analyzeScaleEconomies toFixed financials quote
                          profile ratios)])
      as [E|[E|[E|[E|[E|[]]]]]]; rewrite <- E; lra. }
  split; [exact Ho'|].
  rewrite Hr, Ho'; unfold JS.ge.
  destruct (Rge_dec 3 4); [exfalso; lra|].
  destruct (Rge_dec 3 2.5); [reflexivity | exfalso; lra].
Qed.

End SparseHistory.

Lemma sparse_history_still_rates_a_moat_witness :
  let a :=
    Moat.analyzeMoat Samples.noDigits 0%Z Samples.noShareCount Samples.quote
      Samples.profile in
  3 <= Moat.score (Moat.switchingCosts (Moat.dimensions a)) /\
  3 <= Moat.overallScore a /\
  Moat.moatRating a <> Moat.none /\
  (Types.incomeStatements Samples.noShareCount = [] ->
   Moat.overallScore a = 3 /\ Moat.moatRating a = Moat.narrow).
Proof.
  apply (sparse_history_still_rates_a_moat Samples.noDigits 0%Z
           Samples.noShareCount Samples.quote Samples.profile).
  simpl; lia.
Defined.

(** ** Graham valuation *)

Section GrahamFormulas.
Import Types Graham.

(** The Graham number is 0 exactly when the earnings or the book value
    per share are not positive; otherwise its square is 22.5 times their
    product, and a price is at most the Graham number exactly when its
    price-to-earnings times its price-to-book ratio is at most 22.5. *)
Theorem graham_number_is_the_price_ceiling :
  forall eps bookValue : R,
    0 <= calculateGrahamNumber eps bookValue /\
    (calculateGrahamNumber eps bookValue = 0 <-> eps <= 0 \/ bookValue <= 0) /\
    (0 < eps -> 0 < bookValue ->
     calculateGrahamNumber eps bookValue * calculateGrahamNumber eps bookValue
       = 22.5 * eps * bookValue /\
     forall price, 0 < price ->
       (price <= calculateGrahamNumber eps bookValue <->
        (price / eps) * (price / bookValue) <= 22.5)).
Proof.
  intros eps bv; unfold calculateGrahamNumber, JS.sqrt.
  destruct (JS.le eps 0) eqn:Ee; [|destruct (JS.le bv 0) eqn:Eb]; cbn [orb].
  - apply JSFacts.le_true in Ee.
    split; [lra|]; split; [tauto|]; intros; lra.
  - apply JSFacts.le_true in Eb.
    split; [lra|]; split; [tauto|]; intros; lra.
  - apply JSFacts.le_false in Ee; apply JSFacts.le_false in Eb.
    assert (Hx : 0 < 22.5 * eps * bv) by nra.
    pose proof (sqrt_lt_R0 _ Hx) as Hs.
    pose proof (sqrt_sqrt (22.5 * eps * bv) (Rlt_le _ _ Hx)) as Hsq.
    set (gn := sqrt (22.5 * eps * bv)) in *.
    split; [lra|]; split; [split; intros; lra|].
    intros _ _; split; [exact Hsq|].
    intros price Hp.
    assert (Hr : price / eps * (price / bv) * (eps * bv) = price * price).
    { assert (He1 : / eps * eps = 1) by (apply Rinv_l; lra).
      assert (Hb1 : / bv * bv = 1) by (apply Rinv_l; lra).
      unfold Rdiv.
      replace (price * / eps * (price * / bv) * (eps * bv))
        with (price * price * (/ eps * eps) * (/ bv * bv)) by lra.
      rewrite He1, Hb1; lra. }
    assert (Heb : 0 < eps * bv) by nra.
    split; intros H.
    + assert (price * price <= gn * gn) by nra.
      apply Rmult_le_reg_r with (r := eps * bv); [exact Heb|].
      rewrite Hr; lra.
    + apply Rmult_le_compat_r with (r := eps * bv) in H; [|lra].
      rewrite Hr in H.
      destruct (Rle_dec price gn) as [|Hgt]; [assumption|].
      exfalso; apply Rnot_le_lt in Hgt.
      assert (gn * gn < price * price) by nra.
      lra.
Qed.

(** The Graham growth value is null exactly when the earnings per share
    or the bond yield are not positive.  Otherwise it is the formula
    [eps * (8.5 + 2g) * 4.4 / Y] floored at 0, with [g] and [Y] in
    percent: it does not fall when the growth rate rises, it is 0 for a
    growth rate of -4.25% or less, and at zero growth and a yield of 4.4%
    it is 8.5 times the earnings. *)
Theorem graham_growth_value_properties :
  forall eps growth bondYield : R,
    (calculateGrahamGrowthValue eps growth bondYield = None <->
     eps <= 0 \/ bondYield <= 0) /\
    (0 < eps -> 0 < bondYield ->
     exists v,
       calculateGrahamGrowthValue eps growth bondYield = Some v /\
       v = Rmax 0 (eps * (8.5 + 200 * growth) * 4.4 / (100 * bondYield)) /\
       0 <= v /\
       (growth <= -0.0425 -> v = 0) /\
       (forall growth' v',
          growth <= growth' ->
          calculateGrahamGrowthValue eps growth' bondYield = Some v' ->
          v <= v')) /\
    (0 < eps -> calculateGrahamGrowthValue eps 0 0.044 = Some (8.5 * eps)).
Proof.
  intros eps g y; unfold calculateGrahamGrowthValue.
  split; [|split].
  - destruct (JS.le eps 0) eqn:Ee; [|destruct (JS.le y 0) eqn:Ey]; cbn [orb];
      try apply JSFacts.le_true in Ee; try apply JSFacts.le_true in Ey;
      try apply JSFacts.le_false in Ee; try apply JSFacts.le_false in Ey;
      split; intros H; try tauto; try discriminate.
    destruct H; lra.
  - intros He Hy.
    replace (JS.le eps 0) with false by (symmetry; apply JSFacts.le_false; lra).
    replace (JS.le y 0) with false by (symmetry; apply JSFacts.le_false; lra).
    cbn [orb]; cbv zeta; unfold JS.max.
    assert (Hk : 0 < eps * 4.4 / (100 * y)).
    { apply Rmult_lt_0_compat; [lra | apply Rinv_0_lt_compat; lra]. }
    assert (Hf : forall a,
               eps * (8.5 + 2 * (a * 100)) * 4.4 / (y * 100) =
               (8.5 + 200 * a) * (eps * 4.4 / (100 * y)))
      by (intros; unfold Rdiv; rewrite !Rinv_mult; lra).
    eexists; split; [reflexivity|].
    rewrite Hf.
    split; [f_equal; unfold Rdiv; rewrite !Rinv_mult; lra|].
    split; [apply Rmax_l|].
    split.
    + intros Hg; apply Rmax_left.
      assert (0 <= - (8.5 + 200 * g)) by lra.
      assert (0 <= - (8.5 + 200 * g) * (eps * 4.4 / (100 * y)))
        by (apply Rmult_le_pos; lra).
      lra.
    + intros g' v' Hgg E; inversion E; subst v'; clear E.
      rewrite Hf.
      apply Rle_max_compat_l, Rmult_le_compat_r; lra.
  - intros He.
    replace (JS.le eps 0) with false by (symmetry; apply JSFacts.le_false; lra).
    replace (JS.le 0.044 0) with false
      by (symmetry; apply JSFacts.le_false; lra).
    cbn [orb]; cbv zeta; unfold JS.max.
    f_equal.
    replace (eps * (8.5 + 2 * (0 * 100)) * 4.4 / (0.044 * 100))
      with (8.5 * eps) by lra.
    apply Rmax_right; lra.
Qed.

End GrahamFormulas.

Section GrahamValuation.
Import Types Graham.

Variable bookValuePerShare : BalanceSheet -> R.
Variable dividendYield : StockQuote -> option R.
Variable toFixed : R -> nat -> string.

(** The checklist always holds the same seven criteria, in the same
    order. *)
Lemma defensive_criteria_names financials quote :
  map criterion (evaluateDefensiveCriteria dividendYield toFixed financials
                   quote) =
  ["Adequate Size"; "Strong Financial Condition"; "Earnings Stability";
   "Dividend Record"; "Earnings Growth"; "Moderate P/E Ratio";
   "Moderate Price to Assets"]%string.
Proof. reflexivity. Qed.

(** A company passes the defensive checklist only with a market
    capitalisation of at least 500 million, a balance sheet whose current
    assets are at least twice the current liabilities, at least three
    income statements, a positive dividend yield and a price-to-earnings
    ratio in (0, 15].  With no income statement at all the earnings
    stability criterion passes, although the checklist as a whole
    fails. *)
Theorem defensive_checklist_requirements :
  forall (financials : Financials) (quote : StockQuote)
         (bondYield : option R),
    let r :=
      calculateGrahamValuation bookValuePerShare dividendYield toFixed
        financials quote bondYield in
    List.length (defensiveCriteria r) = 7%nat /\
    (passesDefensiveCriteria r = true ->
     marketCap quote >= 500000000 /\
     (exists balance,
         nth_error (balanceSheets financials) 0 = Some balance /\
         currentAssets balance /
         JS.or_default (Some (currentLiabilities balance)) 1 >= 2) /\
     (3 <= List.length (incomeStatements financials))%nat /\
     (exists y, dividendYield quote = Some y /\ y > 0) /\
     (exists pe, Types.pe quote = Some pe /\ 0 < pe <= 15)) /\
    (incomeStatements financials = [] ->
     passed (nth 2 (defensiveCriteria r)
               {| criterion := ""; passed := false; detail := "" |}) = true /\
     passesDefensiveCriteria r = false).
Proof.
  intros financials quote bondYield r.
  split; [reflexivity|].
  subst r; unfold calculateGrahamValuation; cbv zeta.
  cbn [passesDefensiveCriteria defensiveCriteria].
  unfold evaluateDefensiveCriteria; cbv zeta.
  cbn [forallb passed nth].
  split.
  - rewrite !andb_true_iff.
    intros (H1 & H2 & H3 & H4 & H5 & H6 & H7 & _).
    apply JSFacts.ge_true in H1.
    split; [exact H1|].
    split.
    { destruct (nth_error (balanceSheets financials) 0) as [balance|].
      - exists balance; split; [reflexivity|].
        apply JSFacts.ge_true in H2; lra.
      - apply JSFacts.ge_true in H2; lra. }
    split.
    { destruct (3 <=? List.length (incomeStatements financials))%nat eqn:E.
      - now apply Nat.leb_le in E.
      - apply JSFacts.ge_true in H5; lra. }
    split.
    { destruct (dividendYield quote) as [y|]; [|discriminate].
      exists y; split; [reflexivity|].
      now apply JSFacts.gt_true in H4. }
    destruct H6 as [Hp Hq].
    apply JSFacts.gt_true in Hp; apply JSFacts.le_true in Hq.
    destruct (Types.pe quote) as [pe|]; simpl in Hp, Hq.
    + exists pe; split; [reflexivity|].
      destruct (JS.truthy pe); lra.
    + lra.
  - intros Hempty; rewrite Hempty.
    cbn [filter List.length Nat.min Nat.leb].
    split; [reflexivity|].
    replace (JS.ge 0 0.33) with false
      by (symmetry; apply JSFacts.ge_false; lra).
    rewrite !andb_false_r; reflexivity.
Qed.

(** A Graham growth value is reported only for a company with at least
    three income statements whose earnings per share grew: then the growth
    rate is the positive CAGR of the earnings, the earnings and the bond
    yield are positive, and the value is the formula itself, above 0.
    Without a bond yield the valuation uses 4%. *)
Theorem graham_growth_value_needs_growth :
  forall (financials : Financials) (quote : StockQuote)
         (yield : option R) (v : R),
    let r :=
      calculateGrahamValuation bookValuePerShare dividendYield toFixed
        financials quote yield in
    grahamGrowthValue r = Some v ->
    bondYield r = match yield with Some y => y | None => 0.04 end /\
    (3 <= List.length (incomeStatements financials))%nat /\
    0 < g_eps r /\ 0 < bondYield r /\
    exists g,
      growthRate r = Some g /\ 0 < g /\
      v = g_eps r * (8.5 + 200 * g) * 4.4 / (100 * bondYield r) /\
      0 < v.
Proof.
  intros financials quote yield v r.
  subst r; unfold calculateGrahamValuation; cbv zeta.
  cbn [grahamGrowthValue bondYield g_eps growthRate].
  set (y := match yield with Some y => y | None => 0.04 end).
  set (e := JS.or_default
              (option_map eps (nth_error (incomeStatements financials) 0)) 0).
  destruct (3 <=? List.length (incomeStatements financials))%nat eqn:E;
    [|discriminate].
  apply Nat.leb_le in E.
  match goal with
  | |- match ?rate with _ => _ end = _ -> _ => destruct rate as [g|]
  end; [|discriminate].
  destruct (JS.gt g 0) eqn:Eg; [|discriminate].
  apply JSFacts.gt_true in Eg.
  unfold calculateGrahamGrowthValue.
  destruct (JS.le e 0) eqn:Ee; [discriminate|].
  destruct (JS.le y 0) eqn:Ey; [discriminate|].
  apply JSFacts.le_false in Ee; apply JSFacts.le_false in Ey.
  cbn [orb]; cbv zeta; intros Hv; inversion Hv as [Hv']; clear Hv.
  split; [reflexivity|].
  split; [exact E|].
  split; [exact Ee|].
  split; [exact Ey|].
  exists g; split; [reflexivity|]; split; [lra|].
  assert (Hpos : 0 < e * (8.5 + 200 * g) * 4.4 / (100 * y)).
  { apply Rmult_lt_0_compat; [|apply Rinv_0_lt_compat; lra].
    apply Rmult_lt_0_compat; [|lra].
    apply Rmult_lt_0_compat; lra. }
  replace (e * (8.5 + 2 * (g * 100)) * 4.4 / (y * 100))
    with (e * (8.5 + 200 * g) * 4.4 / (100 * y))
    by (unfold Rdiv; rewrite !Rinv_mult; lra).
  unfold JS.max; rewrite Rmax_right by lra.
  split; [reflexivity | exact Hpos].
Qed.

End GrahamValuation.

Lemma growingEps_growth_value :
  Graham.grahamGrowthValue
    (Graham.calculateGrahamValuation (fun _ => 12) (fun _ => None)
       Samples.noDigits Samples.growingEps Samples.quote None) = Some 917.4.
Proof.
  unfold Graham.calculateGrahamValuation; cbv zeta.
  cbn [Graham.grahamGrowthValue]; simpl.
  assert (Hg : Ratios.calculateCAGR 1 4 (1 + 1) = Some 1).
  { unfold Ratios.calculateCAGR.
    replace (JS.le 1 0) with false by (symmetry; apply JSFacts.le_false; lra).
    replace (JS.le 4 0) with false by (symmetry; apply JSFacts.le_false; lra).
    replace (JS.le (1 + 1) 0) with false
      by (symmetry; apply JSFacts.le_false; lra).
    cbn [orb]; unfold JS.pow.
    replace (4 / 1) with (2 * 2) by lra.
    replace (1 / (1 + 1)) with (/ 2) by lra.
    rewrite Rpower_sqrt by lra.
    rewrite sqrt_square by lra.
    f_equal; lra. }
  replace (JS.truthy 1) with true by (symmetry; apply JSFacts.truthy_true; lra).
  replace (JS.truthy 4) with true by (symmetry; apply JSFacts.truthy_true; lra).
  replace (JS.gt 1 0) with true by (symmetry; apply JSFacts.gt_true; lra).
  replace (JS.gt 4 0) with true by (symmetry; apply JSFacts.gt_true; lra).
  cbn [andb]; rewrite Hg.
  replace (JS.gt 1 0) with true by (symmetry; apply JSFacts.gt_true; lra).
  unfold Graham.calculateGrahamGrowthValue.
  replace (JS.truthy 4) with true by (symmetry; apply JSFacts.truthy_true; lra).
  cbn [JS.or_default option_map].
  replace (JS.le 4 0) with false by (symmetry; apply JSFacts.le_false; lra).
  replace (JS.le 0.04 0) with false by (symmetry; apply JSFacts.le_false; lra).
  cbn [orb]; cbv zeta; unfold JS.max.
  f_equal; rewrite Rmax_right; lra.
Qed.

Lemma graham_growth_value_needs_growth_witness :
  let r :=
    Graham.calculateGrahamValuation (fun _ => 12) (fun _ => None)
      Samples.noDigits Samples.growingEps Samples.quote None in
  Graham.bondYield r = 0.04 /\
  (3 <= List.length (Types.incomeStatements Samples.growingEps))%nat /\
  0 < Graham.g_eps r /\ 0 < Graham.bondYield r /\
  exists g,
    Graham.growthRate r = Some g /\ 0 < g /\
    917.4 =
      Graham.g_eps r * (8.5 + 200 * g) * 4.4 / (100 * Graham.bondYield r) /\
    0 < 917.4.
Proof.
  apply (graham_growth_value_needs_growth (fun _ => 12) (fun _ => None)
           Samples.noDigits Samples.growingEps Samples.quote None 917.4).
  exact growingEps_growth_value.
Defined.

(** ** Owner earnings *)

Section OwnerEarnings.
Import Types Graham.

(** Owner earnings are 0 without an income statement or without a
    cash-flow statement.  With both, and a capital expenditure that is
    not negative (the providers store its absolute value), they lie
    between the net income plus depreciation less the whole capital
    expenditure and the net income plus depreciation: only 70% of the
    expenditure is charged. *)
Theorem owner_earnings_bounds :
  forall (financials : Financials) (income : IncomeStatement)
         (cashFlow : CashFlowStatement),
    nth_error (incomeStatements financials) 0 = Some income ->
    nth_error (cashFlowStatements financials) 0 = Some cashFlow ->
    0 <= capitalExpenditure cashFlow ->
    netIncome income + depreciation cashFlow - capitalExpenditure cashFlow
      <= calculateOwnerEarnings financials
      <= netIncome income + depreciation cashFlow /\
    calculateOwnerEarnings
      {| incomeStatements := [];
         balanceSheets := balanceSheets financials;
         cashFlowStatements := cashFlowStatements financials |} = 0 /\
    calculateOwnerEarnings
      {| incomeStatements := incomeStatements financials;
         balanceSheets := balanceSheets financials;
         cashFlowStatements := [] |} = 0.
Proof.
  intros financials income cashFlow Hi Hc Hcap.
  unfold calculateOwnerEarnings; cbn [incomeStatements cashFlowStatements].
  rewrite Hi, Hc; cbv zeta.
  split; [lra|]; split; reflexivity.
Qed.

Lemma owner_earnings_bounds_witness :
  netIncome (Samples.income 100 3.5 0) + depreciation (Samples.cashFlow 35)
    - capitalExpenditure (Samples.cashFlow 35)
    <= calculateOwnerEarnings Samples.noShareCount
    <= netIncome (Samples.income 100 3.5 0)
       + depreciation (Samples.cashFlow 35) /\
  calculateOwnerEarnings
    {| incomeStatements := [];
       balanceSheets := balanceSheets Samples.noShareCount;
       cashFlowStatements := cashFlowStatements Samples.noShareCount |} = 0 /\
  calculateOwnerEarnings
    {| incomeStatements := incomeStatements Samples.noShareCount;
       balanceSheets := balanceSheets Samples.noShareCount;
       cashFlowStatements := [] |} = 0.
Proof.
  apply (owner_earnings_bounds Samples.noShareCount
           (Samples.income 100 3.5 0) (Samples.cashFlow 35));
    [reflexivity | reflexivity | simpl; lra].
Defined.

End OwnerEarnings.
